(** * The pipeline controller of [backend/orchestrator.py]

    A shallow embedding of [Orchestrator]: the request record, the four
    stage runners with their bounded retry loops, the feedback formatters,
    the response compilers and the state lookup.

    The four agents sit behind a method call.  They are a record of
    functions from the index of the call and its arguments to an outcome, a
    returned dictionary or a raised exception, so that a universally
    quantified statement ranges over every behaviour an agent can show.  The
    syntax checker and the hallucination detector run locally; their status
    logic is embedded too, over Python's parser.

    Python exceptions are explicit: a computation returns [Ret v] or
    [Raise msg], where [msg] is [str(e)], and the mutations made before the
    raise are kept, as in Python.

    The development has two parts.  The first is the controller without its
    console: the calls of [_log] are left out (the expressions their
    f-strings evaluate are kept where they can raise), and every exception
    is an instance of [Exception], the class every handler of the file
    names.  The second part, [Verbose], is the controller with every call of
    [_log] in its place, a standard output on which [print] can raise, and
    the exceptions that [except Exception] lets through.  The first part is
    proved to be what the second does when [verbose] is off or every line is
    printed and the agents raise nothing but instances of [Exception]
    ([generate_code_refines]); statements that depend on the console are made
    about the second part. *)

From Stdlib Require Import ZArith Ascii String List Lia.
From stdpp Require Import base option list gmap strings pretty.

Local Open Scope string_scope.
Local Open Scope nat_scope.

(** ** Python values *)

(** The values that cross the controller untouched (candidate code, the
    review dictionary, the final payload).  A [dict] keeps its insertion
    order, so it is an association list; keys are strings. *)
Unset Elimination Schemes.
Inductive pyval : Type :=
| PNone
| PBool (b : bool)
| PInt (n : Z)
| PStr (s : string)
| PList (l : list pyval)
| PDict (d : list (string * pyval)).
Set Elimination Schemes.

Inductive Outcome (A : Type) : Type :=
| Ret (a : A)
| Raise (e : string).
Arguments Ret {A} a.
Arguments Raise {A} e.

Definition nl : string := String "010"%char EmptyString.

(** [bool(v)] *)
Definition py_truthy (v : pyval) : bool :=
  match v with
  | PNone => false
  | PBool b => b
  | PInt n => negb (n =? 0)%Z
  | PStr s => negb (String.eqb s "")
  | PList l => match l with [] => false | _ => true end
  | PDict d => match d with [] => false | _ => true end
  end.

Definition py_type_name (v : pyval) : string :=
  match v with
  | PNone => "NoneType"
  | PBool _ => "bool"
  | PInt _ => "int"
  | PStr _ => "str"
  | PList _ => "list"
  | PDict _ => "dict"
  end.

Fixpoint assoc_get {V} (k : string) (d : list (string * V)) : option V :=
  match d with
  | [] => None
  | (k', v) :: d' => if String.eqb k k' then Some v else assoc_get k d'
  end.

(** [d[k] = v] on an insertion-ordered dictionary. *)
Fixpoint assoc_set {V} (k : string) (v : V) (d : list (string * V)) : list (string * V) :=
  match d with
  | [] => [(k, v)]
  | (k', v') :: d' =>
      if String.eqb k k' then (k, v) :: d' else (k', v') :: assoc_set k v d'
  end.

(** [v.get(k, default)]: only a dictionary has the method. *)
Definition py_get (v : pyval) (k : string) (default : pyval) : Outcome pyval :=
  match v with
  | PDict d => Ret (from_option id default (assoc_get k d))
  | _ => Raise ("'" ++ py_type_name v ++ "' object has no attribute 'get'")
  end.

(** Reading a path of keys in a payload (used to state properties). *)
Definition py_lookup (k : string) (v : pyval) : option pyval :=
  match v with
  | PDict d => assoc_get k d
  | _ => None
  end.

(** ** Stages, status and the request record *)

Module Stage.
Inductive t : Type :=
| INITIALIZED | CODE_GENERATION | SYNTAX_CHECK | HALLUCINATION_CHECK
| CODE_REVIEW | COMPLETED | FAILED.

Definition value (s : t) : string :=
  match s with
  | INITIALIZED => "initialized"
  | CODE_GENERATION => "code_generation"
  | SYNTAX_CHECK => "syntax_check"
  | HALLUCINATION_CHECK => "hallucination_check"
  | CODE_REVIEW => "code_review"
  | COMPLETED => "completed"
  | FAILED => "failed"
  end.
End Stage.

Module Status.
Inductive t : Type := IN_PROGRESS | COMPLETED | FAILED.

Definition value (s : t) : string :=
  match s with
  | IN_PROGRESS => "in_progress"
  | COMPLETED => "completed"
  | FAILED => "failed"
  end.
End Status.

(** *** What the agents return

    The dictionaries the controller reads key by key are records of
    optional fields: [None] is an absent key.  A field holds the value as
    the controller uses it (a string where it is compared or formatted). *)

(** [CodeGeneratorAgent.generate] *)
Record GenResult : Type := {
  gr_status : option string;
  gr_code : option pyval;
  gr_error : option string
}.

(** One entry of the validator's ["errors"]. *)
Record SynError : Type := {
  se_line : option Z;
  se_issue : option string;
  se_fix : option string
}.

(** [SyntaxCheckerAgent.validate] *)
Record SynResult : Type := {
  sr_status : option string;
  sr_errors : option (list SynError);
  sr_corrected_code : option pyval
}.

(** One entry of the detector's ["hallucinations"]. *)
Record Hallucination : Type := {
  h_type : option string;
  h_referenced : option string;
  h_issue : option string;
  h_suggestion : option string
}.

(** [HallucinationDetectorAgent.verify] *)
Record HalResult : Type := {
  hr_status : option string;
  hr_hallucinations : option (list Hallucination)
}.

(** [RequestState.attempts]: a dictionary with three fixed keys. *)
Record Attempts : Type := {
  generation : nat;
  syntax_fix : nat;
  hallucination_fix : nat
}.

(** [RequestState.artifacts]: a dictionary with four fixed keys. *)
Record Artifacts : Type := {
  generated_code : pyval;
  syntax_result : option SynResult;
  hallucination_result : option HalResult;
  review_result : pyval
}.

Record RequestState : Type := {
  request_id : string;
  user_request : string;
  current_stage : Stage.t;
  status : Status.t;
  attempts : Attempts;
  artifacts : Artifacts;
  error_messages : list string;
  created_at : string
}.

(** [RequestState(user_request=...)]: the identifier and the creation time
    come from [uuid4] and the clock, here arguments. *)
Definition new_state (rid now req : string) : RequestState :=
  {| request_id := rid;
     user_request := req;
     current_stage := Stage.INITIALIZED;
     status := Status.IN_PROGRESS;
     attempts := {| generation := 0; syntax_fix := 0; hallucination_fix := 0 |};
     artifacts := {| generated_code := PNone; syntax_result := None;
                     hallucination_result := None; review_result := PNone |};
     error_messages := [];
     created_at := now |}.

(** Field assignments. *)
Definition set_current_stage (x : Stage.t) (s : RequestState) : RequestState :=
  {| request_id := request_id s; user_request := user_request s;
     current_stage := x; status := status s; attempts := attempts s;
     artifacts := artifacts s; error_messages := error_messages s;
     created_at := created_at s |}.

Definition set_status (x : Status.t) (s : RequestState) : RequestState :=
  {| request_id := request_id s; user_request := user_request s;
     current_stage := current_stage s; status := x; attempts := attempts s;
     artifacts := artifacts s; error_messages := error_messages s;
     created_at := created_at s |}.

Definition set_attempts (x : Attempts) (s : RequestState) : RequestState :=
  {| request_id := request_id s; user_request := user_request s;
     current_stage := current_stage s; status := status s; attempts := x;
     artifacts := artifacts s; error_messages := error_messages s;
     created_at := created_at s |}.

Definition set_artifacts (x : Artifacts) (s : RequestState) : RequestState :=
  {| request_id := request_id s; user_request := user_request s;
     current_stage := current_stage s; status := status s; attempts := attempts s;
     artifacts := x; error_messages := error_messages s;
     created_at := created_at s |}.

(** [state.error_messages.append(msg)] *)
Definition append_error (msg : string) (s : RequestState) : RequestState :=
  {| request_id := request_id s; user_request := user_request s;
     current_stage := current_stage s; status := status s; attempts := attempts s;
     artifacts := artifacts s; error_messages := error_messages s ++ [msg];
     created_at := created_at s |}.

Definition set_attempt_generation (n : nat) (s : RequestState) : RequestState :=
  set_attempts {| generation := n; syntax_fix := syntax_fix (attempts s);
                  hallucination_fix := hallucination_fix (attempts s) |} s.

Definition set_attempt_syntax_fix (n : nat) (s : RequestState) : RequestState :=
  set_attempts {| generation := generation (attempts s); syntax_fix := n;
                  hallucination_fix := hallucination_fix (attempts s) |} s.

Definition set_attempt_hallucination_fix (n : nat) (s : RequestState) : RequestState :=
  set_attempts {| generation := generation (attempts s);
                  syntax_fix := syntax_fix (attempts s);
                  hallucination_fix := n |} s.

Definition set_generated_code (c : pyval) (s : RequestState) : RequestState :=
  set_artifacts {| generated_code := c;
                   syntax_result := syntax_result (artifacts s);
                   hallucination_result := hallucination_result (artifacts s);
                   review_result := review_result (artifacts s) |} s.

Definition set_syntax_result (r : SynResult) (s : RequestState) : RequestState :=
  set_artifacts {| generated_code := generated_code (artifacts s);
                   syntax_result := Some r;
                   hallucination_result := hallucination_result (artifacts s);
                   review_result := review_result (artifacts s) |} s.

Definition set_hallucination_result (r : HalResult) (s : RequestState) : RequestState :=
  set_artifacts {| generated_code := generated_code (artifacts s);
                   syntax_result := syntax_result (artifacts s);
                   hallucination_result := Some r;
                   review_result := review_result (artifacts s) |} s.

Definition set_review_result (r : pyval) (s : RequestState) : RequestState :=
  set_artifacts {| generated_code := generated_code (artifacts s);
                   syntax_result := syntax_result (artifacts s);
                   hallucination_result := hallucination_result (artifacts s);
                   review_result := r |} s.

(** ** The collaborators and the record of their calls *)

(** [request_data] of [_run_code_generation]; the two optional keys are
    present only when the code adds them. *)
Record GenRequest : Type := {
  gq_action : string;
  gq_request : string;
  gq_constraints : list string;
  gq_previous_attempt : option pyval;
  gq_feedback : option string
}.

(** A call of the generation service as an observer sees it: the request
    sent, and (for stating properties only) the error log at that moment. *)
Record GenCall : Type := {
  gc_request : GenRequest;
  gc_errors_at_call : list string
}.

Record Trace : Type := {
  gen_log : list GenCall;
  syn_log : list (pyval * string);
  hal_log : list pyval;
  rev_log : list (pyval * string)
}.

Definition empty_trace : Trace :=
  {| gen_log := []; syn_log := []; hal_log := []; rev_log := [] |}.

(** The four agents.  The first argument is the number of calls the agent
    has already served. *)
Record Collaborators : Type := {
  generate : nat → GenRequest → Outcome GenResult;
  validate : nat → pyval → string → Outcome SynResult;
  verify : nat → pyval → Outcome HalResult;
  review : nat → pyval → string → Outcome pyval
}.

(** ** Computations: state, trace and exceptions *)

Record Run : Type := { st : RequestState; tr : Trace }.

Definition M (A : Type) : Type := Run → Outcome A * Run.

#[global] Instance M_ret : MRet M := λ A a r, (Ret a, r).

#[global] Instance M_bind : MBind M := λ A B k m r,
  match m r with
  | (Ret a, r') => k a r'
  | (Raise e, r') => (Raise e, r')
  end.

Definition get : M RequestState := λ r, (Ret (st r), r).

Definition modify (f : RequestState → RequestState) : M unit :=
  λ r, (Ret tt, {| st := f (st r); tr := tr r |}).

Definition raise {A} (e : string) : M A := λ r, (Raise e, r).

(** Lifting a pure operation that may raise. *)
Definition lift {A} (o : Outcome A) : M A := λ r, (o, r).

(** [try: m except Exception as e: h(str(e))] *)
Definition try_except {A} (m : M A) (h : string → M A) : M A := λ r,
  match m r with
  | (Ret a, r') => (Ret a, r')
  | (Raise e, r') => h e r'
  end.

(** [d[k]] on a required key: [str(KeyError(k))] is the quoted key. *)
Definition getitem {A} (k : string) (o : option A) : M A :=
  match o with
  | Some a => mret a
  | None => raise ("'" ++ k ++ "'")
  end.

(** [for x in xs: body] where the body may [return]: [Some v] leaves the
    function with [v], [None] goes on with the next element. *)
Fixpoint for_each {A B} (xs : list A) (body : A → M (option B)) : M (option B) :=
  match xs with
  | [] => mret None
  | x :: xs' =>
      r ← body x;
      match r with
      | Some v => mret (Some v)
      | None => for_each xs' body
      end
  end.

(** [range(1, n + 1)] *)
Definition range1 (n : nat) : list nat := seq 1 n.

(** [enumerate(l, start)] *)
Fixpoint enumerate {A} (start : nat) (l : list A) : list (nat * A) :=
  match l with
  | [] => []
  | x :: l' => (start, x) :: enumerate (S start) l'
  end.

(** [l[-1]] *)
Definition list_last {A} (l : list A) : Outcome A :=
  match last l with
  | Some x => Ret x
  | None => Raise "list index out of range"
  end.

(** [sum(state.attempts.values())] *)
Definition total_attempts (a : Attempts) : nat :=
  generation a + syntax_fix a + hallucination_fix a.

(** ** The feedback formatters *)

Definition _format_syntax_errors (result : SynResult) : string :=
  let errors := default [] (sr_errors result) in
  fold_left
    (λ feedback '(i, error),
       feedback
       +:+ pretty i +:+ ". Line " +:+ default "?" (pretty <$> se_line error)
       +:+ ": " +:+ default "Unknown issue" (se_issue error) +:+ nl
       +:+ "   Fix: " +:+ default "No suggestion" (se_fix error) +:+ nl)
    (enumerate 1 errors)
    ("Syntax Errors Found:" +:+ nl).

Definition _format_hallucination_errors (result : HalResult) : string :=
  let hallucinations := default [] (hr_hallucinations result) in
  fold_left
    (λ feedback '(i, h),
       feedback
       +:+ pretty i +:+ ". " +:+ default "Unknown" (h_type h)
       +:+ ": " +:+ default "Unknown" (h_referenced h) +:+ nl
       +:+ "   Issue: " +:+ default "Does not exist" (h_issue h) +:+ nl
       +:+ "   Suggestion: " +:+ default "Remove or replace" (h_suggestion h) +:+ nl)
    (enumerate 1 hallucinations)
    ("Hallucinations Detected:" +:+ nl).

(** ** The stage runners *)

Module Orchestrator.

Definition MAX_GENERATION_RETRIES : nat := 3.
Definition MAX_SYNTAX_RETRIES : nat := 3.
Definition MAX_HALLUCINATION_RETRIES : nat := 3.
Definition MAX_TOTAL_RETRIES : nat := 5.

Section Pipeline.

(** [self.code_generator], [self.syntax_checker],
    [self.hallucination_detector], [self.code_reviewer] *)
Variable ag : Collaborators.

(** [self.enable_code_review] *)
Variable enable_code_review : bool.

(** Calling an agent: the outcome is the agent's, and the call is
    entered in the trace. *)
Definition call_generate (req : GenRequest) : M GenResult := λ r,
  (generate ag (length (gen_log (tr r))) req,
   {| st := st r;
      tr := {| gen_log := gen_log (tr r) ++
                 [{| gc_request := req;
                     gc_errors_at_call := error_messages (st r) |}];
               syn_log := syn_log (tr r);
               hal_log := hal_log (tr r);
               rev_log := rev_log (tr r) |} |}).

Definition call_validate (code : pyval) (context : string) : M SynResult := λ r,
  (validate ag (length (syn_log (tr r))) code context,
   {| st := st r;
      tr := {| gen_log := gen_log (tr r);
               syn_log := syn_log (tr r) ++ [(code, context)];
               hal_log := hal_log (tr r);
               rev_log := rev_log (tr r) |} |}).

Definition call_verify (code : pyval) : M HalResult := λ r,
  (verify ag (length (hal_log (tr r))) code,
   {| st := st r;
      tr := {| gen_log := gen_log (tr r);
               syn_log := syn_log (tr r);
               hal_log := hal_log (tr r) ++ [code];
               rev_log := rev_log (tr r) |} |}).

Definition call_review (code : pyval) (requirements : string) : M pyval := λ r,
  (review ag (length (rev_log (tr r))) code requirements,
   {| st := st r;
      tr := {| gen_log := gen_log (tr r);
               syn_log := syn_log (tr r);
               hal_log := hal_log (tr r);
               rev_log := rev_log (tr r) ++ [(code, requirements)] |} |}).

(** [request_data] as one attempt prepares it: the previous candidate and
    the latest entry of the error log are added under
    [attempt > 1 and state.error_messages]. *)
Definition prepare_request (attempt : nat) (s : RequestState) : M GenRequest :=
  if (1 <? attempt) && negb (bool_decide (error_messages s = []))
  then
    feedback ← lift (list_last (error_messages s));
    mret {| gq_action := "generate";
            gq_request := user_request s;
            gq_constraints := ["python_only"; "no_placeholders"];
            gq_previous_attempt := Some (generated_code (artifacts s));
            gq_feedback := Some feedback |}
  else
    mret {| gq_action := "generate";
            gq_request := user_request s;
            gq_constraints := ["python_only"; "no_placeholders"];
            gq_previous_attempt := None;
            gq_feedback := None |}.

(** The body of the loop of [_run_code_generation]. *)
Definition generation_attempt (attempt : nat) : M (option bool) :=
  modify (set_attempt_generation attempt);;
  try_except
    (s ← get;
     request_data ← prepare_request attempt s;
     result ← call_generate request_data;
     status ← getitem "status" (gr_status result);
     if String.eqb status "success" then
       code ← getitem "code" (gr_code result);
       modify (set_generated_code code);;
       mret (Some true)
     else
       let error_msg := default "Unknown error" (gr_error result) in
       modify (append_error ("Generation error: " +:+ error_msg));;
       mret None)
    (λ e,
       modify (append_error ("Generation exception: " +:+ e));;
       mret None).

Definition _run_code_generation : M bool :=
  modify (set_current_stage Stage.CODE_GENERATION);;
  r ← for_each (range1 MAX_GENERATION_RETRIES) generation_attempt;
  match r with
  | Some b => mret b
  | None => mret false
  end.

(** The body of the loop of [_run_syntax_validation]. *)
Definition syntax_attempt (attempt : nat) : M (option bool) :=
  modify (set_attempt_syntax_fix attempt);;
  try_except
    (s ← get;
     result ← call_validate (generated_code (artifacts s))
                ("Generated for: " +:+ user_request s);
     modify (set_syntax_result result);;
     status ← getitem "status" (sr_status result);
     if String.eqb status "SYNTAX_VALID" then mret (Some true)
     else
       match sr_corrected_code result with
       | Some corrected =>
           if py_truthy corrected then
             modify (set_generated_code corrected);;
             mret None
           else
             modify (append_error (_format_syntax_errors result));;
             ok ← _run_code_generation;
             if negb ok then mret (Some false) else mret None
       | None =>
           modify (append_error (_format_syntax_errors result));;
           ok ← _run_code_generation;
           if negb ok then mret (Some false) else mret None
       end)
    (λ e,
       modify (append_error ("Syntax validation exception: " +:+ e));;
       mret None).

Definition _run_syntax_validation : M bool :=
  modify (set_current_stage Stage.SYNTAX_CHECK);;
  r ← for_each (range1 MAX_SYNTAX_RETRIES) syntax_attempt;
  match r with
  | Some b => mret b
  | None => mret false
  end.

(** The body of the loop of [_run_hallucination_detection]. *)
Definition hallucination_attempt (attempt : nat) : M (option bool) :=
  modify (set_attempt_hallucination_fix attempt);;
  try_except
    (s ← get;
     result ← call_verify (generated_code (artifacts s));
     modify (set_hallucination_result result);;
     status ← getitem "status" (hr_status result);
     if String.eqb status "VERIFIED" then mret (Some true)
     else
       modify (append_error (_format_hallucination_errors result));;
       ok ← _run_code_generation;
       if negb ok then mret (Some false) else mret None)
    (λ e,
       modify (append_error ("Hallucination detection exception: " +:+ e));;
       mret None).

Definition _run_hallucination_detection : M bool :=
  modify (set_current_stage Stage.HALLUCINATION_CHECK);;
  r ← for_each (range1 MAX_HALLUCINATION_RETRIES) hallucination_attempt;
  match r with
  | Some b => mret b
  | None => mret false
  end.

(** The record stored when the review raises. *)
Definition review_error_record (e : string) : pyval :=
  PDict [("status", PStr "error"); ("error", PStr e)].

Definition _run_code_review : M unit :=
  modify (set_current_stage Stage.CODE_REVIEW);;
  try_except
    (s ← get;
     result ← call_review (generated_code (artifacts s)) (user_request s);
     modify (set_review_result result);;
     (* the log line formats [result.get('score', 'N/A')] *)
     _ ← lift (py_get result "score" (PStr "N/A"));
     mret tt)
    (λ e, modify (set_review_result (review_error_record e))).

(** ** The response compilers

    [now] is the reading of the clock when the payload is built. *)

Definition metadata_counts (s : RequestState) : list (string * pyval) :=
  [("total_attempts", PInt (Z.of_nat (total_attempts (attempts s))));
   ("generation_attempts", PInt (Z.of_nat (generation (attempts s))));
   ("syntax_fix_attempts", PInt (Z.of_nat (syntax_fix (attempts s))));
   ("hallucination_fix_attempts",
     PInt (Z.of_nat (hallucination_fix (attempts s))));
   ("created_at", PStr (created_at s))].

Definition _compile_success_response (now : string) : M pyval :=
  s ← get;
  let validation :=
    [("syntax", PDict [("status", PStr "✅ Valid");
                       ("details", PStr "Python syntax validated successfully")]);
     ("hallucination", PDict [("status", PStr "✅ Verified");
                              ("details", PStr "All imports and functions verified")])] in
  let response :=
    [("request_id", PStr (request_id s));
     ("status", PStr "success");
     ("code", generated_code (artifacts s));
     ("validation", PDict validation);
     ("metadata", PDict (metadata_counts s ++ [("completed_at", PStr now)]))] in
  if py_truthy (review_result (artifacts s)) then
    let review := review_result (artifacts s) in
    score ← lift (py_get review "score" (PStr "N/A"));
    summary ← lift (py_get review "summary" (PStr ""));
    let validation :=
      assoc_set "review"
        (PDict [("status", PStr "✅ Completed");
                ("score", score);
                ("summary", summary)]) validation in
    mret (PDict (assoc_set "review_details" review
                   (assoc_set "validation" (PDict validation) response)))
  else mret (PDict response).

Definition _compile_failure_response (now : string) : M pyval :=
  s ← get;
  mret (PDict
    [("request_id", PStr (request_id s));
     ("status", PStr "failed");
     ("error", PStr "Failed to generate valid code");
     ("errors", PList (PStr <$> error_messages s));
     ("last_attempt", generated_code (artifacts s));
     ("metadata",
       PDict (("failed_at_stage", PStr (Stage.value (current_stage s)))
              :: metadata_counts s ++ [("failed_at", PStr now)]))]).

(** ** The pipeline: the [try] block of [generate_code] and its handler *)

Definition run_pipeline (now : string) : M pyval :=
  try_except
    (ok ← _run_code_generation;
     if negb ok then _compile_failure_response now else
     ok ← _run_syntax_validation;
     if negb ok then _compile_failure_response now else
     ok ← _run_hallucination_detection;
     if negb ok then _compile_failure_response now else
     (if enable_code_review then _run_code_review else mret tt);;
     modify (set_status Status.COMPLETED);;
     modify (set_current_stage Stage.COMPLETED);;
     _compile_success_response now)
    (λ e,
       modify (set_status Status.FAILED);;
       modify (set_current_stage Stage.FAILED);;
       modify (append_error ("Unexpected error: " +:+ e));;
       _compile_failure_response now).

End Pipeline.

(** ** The orchestrator object *)

(** [self]: the agents, the review switch, the map of all request states
    and the calls served so far. *)
Record t : Type := {
  agents : Collaborators;
  enable_code_review : bool;
  states : gmap string RequestState;
  calls : Trace
}.

(** [Orchestrator(enable_code_review=...)] *)
Definition init (ag : Collaborators) (enable : bool) : t :=
  {| agents := ag; enable_code_review := enable; states := ∅;
     calls := empty_trace |}.

(** [generate_code(user_request)].  [rid] is the fresh [uuid4], [created]
    and [now] the two readings of the clock.  [self.states[rid]] and the
    local [state] are one object, mutated in place by the stages, so the
    map entry seen once the call is over is the state the pipeline ends
    in. *)
Definition generate_code (rid created now : string) (user_request : string)
    (self : t) : Outcome pyval * t :=
  let state := new_state rid created user_request in
  let '(out, r) :=
    run_pipeline (agents self) (enable_code_review self) now
      {| st := state; tr := calls self |} in
  (out, {| agents := agents self;
           enable_code_review := enable_code_review self;
           states := <[rid := st r]> (states self);
           calls := tr r |}).

(** The dictionary [RequestState.to_dict] builds: [asdict] copies every
    field, and the two enumerations are replaced by their values. *)
Record StateDict : Type := {
  sd_request_id : string;
  sd_user_request : string;
  sd_current_stage : string;
  sd_status : string;
  sd_attempts : Attempts;
  sd_artifacts : Artifacts;
  sd_error_messages : list string;
  sd_created_at : string
}.

Definition to_dict (s : RequestState) : StateDict :=
  {| sd_request_id := request_id s;
     sd_user_request := user_request s;
     sd_current_stage := Stage.value (current_stage s);
     sd_status := Status.value (status s);
     sd_attempts := attempts s;
     sd_artifacts := artifacts s;
     sd_error_messages := error_messages s;
     sd_created_at := created_at s |}.

(** [get_state(request_id)]; the second component is [self] after the
    call. *)
Definition get_state (request_id : string) (self : t) : option StateDict * t :=
  match states self !! request_id with
  | Some s => (Some (to_dict s), self)
  | None => (None, self)
  end.

End Orchestrator.

(** ** The two agents that run locally

    [SyntaxCheckerAgent.validate] and [HallucinationDetectorAgent.verify]
    call no service: both test the code for emptiness and hand it to
    [ast.parse].  Python's parser and [str.strip] are taken as functions of
    the string.  What the agents compute from a parse (the error report and
    the repair attempt of the checker, the import checks of the detector,
    which may also depend on what is installed when they run) is left
    abstract: the statements below hold whatever those helpers return. *)

Module LocalAgents.

(** The outcome of [ast.parse(code)]: a tree, a [SyntaxError] or another
    exception. *)
Inductive ParseResult (E : Type) : Type :=
| Parsed
| SyntaxErr (e : E)
| OtherError (msg : string).
Arguments Parsed {E}.
Arguments SyntaxErr {E} e.
Arguments OtherError {E} msg.

Section Agents.
(** The [SyntaxError] objects. *)
Variable E : Type.
Variable ast_parse : string → ParseResult E.
(** [not code.strip()] *)
Variable is_blank : string → bool.
(** [_parse_syntax_error] and [_attempt_correction] of the checker. *)
Variable parse_syntax_error : E → string → list SynError.
Variable attempt_correction : string → list SynError → pyval.
(** The objections of the import checks of the detector's [n]-th call on a
    parsed code, or the exception they raise. *)
Variable find_hallucinations : nat → string → Outcome (list Hallucination).

Definition empty_code_report : SynResult :=
  {| sr_status := Some "PARSE_FAILED";
     sr_errors := Some [{| se_line := Some 0%Z;
                           se_issue := Some "Empty or whitespace-only code provided";
                           se_fix := Some "Provide valid Python code" |}];
     sr_corrected_code := None |}.

Definition SyntaxCheckerAgent_validate (code : pyval) (context : string)
    : Outcome SynResult :=
  if negb (py_truthy code) then Ret empty_code_report
  else
    match code with
    | PStr src =>
        if is_blank src then Ret empty_code_report
        else
          match ast_parse src with
          | Parsed =>
              Ret {| sr_status := Some "SYNTAX_VALID"; sr_errors := None;
                     sr_corrected_code := None |}
          | SyntaxErr e =>
              let errors := parse_syntax_error e src in
              Ret {| sr_status := Some "SYNTAX_ERROR";
                     sr_errors := Some errors;
                     sr_corrected_code := Some (attempt_correction src errors) |}
          | OtherError msg =>
              Ret {| sr_status := Some "PARSE_FAILED";
                     sr_errors := Some [{| se_line := Some 0%Z;
                                           se_issue := Some msg;
                                           se_fix := Some "Review code structure" |}];
                     sr_corrected_code := None |}
          end
    | _ => Raise ("'" ++ py_type_name code ++ "' object has no attribute 'strip'")
    end.

Definition verification_failed : HalResult :=
  {| hr_status := Some "VERIFICATION_FAILED"; hr_hallucinations := Some [] |}.

Definition HallucinationDetectorAgent_verify (n : nat) (code : pyval)
    : Outcome HalResult :=
  if negb (py_truthy code) then Ret verification_failed
  else
    match code with
    | PStr src =>
        if is_blank src then Ret verification_failed
        else
          match ast_parse src with
          | Parsed =>
              match find_hallucinations n src with
              | Ret [] =>
                  Ret {| hr_status := Some "VERIFIED"; hr_hallucinations := None |}
              | Ret hallucinations =>
                  Ret {| hr_status := Some "HALLUCINATION_DETECTED";
                         hr_hallucinations := Some hallucinations |}
              | Raise _ => Ret verification_failed
              end
          | SyntaxErr _ => Ret verification_failed
          | OtherError _ => Ret verification_failed
          end
    | _ => Raise ("'" ++ py_type_name code ++ "' object has no attribute 'strip'")
    end.

(** The orchestrator's agents: the two services behind [generate] and
    [review] are arbitrary, the checker and the detector are the local
    ones. *)
Definition collaborators
    (generate : nat → GenRequest → Outcome GenResult)
    (review : nat → pyval → string → Outcome pyval) : Collaborators :=
  {| generate := generate;
     validate := λ _, SyntaxCheckerAgent_validate;
     verify := HallucinationDetectorAgent_verify;
     review := review |}.

End Agents.

End LocalAgents.

Import Orchestrator.

(** ** Properties of computations and of payloads *)

(** [m] relates every starting point to the point it ends in. *)
Definition preserves {A} (R : relation Run) (m : M A) : Prop :=
  ∀ r, R r (m r).2.

(** [m] never leaves by an exception. *)
Definition returns {A} (m : M A) : Prop :=
  ∀ r, ∃ a, (m r).1 = Ret a.

(** The number of calls the generation service has served. *)
Definition gen_calls (r : Run) : nat := length (gen_log (tr r)).

(** [m] calls the generation service at most [k] times. *)
Definition within {A} (k : nat) (m : M A) : Prop :=
  ∀ r, gen_calls (m r).2 ≤ gen_calls r + k.

(** [m] calls the generation service at least [k] times. *)
Definition at_least {A} (k : nat) (m : M A) : Prop :=
  ∀ r, gen_calls r + k ≤ gen_calls (m r).2.

(** No call of the generation service is ever taken back. *)
Definition calls_grow : relation Run :=
  λ r r', gen_calls r ≤ gen_calls r'.

(** The error log only grows at its end. *)
Definition errors_extend : relation Run :=
  λ r r', error_messages (st r) `prefix_of` error_messages (st r').

(** The generation service is never un-called, and where it has not been
    called the generation counter is as it was. *)
Definition generation_frame : relation Run :=
  λ r r', gen_calls r ≤ gen_calls r' ∧
          (gen_calls r = gen_calls r' →
           generation (attempts (st r)) = generation (attempts (st r'))).

(** Every counter is at most the budget of its stage. *)
Definition counters_bounded (s : RequestState) : Prop :=
  generation (attempts s) ≤ MAX_GENERATION_RETRIES ∧
  syntax_fix (attempts s) ≤ MAX_SYNTAX_RETRIES ∧
  hallucination_fix (attempts s) ≤ MAX_HALLUCINATION_RETRIES.

Definition keeps_counters_bounded : relation Run :=
  λ r r', counters_bounded (st r) → counters_bounded (st r').

(** The observation [f] of the state and the trace is left as it was. *)
Definition keeps {X} (f : Run → X) : relation Run :=
  λ r r', f r' = f r.

(** Partial correctness: from a point where [P] holds, a value [m] returns
    and the point it returns at satisfy [Q]. *)
Definition hoare {A} (P : Run → Prop) (m : M A) (Q : A → Run → Prop) : Prop :=
  ∀ r a r', P r → m r = (Ret a, r') → Q a r'.

(** What [run_pipeline] returns: one of the two compiled payloads, built
    from the state the run ends in; the success payload only once the
    request is marked completed. *)
Definition pipeline_post (now : string) (resp : pyval) (r : Run) : Prop :=
  _compile_failure_response now r = (Ret resp, r) ∨
  (_compile_success_response now r = (Ret resp, r) ∧
   status (st r) = Status.COMPLETED ∧
   current_stage (st r) = Stage.COMPLETED).

Definition has_key (k : string) (v : pyval) : bool :=
  match py_lookup k v with Some _ => true | None => false end.

Definition payload_status (v : pyval) : option string :=
  match py_lookup "status" v with
  | Some (PStr s) => Some s
  | _ => None
  end.

(** [{request_id, status: 'success', code, validation, metadata}] *)
Definition is_success_payload (v : pyval) : bool :=
  match payload_status v with
  | Some s => String.eqb s "success"
  | None => false
  end
  && forallb (λ k, has_key k v) ["request_id"; "code"; "validation"; "metadata"].

(** [{request_id, status: 'failed', error, errors, last_attempt, metadata}] *)
Definition is_failure_payload (v : pyval) : bool :=
  match payload_status v with
  | Some s => String.eqb s "failed"
  | None => false
  end
  && forallb (λ k, has_key k v)
       ["request_id"; "error"; "errors"; "last_attempt"; "metadata"].

(** [response[k1][k2]] *)
Definition py_lookup2 (k1 k2 : string) (v : pyval) : option pyval :=
  py_lookup k1 v ≫= py_lookup k2.

(** [n] successive calls of [get_state] with the same identifier. *)
Fixpoint get_state_repeatedly (n : nat) (id : string) (self : Orchestrator.t)
    : list (option StateDict) * Orchestrator.t :=
  match n with
  | 0 => ([], self)
  | S n' =>
      let '(x, self') := get_state id self in
      let '(xs, self'') := get_state_repeatedly n' id self' in
      (x :: xs, self'')
  end.

(** The state a finished request is stored with. *)
Definition final_state (rid : string) (self : Orchestrator.t) : option RequestState :=
  states self !! rid.

(** The candidate of [r] is one the verifier was asked about and accepted. *)
Definition verified (ag : Collaborators) (r : Run) : Prop :=
  ∃ n res,
    verify ag n (generated_code (artifacts (st r))) = Ret res ∧
    hr_status res = Some "VERIFIED".

(** The generation counter is at least 1. *)
Definition generated_once (r : Run) : Prop :=
  1 ≤ generation (attempts (st r)).

Definition keeps_generated_once : relation Run :=
  λ r r', generated_once r → generated_once r'.

(** ** Concrete collaborators

    Behaviours of the four agents used to run the pipeline on examples. *)

Module Scenarios.

Definition gen_success (code : string) : Outcome GenResult :=
  Ret {| gr_status := Some "success"; gr_code := Some (PStr code);
         gr_error := None |}.

Definition gen_error (msg : string) : Outcome GenResult :=
  Ret {| gr_status := Some "error"; gr_code := None; gr_error := Some msg |}.

Definition review_ok : Outcome pyval :=
  Ret (PDict [("status", PStr "success"); ("score", PInt 8);
              ("summary", PStr "Looks fine")]).

(** *** The local checker and detector on three programs

    ["import os"] parses and its import exists; ["import fake_module"]
    parses and its import does not exist; ["x = ("] does not parse and the
    checker has no repair for it. *)

Definition parse (src : string) : LocalAgents.ParseResult unit :=
  if String.eqb src "x = (" then LocalAgents.SyntaxErr tt
  else LocalAgents.Parsed.

Definition blank (src : string) : bool := String.eqb src "".

Definition report (e : unit) (src : string) : list SynError :=
  [{| se_line := Some 1%Z;
      se_issue := Some "'(' was never closed";
      se_fix := Some "Review Python syntax for this line" |}].

Definition no_repair (src : string) (errors : list SynError) : pyval := PNone.

Definition fake_module : Hallucination :=
  {| h_type := Some "Library";
     h_referenced := Some "fake_module";
     h_issue := Some "Module 'fake_module' does not exist or is not installed";
     h_suggestion := Some "Consider using a standard library alternative or ensure the package is installed" |}.

Definition imports (n : nat) (src : string) : Outcome (list Hallucination) :=
  if String.eqb src "import fake_module" then Ret [fake_module] else Ret [].

(** The orchestrator with its own checker and detector, and the given
    generation and review services. *)
Definition local (generate : nat → GenRequest → Outcome GenResult)
    (review : nat → pyval → string → Outcome pyval) : Collaborators :=
  LocalAgents.collaborators unit parse blank report no_repair imports
    generate review.

(** What the checker returns for ["x = ("] and the detector for
    ["import fake_module"]. *)
Definition rejected : SynResult :=
  {| sr_status := Some "SYNTAX_ERROR";
     sr_errors := Some (report tt "x = (");
     sr_corrected_code := Some PNone |}.

Definition detected : HalResult :=
  {| hr_status := Some "HALLUCINATION_DETECTED";
     hr_hallucinations := Some [fake_module] |}.

(** Everything succeeds at once. *)
Definition happy : Collaborators :=
  local (λ _ _, gen_success "import os") (λ _ _ _, review_ok).

(** The same, with a review service that raises. *)
Definition review_raises : Collaborators :=
  local (λ _ _, gen_success "import os") (λ _ _ _, Raise "connection refused").

(** The first candidate imports a module that does not exist, every later
    one is fine: the detector objects on its first pass and is satisfied on
    the second. *)
Definition regenerate_after_verifier : Collaborators :=
  local (λ n _, gen_success (if n is 0 then "import fake_module" else "import os"))
        (λ _ _ _, review_ok).


(** Generation always succeeds with a program that does not parse. *)
Definition syntax_never_valid : Collaborators :=
  local (λ _ _, gen_success "x = (") (λ _ _ _, review_ok).

(** Every third call of the generation service succeeds.  Its first two
    candidates do not parse, the following ones import a module that does
    not exist, and from the [clean]-th call on the candidate is fine. *)
Definition stubborn (clean : nat) : Collaborators :=
  local (λ n _,
           if n `mod` 3 =? 2 then
             gen_success (if n <? 6 then "x = ("
                          else if n <? clean then "import fake_module"
                          else "import os")
           else gen_error "overloaded")
        (λ _ _ _, review_ok).


(** A verifier that does not parse what it is given: it objects to its
    first call and accepts every later one, while the validator accepts
    ["A"] only.  The first candidate is ["A"], the later ones ["B"]. *)
Definition careless_verifier : Collaborators :=
  {| generate := λ n _, gen_success (if n is 0 then "A" else "B");
     validate := λ _ code _,
       match code with
       | PStr "A" => Ret {| sr_status := Some "SYNTAX_VALID"; sr_errors := None;
                            sr_corrected_code := None |}
       | _ => Ret rejected
       end;
     verify := λ n _,
       if n is 0 then Ret detected
       else Ret {| hr_status := Some "VERIFIED"; hr_hallucinations := None |};
     review := λ _ _ _, review_ok |}.

(** The initial point of a run that is not part of an orchestrator. *)
Definition start (req : string) : Run :=
  {| st := new_state "req-1" "2025-01-01T00:00:00" req; tr := empty_trace |}.

End Scenarios.

(** ** The run of a request, stage by stage *)

(** The two assignments that mark a request completed. *)
Definition mark_completed (r : Run) : Run :=
  {| st := set_current_stage Stage.COMPLETED
             (set_status Status.COMPLETED (st r));
     tr := tr r |}.

(** How [run_pipeline] gets from [r] to its payload.  The first stage that
    returns [False] ends the run with the failure payload, built from the
    state that stage left; after three [True] the review runs if it is
    enabled, the request is marked completed and the success payload is
    built. *)
Inductive pipeline_outcome (ag : Collaborators) (enable : bool) (now : string)
    (r : Run) : pyval → Run → Prop :=
| generation_failed r1 resp :
    _run_code_generation ag r = (Ret false, r1) →
    _compile_failure_response now r1 = (Ret resp, r1) →
    pipeline_outcome ag enable now r resp r1
| syntax_failed r1 r2 resp :
    _run_code_generation ag r = (Ret true, r1) →
    _run_syntax_validation ag r1 = (Ret false, r2) →
    _compile_failure_response now r2 = (Ret resp, r2) →
    pipeline_outcome ag enable now r resp r2
| hallucination_failed r1 r2 r3 resp :
    _run_code_generation ag r = (Ret true, r1) →
    _run_syntax_validation ag r1 = (Ret true, r2) →
    _run_hallucination_detection ag r2 = (Ret false, r3) →
    _compile_failure_response now r3 = (Ret resp, r3) →
    pipeline_outcome ag enable now r resp r3
| all_passed r1 r2 r3 r4 resp :
    _run_code_generation ag r = (Ret true, r1) →
    _run_syntax_validation ag r1 = (Ret true, r2) →
    _run_hallucination_detection ag r2 = (Ret true, r3) →
    (if enable then _run_code_review ag r3 else (Ret tt, r3)) = (Ret tt, r4) →
    _compile_success_response now (mark_completed r4)
      = (Ret resp, mark_completed r4) →
    pipeline_outcome ag enable now r resp (mark_completed r4).

(** What the generation stage never writes: the three logs of the other
    agents, the two other counters, the status, the three artifacts of the
    other agents and the fields fixed at creation. *)
Definition outside_generation (r : Run) :=
  (syn_log (tr r), hal_log (tr r), rev_log (tr r),
   syntax_fix (attempts (st r)), hallucination_fix (attempts (st r)),
   status (st r),
   (syntax_result (artifacts (st r)), hallucination_result (artifacts (st r)),
    review_result (artifacts (st r))),
   (request_id (st r), user_request (st r), created_at (st r))).

(** The fields fixed when the request state is created. *)
Definition identity (s : RequestState) : string * string * string :=
  (request_id s, user_request s, created_at s).

(** The generation service is never un-called; while it has not been
    called the stage is as it was, and once it has been called the stage is
    [CODE_GENERATION]. *)
Definition stage_frame : relation Run :=
  λ r r', gen_calls r ≤ gen_calls r' ∧
          (gen_calls r = gen_calls r' →
           current_stage (st r') = current_stage (st r)) ∧
          (gen_calls r < gen_calls r' →
           current_stage (st r') = Stage.CODE_GENERATION).

(** [response["status"] == "success"] *)
Definition is_success (resp : pyval) : bool :=
  bool_decide (payload_status resp = Some "success").

(** What no stage before the review writes. *)
Definition outside_stages (r : Run) :=
  (rev_log (tr r), status (st r), review_result (artifacts (st r)),
   identity (st r)).





(** The payload's [metadata] shows the counters and the creation time of
    the state [s]. *)
Definition reports_counts (resp : pyval) (s : RequestState) : Prop :=
  Forall (λ '(k, v), py_lookup2 "metadata" k resp = Some v) (metadata_counts s).

(** ** One attempt of the generation loop, by the outcome of the service *)

(** [request_data] as a value: under the guard of the retry the list of
    errors is not empty, so [state.error_messages[-1]] is its last entry. *)
Definition request_data (attempt : nat) (s : RequestState) : GenRequest :=
  if (1 <? attempt) && negb (bool_decide (error_messages s = []))
  then {| gq_action := "generate";
          gq_request := user_request s;
          gq_constraints := ["python_only"; "no_placeholders"];
          gq_previous_attempt := Some (generated_code (artifacts s));
          gq_feedback := last (error_messages s) |}
  else {| gq_action := "generate";
          gq_request := user_request s;
          gq_constraints := ["python_only"; "no_placeholders"];
          gq_previous_attempt := None;
          gq_feedback := None |}.

(** The attempt does not end the loop on this outcome: the service
    raised, its result has no ["status"], the status is not ["success"], or
    it is and the result has no ["code"]. *)
Definition attempt_fails (o : Outcome GenResult) : bool :=
  match o with
  | Raise _ => true
  | Ret result =>
      match gr_status result with
      | None => true
      | Some status =>
          if String.eqb status "success"
          then match gr_code result with Some _ => false | None => true end
          else true
      end
  end.

(** The entry a failing attempt appends to the error log. *)
Definition failure_message (o : Outcome GenResult) : string :=
  match o with
  | Raise e => "Generation exception: " +:+ e
  | Ret result =>
      match gr_status result with
      | None => "Generation exception: 'status'"
      | Some status =>
          if String.eqb status "success"
          then "Generation exception: 'code'"
          else "Generation error: " +:+ default "Unknown error" (gr_error result)
      end
  end.

(** The trace with one more call of the generation service. *)
Definition with_gen_call (c : GenCall) (t : Trace) : Trace :=
  {| gen_log := (gen_log t ++ [c])%list; syn_log := syn_log t;
     hal_log := hal_log t; rev_log := rev_log t |}.

(** The call an attempt makes from the state [s]. *)
Definition gen_call (attempt : nat) (s : RequestState) : GenCall :=
  {| gc_request := request_data attempt (set_attempt_generation attempt s);
     gc_errors_at_call := error_messages s |}.

(** A request as the generation service may rely on it: the action, the
    user's request and the two constraints are fixed, and [feedback] and
    [previous_attempt] come together, the feedback being the latest entry of
    the error log. *)
Definition well_formed_call (req : string) (c : GenCall) : bool :=
  let q := gc_request c in
  String.eqb (gq_action q) "generate"
  && String.eqb (gq_request q) req
  && bool_decide (gq_constraints q = ["python_only"; "no_placeholders"])
  && match gq_feedback q, gq_previous_attempt q with
     | None, None => true
     | Some feedback, Some _ =>
         bool_decide (last (gc_errors_at_call c) = Some feedback)
     | _, _ => false
     end.

(** Since [r], the user's request is unchanged and every call of the
    generation service was well formed. *)
Definition calls_well_formed : relation Run :=
  λ r r', user_request (st r') = user_request (st r) ∧
          ∃ new, gen_log (tr r') = (gen_log (tr r) ++ new)%list ∧
                 Forall (λ c, well_formed_call (user_request (st r)) c = true) new.

(** The point an attempt leaves when the service fails on it. *)
Definition failed_attempt (ag : Collaborators) (attempt : nat) (r : Run) : Run :=
  let c := gen_call attempt (st r) in
  {| st := append_error
             (failure_message
                (generate ag (length (gen_log (tr r))) (gc_request c)))
             (set_attempt_generation attempt (st r));
     tr := with_gen_call c (tr r) |}.

(** The request of a first attempt. *)
Definition first_request (req : string) : GenRequest :=
  {| gq_action := "generate";
     gq_request := req;
     gq_constraints := ["python_only"; "no_placeholders"];
     gq_previous_attempt := None;
     gq_feedback := None |}.

(** ** More behaviours of the collaborators *)

Module Behaviours.

(** A generation service that is never available. *)
Definition never_generates : Collaborators :=
  Scenarios.local (λ _ _, Scenarios.gen_error "overloaded")
                  (λ _ _ _, Scenarios.review_ok).


End Behaviours.

(** The last call of the validator was made on the candidate of [r], with
    the context of this request; it returned ['SYNTAX_VALID'], and its
    result is the stored [syntax_result]. *)
Definition validated (ag : Collaborators) (r : Run) : Prop :=
  ∃ log res,
    syn_log (tr r)
    = (log ++ [(generated_code (artifacts (st r)),
                "Generated for: " +:+ user_request (st r))])%list ∧
    validate ag (length log) (generated_code (artifacts (st r)))
      ("Generated for: " +:+ user_request (st r)) = Ret res ∧
    sr_status res = Some "SYNTAX_VALID" ∧
    syntax_result (artifacts (st r)) = Some res.

(** The traces with one more call of the validator, and of the detector. *)
Definition with_syn_call (code : pyval) (context : string) (t : Trace) : Trace :=
  {| gen_log := gen_log t; syn_log := (syn_log t ++ [(code, context)])%list;
     hal_log := hal_log t; rev_log := rev_log t |}.

Definition with_hal_call (code : pyval) (t : Trace) : Trace :=
  {| gen_log := gen_log t; syn_log := syn_log t;
     hal_log := (hal_log t ++ [code])%list; rev_log := rev_log t |}.

(** ** The bullets of the two briefs *)

(** What one pass of the loop of [_format_syntax_errors] appends. *)
Definition syntax_bullet (i : nat) (error : SynError) : string :=
  pretty i +:+ ". Line " +:+ default "?" (pretty <$> se_line error)
  +:+ ": " +:+ default "Unknown issue" (se_issue error) +:+ nl
  +:+ "   Fix: " +:+ default "No suggestion" (se_fix error) +:+ nl.

(** What one pass of the loop of [_format_hallucination_errors] appends. *)
Definition hallucination_bullet (i : nat) (h : Hallucination) : string :=
  pretty i +:+ ". " +:+ default "Unknown" (h_type h)
  +:+ ": " +:+ default "Unknown" (h_referenced h) +:+ nl
  +:+ "   Issue: " +:+ default "Does not exist" (h_issue h) +:+ nl
  +:+ "   Suggestion: " +:+ default "Remove or replace" (h_suggestion h) +:+ nl.

(** ** Operations of Python's [str]

    A string is its UTF-8 text.  The patterns the agents search for are
    ASCII, and in UTF-8 an ASCII byte occurs only as the character it
    encodes, so searching, counting and splitting on such patterns can be
    done on the bytes. *)

Module Text.

(** [needle in haystack] *)
Fixpoint contains (needle haystack : string) : bool :=
  String.prefix needle haystack ||
  match haystack with
  | EmptyString => false
  | String _ rest => contains needle rest
  end.

(** [s.startswith((p1, p2, ...))] *)
Definition startswith_any (prefixes : list string) (s : string) : bool :=
  existsb (λ p, String.prefix p s) prefixes.

(** [s.endswith(suffix)] *)
Fixpoint endswith (s suffix : string) : bool :=
  String.eqb s suffix ||
  match s with
  | EmptyString => false
  | String _ rest => endswith rest suffix
  end.

(** [s.count(c)] for a pattern of one character. *)
Fixpoint count (c : ascii) (s : string) : nat :=
  match s with
  | EmptyString => 0
  | String a rest => (if Ascii.eqb a c then 1 else 0) + count c rest
  end.

(** [s.split(sep)] for a separator of one character: the list is never
    empty. *)
Fixpoint split (sep : ascii) (s : string) : list string :=
  match s with
  | EmptyString => [EmptyString]
  | String a rest =>
      if Ascii.eqb a sep then EmptyString :: split sep rest
      else match split sep rest with
           | [] => [String a EmptyString]
           | first :: others => String a first :: others
           end
  end.

(** The double quote. *)
Definition dquote : string := String "034"%char EmptyString.

End Text.

(** ** The syntax checker of [agents/syntax_checker/agent.py]

    Python's parser, [str.strip], [str.rstrip] and [str.lower] are taken
    as functions; everything else is computed.  The entries of ["errors"]
    are the records the controller reads, without the keys ["offset"] and
    ["code"], which nothing reads. *)

Module SyntaxChecker.

(** The attributes of a [SyntaxError] that the checker reads. *)
Record SyntaxError : Type := {
  lineno : option Z;
  offset : option Z;
  msg : option string;
  text : option string
}.

Section Checker.
Variable ast_parse : string → LocalAgents.ParseResult SyntaxError.
Variables strip rstrip lower : string → string.

(** [x if x else None] on an optional string: [None] and the empty string
    are both false. *)
Definition nonempty (o : option string) : option string :=
  match o with
  | Some s => if String.eqb s "" then None else Some s
  | None => None
  end.

Definition _suggest_fix (error : SyntaxError) (code : string) : string :=
  let msg := match nonempty (msg error) with
             | Some m => lower m
             | None => ""
             end in
  if Text.contains "invalid syntax" msg then
    match nonempty (text error) with
    | Some t =>
        let text := strip t in
        if Text.startswith_any
             ["def "; "class "; "if "; "elif "; "else"; "for "; "while ";
              "try"; "except"; "finally"; "with "] text
        then "Add ':' at the end → " +:+ rstrip text +:+ ":"
        else if Text.contains "(" text && negb (Text.contains ")" text)
        then "Add closing parenthesis ')'"
        else if Text.contains "[" text && negb (Text.contains "]" text)
        then "Add closing bracket ']'"
        else if Text.contains "{" text && negb (Text.contains "}" text)
        then "Add closing brace '}'"
        else if negb (Text.count "034"%char text `mod` 2 =? 0)
        then "Add closing double quote " +:+ Text.dquote
        else if negb (Text.count "'"%char text `mod` 2 =? 0)
        then "Add closing single quote '"
        else "Check syntax around this line"
    | None => "Check syntax around this line"
    end
  else if Text.contains "unexpected eof" msg
          || Text.contains "eof while parsing" msg
  then "Check for unclosed brackets, parentheses, or quotes"
  else if Text.contains "unterminated string" msg
  then "Add closing quote to string literal"
  else if Text.contains "invalid character" msg
  then "Remove or replace invalid character"
  else if Text.contains "cannot assign to" msg
  then "Left side of assignment must be a variable"
  else if Text.contains "positional argument follows keyword argument" msg
  then "Move positional arguments before keyword arguments"
  else "Review Python syntax for this line".

(** [error.lineno or 0], [error.msg or "Syntax error"] *)
Definition _parse_syntax_error (error : SyntaxError) (code : string)
    : list SynError :=
  [{| se_line := Some (default 0%Z (lineno error));
      se_issue := Some (default "Syntax error" (nonempty (msg error)));
      se_fix := Some (_suggest_fix error code) |}].

(** The loop of [_attempt_correction]: the lines as they are after the
    errors seen so far, and the flag [modified]. *)
Fixpoint correction_loop (errors : list SynError) (lines : list string)
    (modified : bool) : Outcome (list string * bool) :=
  match errors with
  | [] => Ret (lines, modified)
  | error :: errors' =>
      match se_line error with
      | None => Raise "'line'"
      | Some number =>
          let line_num := (number - 1)%Z in
          if (line_num <? 0)%Z || (Z.of_nat (length lines) <=? line_num)%Z
          then correction_loop errors' lines modified
          else
            match (lines !! Z.to_nat line_num), se_fix error with
            | None, _ => Raise "list index out of range"
            | Some _, None => Raise "'fix'"
            | Some line, Some fix_ =>
                if Text.contains "Add ':' at the end" fix_ then
                  if negb (Text.endswith (rstrip line) ":")
                  then correction_loop errors'
                         (<[Z.to_nat line_num := rstrip line +:+ ":"]> lines) true
                  else correction_loop errors' lines modified
                else if Text.contains "Add closing parenthesis ')'" fix_ then
                  if Text.count ")"%char line <? Text.count "("%char line
                  then correction_loop errors'
                         (<[Z.to_nat line_num := rstrip line +:+ ")"]> lines) true
                  else correction_loop errors' lines modified
                else if Text.contains "Add closing bracket ']'" fix_ then
                  if Text.count "]"%char line <? Text.count "["%char line
                  then correction_loop errors'
                         (<[Z.to_nat line_num := rstrip line +:+ "]"]> lines) true
                  else correction_loop errors' lines modified
                else correction_loop errors' lines modified
            end
      end
  end.

Definition _attempt_correction (code : string) (errors : list SynError)
    : Outcome pyval :=
  match errors with
  | [] => Ret PNone
  | _ =>
      match correction_loop errors (Text.split "010"%char code) false with
      | Raise e => Raise e
      | Ret (lines, modified) =>
          if modified then
            let corrected := String.concat nl lines in
            match ast_parse corrected with
            | LocalAgents.Parsed => Ret (PStr corrected)
            | _ => Ret PNone
            end
          else Ret PNone
      end
  end.

Definition validate (code : pyval) (context : string) : Outcome SynResult :=
  if negb (py_truthy code) then Ret LocalAgents.empty_code_report
  else
    match code with
    | PStr src =>
        if String.eqb (strip src) "" then Ret LocalAgents.empty_code_report
        else
          match ast_parse src with
          | LocalAgents.Parsed =>
              Ret {| sr_status := Some "SYNTAX_VALID"; sr_errors := None;
                     sr_corrected_code := None |}
          | LocalAgents.SyntaxErr e =>
              let errors := _parse_syntax_error e src in
              match _attempt_correction src errors with
              | Raise e => Raise e
              | Ret corrected_code =>
                  Ret {| sr_status := Some "SYNTAX_ERROR";
                         sr_errors := Some errors;
                         sr_corrected_code := Some corrected_code |}
              end
          | LocalAgents.OtherError msg =>
              Ret {| sr_status := Some "PARSE_FAILED";
                     sr_errors := Some [{| se_line := Some 0%Z;
                                           se_issue := Some msg;
                                           se_fix := Some "Review code structure" |}];
                     sr_corrected_code := None |}
          end
    | _ => Raise ("'" ++ py_type_name code ++ "' object has no attribute 'strip'")
    end.

(** The report of [check_multiple]. *)
Record Report : Type := {
  overall_status : string;
  total_snippets : nat;
  valid_snippets : nat;
  results : list SynResult
}.

(** [result["status"] == "SYNTAX_VALID"], on a result that has the key. *)
Definition is_valid (result : SynResult) : Outcome bool :=
  match sr_status result with
  | Some status => Ret (String.eqb status "SYNTAX_VALID")
  | None => Raise "'status'"
  end.

(** The loop of [check_multiple], from the snippet of index [i] on. *)
Fixpoint check_loop (i : nat) (code_snippets : list pyval)
    (results : list SynResult) (all_valid : bool)
    : Outcome (list SynResult * bool) :=
  match code_snippets with
  | [] => Ret (results, all_valid)
  | code :: rest =>
      match validate code ("Snippet " +:+ pretty (i + 1)) with
      | Raise e => Raise e
      | Ret result =>
          match is_valid result with
          | Raise e => Raise e
          | Ret valid =>
              check_loop (S i) rest (results ++ [result])
                (if valid then all_valid else false)
          end
      end
  end.

(** [sum(1 for r in results if r["status"] == "SYNTAX_VALID")] *)
Fixpoint count_valid (results : list SynResult) : Outcome nat :=
  match results with
  | [] => Ret 0
  | result :: rest =>
      match is_valid result with
      | Raise e => Raise e
      | Ret valid =>
          match count_valid rest with
          | Raise e => Raise e
          | Ret n => Ret ((if valid then 1 else 0) + n)
          end
      end
  end.

Definition check_multiple (code_snippets : list pyval) : Outcome Report :=
  match check_loop 0 code_snippets [] true with
  | Raise e => Raise e
  | Ret (results, all_valid) =>
      match count_valid results with
      | Raise e => Raise e
      | Ret valid =>
          Ret {| overall_status :=
                   if all_valid then "ALL_VALID" else "ERRORS_FOUND";
                 total_snippets := length code_snippets;
                 valid_snippets := valid;
                 results := results |}
      end
  end.

End Checker.
End SyntaxChecker.

(** The result has the status ['SYNTAX_VALID']. *)
Definition accepted (result : SynResult) : bool :=
  match sr_status result with
  | Some status => String.eqb status "SYNTAX_VALID"
  | None => false
  end.

(** ** The hallucination detector of [agents/hallucination_detector/agent.py]

    Python's parser with [_extract_imports] (the imports of a parsed code),
    [importlib.import_module], [str.strip] and [str.lower] are taken as
    functions; the import checks, the status and the risk assessment are
    computed.  [verify] takes the suggestion for a missing module as a
    function, which [_find_similar_module] instantiates once the order in
    which the two sets are walked is given.  Of the report, the count of
    function calls in the summary is left out. *)

Module HallucinationDetector.

(** The two sets of names; only membership is used. *)
Definition STDLIB_MODULES : list string :=
  ["abc"; "aifc"; "argparse"; "array"; "ast"; "asynchat"; "asyncio";
   "asyncore"; "atexit"; "audioop"; "base64"; "bdb"; "binascii"; "binhex";
   "bisect"; "builtins"; "bz2"; "calendar"; "cgi"; "cgitb"; "chunk"; "cmath";
   "cmd"; "code"; "codecs"; "codeop"; "collections"; "colorsys";
   "compileall"; "concurrent"; "configparser"; "contextlib"; "contextvars";
   "copy"; "copyreg"; "cProfile"; "crypt"; "csv"; "ctypes"; "curses";
   "dataclasses"; "datetime"; "dbm"; "decimal"; "difflib"; "dis";
   "distutils"; "doctest"; "email"; "encodings"; "enum"; "errno";
   "faulthandler"; "fcntl"; "filecmp"; "fileinput"; "fnmatch"; "formatter";
   "fractions"; "ftplib"; "functools"; "gc"; "getopt"; "getpass"; "gettext";
   "glob"; "graphlib"; "grp"; "gzip"; "hashlib"; "heapq"; "hmac"; "html";
   "http"; "idlelib"; "imaplib"; "imghdr"; "imp"; "importlib"; "inspect";
   "io"; "ipaddress"; "itertools"; "json"; "keyword"; "lib2to3"; "linecache";
   "locale"; "logging"; "lzma"; "mailbox"; "mailcap"; "marshal"; "math";
   "mimetypes"; "mmap"; "modulefinder"; "msilib"; "msvcrt";
   "multiprocessing"; "netrc"; "nis"; "nntplib"; "numbers"; "operator";
   "optparse"; "os"; "ossaudiodev"; "parser"; "pathlib"; "pdb"; "pickle";
   "pickletools"; "pipes"; "pkgutil"; "platform"; "plistlib"; "poplib";
   "posix"; "posixpath"; "pprint"; "profile"; "pstats"; "pty"; "pwd";
   "py_compile"; "pyclbr"; "pydoc"; "queue"; "quopri"; "random"; "re";
   "readline"; "reprlib"; "resource"; "rlcompleter"; "runpy"; "sched";
   "secrets"; "select"; "selectors"; "shelve"; "shlex"; "shutil"; "signal";
   "site"; "smtpd"; "smtplib"; "sndhdr"; "socket"; "socketserver"; "spwd";
   "sqlite3"; "ssl"; "stat"; "statistics"; "string"; "stringprep"; "struct";
   "subprocess"; "sunau"; "symbol"; "symtable"; "sys"; "sysconfig"; "syslog";
   "tabnanny"; "tarfile"; "telnetlib"; "tempfile"; "termios"; "test";
   "textwrap"; "threading"; "time"; "timeit"; "tkinter"; "token"; "tokenize";
   "tomllib"; "trace"; "traceback"; "tracemalloc"; "tty"; "turtle";
   "turtledemo"; "types"; "typing"; "unicodedata"; "unittest"; "urllib";
   "uu"; "uuid"; "venv"; "warnings"; "wave"; "weakref"; "webbrowser";
   "winreg"; "winsound"; "wsgiref"; "xdrlib"; "xml"; "xmlrpc"; "zipapp";
   "zipfile"; "zipimport"; "zlib"; "_thread"].

Definition KNOWN_THIRD_PARTY : list string :=
  ["numpy"; "np"; "pandas"; "pd"; "requests"; "flask"; "django"; "fastapi";
   "sqlalchemy"; "pytest"; "scipy"; "matplotlib"; "plt"; "seaborn"; "sns";
   "sklearn"; "tensorflow"; "tf"; "torch"; "pytorch"; "keras"; "cv2"; "PIL";
   "pillow"; "bs4"; "beautifulsoup4"; "selenium"; "scrapy"; "celery";
   "redis"; "boto3"; "aiohttp"; "httpx"; "pydantic"; "attrs"; "click";
   "typer"; "rich"; "tqdm"; "loguru"; "black"; "flake8"; "mypy"; "isort";
   "poetry"; "pipenv"; "dotenv"; "jinja2"; "werkzeug"; "uvicorn";
   "starlette"; "streamlit"; "plotly"; "dash"; "altair"; "bokeh"; "networkx";
   "statsmodels"].

(** An entry of [_extract_imports], with the keys that are read. *)
Record ImportEntry : Type := {
  import_module_name : string;
  import_line : Z
}.

(** What [importlib.import_module(name)] does: it returns, raises an
    [ImportError], or raises another [Exception], whose text is kept. *)
Inductive ImportOutcome : Type :=
| Imported
| ImportError
| OtherException (message : string).

(** The dictionary [_verify_import] returns. *)
Record Verdict : Type := {
  is_valid : bool;
  source : option string;
  issue : option string;
  suggestion : option string
}.

(** An entry of ["verified_components"]. *)
Record Component : Type := {
  component : string;
  component_source : option string
}.

(** ["risk_assessment"] *)
Record Risk : Type := {
  severity : string;
  impact : string;
  hallucination_count : nat
}.

(** The dictionary [verify] returns: a key that is absent is [None]. *)
Record Report : Type := {
  status : string;
  hallucinations : option (list Hallucination);
  risk_assessment : option Risk;
  verified_components : option (list Component);
  libraries_checked : option nat
}.

(** What the controller reads of a report. *)
Definition to_result (report : Report) : HalResult :=
  {| hr_status := Some (status report);
     hr_hallucinations := hallucinations report |}.

(** [module_name.split('.')[0]] *)
Definition base_module (module_name : string) : string :=
  default "" (head (Text.split "."%char module_name)).

Definition _is_stdlib (module_name : string) : bool :=
  bool_decide (base_module module_name ∈ STDLIB_MODULES).

Definition _assess_risk (hallucinations : list Hallucination) : Risk :=
  if 3 <=? length hallucinations then
    {| severity := "High";
       impact := "Multiple non-existent components will cause immediate failure";
       hallucination_count := length hallucinations |}
  else if 1 <=? length hallucinations then
    {| severity := "Medium";
       impact := "Code will fail at import or runtime";
       hallucination_count := length hallucinations |}
  else
    {| severity := "Low";
       impact := "Code may fail at import";
       hallucination_count := length hallucinations |}.

Definition verification_failed : Report :=
  {| status := "VERIFICATION_FAILED"; hallucinations := Some [];
     risk_assessment := None; verified_components := None;
     libraries_checked := None |}.

Section Detector.
(** The [SyntaxError] objects. *)
Variable E : Type.
Variable ast_parse : string → LocalAgents.ParseResult E.
Variable extract_imports : string → list ImportEntry.
(** The import attempted by the [n]-th call of [verify]. *)
Variable import_module : nat → string → ImportOutcome.
Variables strip lower : string → string.
Variable find_similar_module : string → string.

Definition _is_known_third_party (module_name : string) : bool :=
  bool_decide (lower (base_module module_name) ∈ KNOWN_THIRD_PARTY).

Definition _verify_import (n : nat) (imp : ImportEntry) : Outcome Verdict :=
  let module_name := import_module_name imp in
  if _is_stdlib module_name then
    Ret {| is_valid := true; source := Some "Python Standard Library";
           issue := None; suggestion := None |}
  else if _is_known_third_party module_name then
    Ret {| is_valid := true; source := Some "Known Third-Party Library";
           issue := None; suggestion := None |}
  else
    match import_module n module_name with
    | Imported =>
        Ret {| is_valid := true; source := Some "Installed Package";
               issue := None; suggestion := None |}
    | ImportError =>
        Ret {| is_valid := false; source := None;
               issue := Some ("Module '" +:+ module_name
                              +:+ "' does not exist or is not installed");
               suggestion := Some (find_similar_module module_name) |}
    | OtherException message => Raise message
    end.

(** The loop of [verify] over the imports. *)
Fixpoint verify_imports (n : nat) (imports : list ImportEntry)
    (hallucinations : list Hallucination) (verified : list Component)
    : Outcome (list Hallucination * list Component) :=
  match imports with
  | [] => Ret (hallucinations, verified)
  | imp :: imports' =>
      match _verify_import n imp with
      | Raise e => Raise e
      | Ret result =>
          if is_valid result then
            verify_imports n imports' hallucinations
              (verified ++ [{| component := import_module_name imp;
                               component_source := source result |}])
          else
            verify_imports n imports'
              (hallucinations ++
                 [{| h_type := Some "Library";
                     h_referenced := Some (import_module_name imp);
                     h_issue := issue result;
                     h_suggestion := suggestion result |}])
              verified
      end
  end.

Definition verify (n : nat) (code : pyval) : Outcome Report :=
  if negb (py_truthy code) then Ret verification_failed
  else
    match code with
    | PStr src =>
        if String.eqb (strip src) "" then Ret verification_failed
        else
          match ast_parse src with
          | LocalAgents.Parsed =>
              let imports := extract_imports src in
              match verify_imports n imports [] [] with
              | Ret ([], verified) =>
                  Ret {| status := "VERIFIED"; hallucinations := None;
                         risk_assessment := None;
                         verified_components := Some verified;
                         libraries_checked := Some (length imports) |}
              | Ret (hallucinations, verified) =>
                  Ret {| status := "HALLUCINATION_DETECTED";
                         hallucinations := Some hallucinations;
                         risk_assessment := Some (_assess_risk hallucinations);
                         verified_components := Some verified;
                         libraries_checked := None |}
              | Raise _ => Ret verification_failed
              end
          | LocalAgents.SyntaxErr _ => Ret verification_failed
          | LocalAgents.OtherError _ => Ret verification_failed
          end
    | _ => Raise ("'" ++ py_type_name code ++ "' object has no attribute 'strip'")
    end.

End Detector.

(** [_is_similar(s1, s2, threshold)], on strings as sequences of
    characters of any alphabet. *)
Section Similar.
Context {Char : Type} `{EqDecision Char}.
Variable lower : list Char → list Char.

(** [s1 in s2] *)
Fixpoint occurs_in (s1 s2 : list Char) : bool :=
  bool_decide (s1 `prefix_of` s2) ||
  match s2 with
  | [] => false
  | _ :: rest => occurs_in s1 rest
  end.

(** [sum(1 for a, b in zip(s1, s2) if a != b)] *)
Fixpoint differences (s1 s2 : list Char) : nat :=
  match s1, s2 with
  | a :: s1', b :: s2' =>
      (if bool_decide (a = b) then 0 else 1) + differences s1' s2'
  | _, _ => 0
  end.

Definition _is_similar (s1 s2 : list Char) (threshold : Z) : bool :=
  let s1 := lower s1 in
  let s2 := lower s2 in
  if (threshold <? Z.abs (Z.of_nat (length s1) - Z.of_nat (length s2)))%Z
  then false
  else if occurs_in s1 s2 || occurs_in s2 s1 then true
  else (Z.of_nat (differences s1 s2) <=? threshold)%Z.
End Similar.

(** [_find_similar_module].  The two loops walk sets, in an order that
    Python does not fix: the orders are arguments, and every claim about the
    function is made for all of them. *)
Section Suggestion.
Variable lower : string → string.
Variables stdlib_order third_party_order : list string.

Definition alternatives : list (string * string) :=
  [("opencv", "cv2"); ("beautifulsoup", "bs4"); ("pillow", "PIL");
   ("sklearn", "scikit-learn (import as sklearn)");
   ("tensorflow", "tf (if using alias)")].

(** [self._is_similar(s1, s2)], with the default threshold, on names
    made of ASCII characters, as those of the two sets are. *)
Definition similar_names (s1 s2 : string) : bool :=
  _is_similar
    (λ l, String.list_ascii_of_string (lower (String.string_of_list_ascii l)))
    (String.list_ascii_of_string s1) (String.list_ascii_of_string s2) 2.

Definition generic_suggestion : string :=
  "Consider using a standard library alternative or ensure the package is installed".

Definition _find_similar_module (module_name : string) : string :=
  let lower_name := lower module_name in
  match List.find (λ entry, String.eqb entry.1 lower_name) alternatives with
  | Some entry => "Did you mean '" +:+ entry.2 +:+ "'?"
  | None =>
      match List.find (similar_names module_name) stdlib_order with
      | Some stdlib_mod =>
          "Did you mean '" +:+ stdlib_mod +:+ "' from standard library?"
      | None =>
          match List.find (similar_names module_name) third_party_order with
          | Some third_party =>
              "Did you mean '" +:+ third_party +:+ "'? (requires installation)"
          | None => generic_suggestion
          end
      end
  end.
End Suggestion.

End HallucinationDetector.

(** The detector as the controller calls it. *)
Definition detector_agent {E : Type}
    (ast_parse : string → LocalAgents.ParseResult E)
    (extract_imports : string → list HallucinationDetector.ImportEntry)
    (import_module : nat → string → HallucinationDetector.ImportOutcome)
    (strip lower : string → string) (find_similar_module : string → string)
    (n : nat) (code : pyval) : Outcome HalResult :=
  match HallucinationDetector.verify E ast_parse extract_imports import_module
          strip lower find_similar_module n code with
  | Ret report => Ret (HallucinationDetector.to_result report)
  | Raise e => Raise e
  end.

(** A hallucination entry as the detector writes it for the module
    [name]. *)
Definition reported_module (names : list string) (h : Hallucination) : Prop :=
  h_type h = Some "Library" ∧
  ∃ name, name ∈ names ∧
          h_referenced h = Some name ∧
          h_issue h = Some ("Module '" +:+ name
                            +:+ "' does not exist or is not installed") ∧
          is_Some (h_suggestion h).

(** ** Python's [strip], [rstrip] and [lower] on ASCII text

    These are the three methods on strings made of ASCII characters only
    (on other text Python also strips Unicode spaces and lowers letters
    outside ASCII).  They are used to run the agents on sample programs; the
    theorems take the three methods as arbitrary functions. *)

Module Ascii_text.

(** The ASCII characters that [str.strip] removes. *)
Definition is_space (c : ascii) : bool :=
  let n := nat_of_ascii c in
  ((9 <=? n) && (n <=? 13)) || ((28 <=? n) && (n <=? 32)).

Fixpoint lstrip (s : string) : string :=
  match s with
  | EmptyString => EmptyString
  | String c rest => if is_space c then lstrip rest else s
  end.

Definition rstrip (s : string) : string := String.rev (lstrip (String.rev s)).

Definition strip (s : string) : string := lstrip (rstrip s).

Definition lower_char (c : ascii) : ascii :=
  let n := nat_of_ascii c in
  if (65 <=? n) && (n <=? 90) then ascii_of_nat (n + 32) else c.

Fixpoint lower (s : string) : string :=
  match s with
  | EmptyString => EmptyString
  | String c rest => String (lower_char c) (lower rest)
  end.

End Ascii_text.


(** ** The code generator of [agents/code_generator/agent.py]

    The call of the language model is a function from the number of the
    call and the prompt to the text returned, or to the text of the
    [Exception] raised inside the [try] before a code is extracted (a failed
    call, an answer without text).  [str.strip] and the formatting of a
    value inside an f-string are taken as functions.  The explanation and the
    dependencies, which the controller does not read, are left out. *)

Module CodeGenerator.

Definition fence : string := "```".

(** The text matched by [(.*?)```] at the start of [s]: the shortest one
    that a fence follows. *)
Fixpoint until_fence (s : string) : option string :=
  if String.prefix fence s then Some EmptyString
  else match s with
       | EmptyString => None
       | String c rest => String c <$> until_fence rest
       end.

(** [s] without its prefix [p]. *)
Fixpoint after_prefix (p s : string) : option string :=
  match p, s with
  | EmptyString, _ => Some s
  | String a p', String b s' =>
      if Ascii.eqb a b then after_prefix p' s' else None
  | String _ _, EmptyString => None
  end.

(** The group of the leftmost match of the pattern [opener(.*?)```], where
    the dot matches newlines too: [re.findall(pattern, response,
    re.DOTALL)[0]], or [None] when the list is empty. *)
Fixpoint first_block (opener response : string) : option string :=
  match after_prefix opener response ≫= until_fence with
  | Some code => Some code
  | None =>
      match response with
      | EmptyString => None
      | String _ rest => first_block opener rest
      end
  end.

Section Generator.
Variable llm : nat → string → Outcome string.
Variable strip : string → string.
Variable py_str : pyval → string.

Definition _extract_code_from_response (response : string) : string :=
  match first_block ("```python" +:+ nl) response with
  | Some code => strip code
  | None =>
      match first_block ("```" +:+ nl) response with
      | Some code => strip code
      | None => ""
      end
  end.

(** The prompt built from the request. *)
Definition prompt_of (request_data : GenRequest) : string :=
  let prompt :=
    "Generate Python code for the following request:" +:+ nl +:+ nl
    +:+ gq_request request_data +:+ nl +:+ nl in
  let prompt :=
    match gq_feedback request_data, gq_previous_attempt request_data with
    | Some feedback, Some previous_attempt =>
        prompt
        +:+ nl +:+ nl +:+ "### Previous Attempt Issues:" +:+ nl
        +:+ feedback +:+ nl +:+ nl
        +:+ "### Previous Code:" +:+ nl +:+ "```python" +:+ nl
        +:+ py_str previous_attempt +:+ nl +:+ "```" +:+ nl +:+ nl
        +:+ "Please fix the issues and generate corrected code." +:+ nl
    | _, _ => prompt
    end in
  prompt +:+ nl
  +:+ "Provide only the Python code within ```python code blocks. Include all imports, docstrings, type hints, and error handling.".

Definition generate (n : nat) (request_data : GenRequest) : Outcome GenResult :=
  match llm n (prompt_of request_data) with
  | Ret content =>
      let code := _extract_code_from_response content in
      if String.eqb code "" then
        Ret {| gr_status := Some "error"; gr_code := None;
               gr_error := Some "No code block found in response" |}
      else
        Ret {| gr_status := Some "success"; gr_code := Some (PStr code);
               gr_error := None |}
  | Raise e =>
      Ret {| gr_status := Some "error"; gr_code := None; gr_error := Some e |}
  end.

End Generator.
End CodeGenerator.

(** ** The checker and the detector on sample programs *)

Module Samples.

(** A function whose [def] line lacks its colon. *)
Definition greeting : string := "def greet(name)" +:+ nl +:+ "    return name".

(** What Python 3.10 and later raise for a [def] line without its colon,
    what Python 3.9 raises for it, what is raised for a [def] line without
    a body, and what is raised for an open parenthesis. *)
Definition expected_colon : SyntaxChecker.SyntaxError :=
  {| SyntaxChecker.lineno := Some 1%Z;
     SyntaxChecker.offset := Some 16%Z;
     SyntaxChecker.msg := Some "expected ':'";
     SyntaxChecker.text := Some ("def greet(name)" +:+ nl) |}.

Definition invalid_syntax : SyntaxChecker.SyntaxError :=
  {| SyntaxChecker.lineno := Some 1%Z;
     SyntaxChecker.offset := Some 16%Z;
     SyntaxChecker.msg := Some "invalid syntax";
     SyntaxChecker.text := Some ("def greet(name)" +:+ nl) |}.

(** An [IndentationError], which is a [SyntaxError]. *)
Definition no_body : SyntaxChecker.SyntaxError :=
  {| SyntaxChecker.lineno := Some 1%Z;
     SyntaxChecker.offset := Some 17%Z;
     SyntaxChecker.msg :=
       Some "expected an indented block after function definition on line 1";
     SyntaxChecker.text := Some ("def greet(name):" +:+ nl) |}.

Definition never_closed : SyntaxChecker.SyntaxError :=
  {| SyntaxChecker.lineno := Some 1%Z;
     SyntaxChecker.offset := Some 5%Z;
     SyntaxChecker.msg := Some "'(' was never closed";
     SyntaxChecker.text := Some ("x = (" +:+ nl) |}.

(** Python's parser on the programs used below: a [def] line without its
    colon is rejected with the given error, with or without a body under
    it; a [def] line without a body and an open parenthesis are rejected;
    the other programs used ([import] lines, and [greeting] with its colon)
    parse. *)
Definition parse (e : SyntaxChecker.SyntaxError) (src : string)
    : LocalAgents.ParseResult SyntaxChecker.SyntaxError :=
  if String.eqb src greeting then LocalAgents.SyntaxErr e
  else if String.eqb src "def greet(name)" then LocalAgents.SyntaxErr e
  else if String.eqb src "def greet(name):" then LocalAgents.SyntaxErr no_body
  else if String.eqb src "x = (" then LocalAgents.SyntaxErr never_closed
  else LocalAgents.Parsed.

Definition checker (e : SyntaxChecker.SyntaxError)
    : pyval → string → Outcome SynResult :=
  SyntaxChecker.validate (parse e) Ascii_text.strip Ascii_text.rstrip
    Ascii_text.lower.

(** The imports of three programs, and an environment in which nothing
    outside the two lists of the detector is installed. *)
Definition imports_of (src : string) : list HallucinationDetector.ImportEntry :=
  if String.eqb src "import os.no_such_module" then
    [{| HallucinationDetector.import_module_name := "os.no_such_module";
        HallucinationDetector.import_line := 1%Z |}]
  else if String.eqb src "import PIL" then
    [{| HallucinationDetector.import_module_name := "PIL";
        HallucinationDetector.import_line := 1%Z |}]
  else if String.eqb src "import fake_module" then
    [{| HallucinationDetector.import_module_name := "fake_module";
        HallucinationDetector.import_line := 1%Z |}]
  else [].

Definition nothing_installed (n : nat) (name : string)
    : HallucinationDetector.ImportOutcome :=
  HallucinationDetector.ImportError.

(** [_find_similar_module] with the two sets walked in the order of their
    listing. *)
Definition suggestion : string → string :=
  HallucinationDetector._find_similar_module Ascii_text.lower
    HallucinationDetector.STDLIB_MODULES
    HallucinationDetector.KNOWN_THIRD_PARTY.

Definition detector : nat → pyval → Outcome HalResult :=
  detector_agent (parse expected_colon) imports_of nothing_installed
    Ascii_text.strip Ascii_text.lower suggestion.

(** The controller with this checker and this detector.  The generation
    service answers ["import fake_module"], then ["x = ("], then
    ["import os"]. *)
Definition three_candidates : Collaborators :=
  {| generate := λ n _,
       Scenarios.gen_success
         match n with
         | 0 => "import fake_module"
         | 1 => "x = ("
         | _ => "import os"
         end;
     validate := λ _, checker expected_colon;
     verify := detector;
     review := λ _ _ _, Scenarios.review_ok |}.

(** The controller with the checker as Python 3.9 reports the missing
    colon.  The generation service answers ["x = ("] twice, then
    [greeting], which the checker can repair. *)
Definition late_repair : Collaborators :=
  {| generate := λ n _,
       Scenarios.gen_success
         match n with
         | 0 | 1 => "x = ("
         | _ => greeting
         end;
     validate := λ _, checker invalid_syntax;
     verify := detector;
     review := λ _ _ _, Scenarios.review_ok |}.

(** Two answers of a language model: one with the code in a closed
    block, one cut off inside the block. *)
Definition complete_answer : string :=
  "Here is the function:" +:+ nl +:+ nl
  +:+ ("```python" +:+ nl)
  +:+ ("def add(a, b):" +:+ nl +:+ "    return a + b" +:+ nl)
  +:+ "```" +:+ (nl +:+ "It adds two numbers.").

Definition cut_answer : string :=
  ("Here is the function:" +:+ nl +:+ nl)
  +:+ ("```python" +:+ nl)
  +:+ ("def add(a, b):" +:+ nl +:+ "    return").

Definition model (n : nat) (prompt : string) : Outcome string :=
  match n with
  | 0 => Ret cut_answer
  | 1 => Raise "Connection error."
  | _ => Ret complete_answer
  end.

(** The text of a candidate inside the prompt; only strings and [None]
    are candidates here. *)
Definition show (v : pyval) : string :=
  match v with
  | PStr s => s
  | _ => "None"
  end.

Definition generator : nat → GenRequest → Outcome GenResult :=
  CodeGenerator.generate model Ascii_text.strip show.

End Samples.

(** ** The controller with its console

    [_log] prints a line whenever [self.verbose] is set, which is the
    default, and [print] can raise: the stream cannot encode a character of
    the line, or it is closed.  A log line is therefore part of the control
    flow.  One that fails before the [try] of [generate_code], or inside a
    handler, leaves the method; one that fails inside a [try] block is
    taken by the handler of that block for a fault of the agent.

    This part is the controller with every call of [_log] where the source
    has it.  It also tells the exceptions the handlers catch, the instances
    of [Exception], from the others ([KeyboardInterrupt], [SystemExit]),
    which pass through [except Exception].  The definitions of the first
    part are what these become when nothing prints or every line is printed
    and the agents raise nothing but instances of [Exception]; the
    statements about [run_M] below make that precise. *)

Module Verbose.

(** An exception, with [str(e)]. *)
Inductive exn : Type :=
| Exception (text : string)
| BaseException (text : string).

Definition str (e : exn) : string :=
  match e with
  | Exception text => text
  | BaseException text => text
  end.

Inductive Result (A : Type) : Type :=
| Returned (a : A)
| Raised (e : exn).
Arguments Returned {A} a.
Arguments Raised {A} e.

(** An outcome of the first part: what it raises is an [Exception]. *)
Definition of_outcome {A} (o : Outcome A) : Result A :=
  match o with
  | Ret a => Returned a
  | Raise e => Raised (Exception e)
  end.

(** [self.code_generator], [self.syntax_checker],
    [self.hallucination_detector], [self.code_reviewer]: the method of each
    agent, from the number of calls it has served and its arguments. *)
Record Agents : Type := {
  code_generator : nat → GenRequest → Result GenResult;
  syntax_checker : nat → pyval → string → Result SynResult;
  hallucination_detector : nat → pyval → Result HalResult;
  code_reviewer : nat → pyval → string → Result pyval
}.

(** The request state, the calls of the agents and the lines handed to
    [print] so far. *)
Record World : Type := { run : Run; out_log : list string }.

Definition L (A : Type) : Type := World → Result A * World.

#[global] Instance L_ret : MRet L := λ A a w, (Returned a, w).

#[global] Instance L_bind : MBind L := λ A B k l w,
  match l w with
  | (Returned a, w') => k a w'
  | (Raised e, w') => (Raised e, w')
  end.

(** A step that prints nothing and calls no agent, taken from the first
    part. *)
Definition run_M {A} (m : M A) : L A := λ w,
  let '(o, r) := m (run w) in
  (of_outcome o, {| run := r; out_log := out_log w |}).

(** [try: l except Exception as e: h(str(e))] *)
Definition try_except {A} (l : L A) (h : string → L A) : L A := λ w,
  match l w with
  | (Raised (Exception e), w') => h e w'
  | other => other
  end.

Fixpoint for_each {A B} (xs : list A) (body : A → L (option B)) : L (option B) :=
  match xs with
  | [] => mret None
  | x :: xs' =>
      r ← body x;
      match r with
      | Some v => mret (Some v)
      | None => for_each xs' body
      end
  end.

(** The trace with one more call of the reviewer. *)
Definition with_rev_call (code : pyval) (requirements : string) (t : Trace)
    : Trace :=
  {| gen_log := gen_log t; syn_log := syn_log t; hal_log := hal_log t;
     rev_log := (rev_log t ++ [(code, requirements)])%list |}.

(** What [_log] hands to [print], without the time of day. *)
Definition log_line (level message : string) : string :=
  "[" +:+ level +:+ "] " +:+ message.

Section Pipeline.

Variable ag : Agents.

(** [self.enable_code_review], [self.verbose] *)
Variables enable_code_review verbose : bool.

(** [print] on the standard output: the first argument is the number of
    lines handed to it before.  The line is the level and the message; the
    time of day that [_log] puts in front is fixed by the number of the
    call. *)
Variable print : nat → string → Result unit.

(** [str(v)] as an f-string calls it. *)
Variable py_str : pyval → string.

Definition _log (message level : string) : L unit := λ w,
  if verbose then
    (print (length (out_log w)) (log_line level message),
     {| run := run w;
        out_log := (out_log w ++ [log_line level message])%list |})
  else (Returned tt, w).

Definition call_generate (req : GenRequest) : L GenResult := λ w,
  (code_generator ag (length (gen_log (tr (run w)))) req,
   {| run := {| st := st (run w);
                tr := with_gen_call
                        {| gc_request := req;
                           gc_errors_at_call := error_messages (st (run w)) |}
                        (tr (run w)) |};
      out_log := out_log w |}).

Definition call_validate (code : pyval) (context : string) : L SynResult := λ w,
  (syntax_checker ag (length (syn_log (tr (run w)))) code context,
   {| run := {| st := st (run w);
                tr := with_syn_call code context (tr (run w)) |};
      out_log := out_log w |}).

Definition call_verify (code : pyval) : L HalResult := λ w,
  (hallucination_detector ag (length (hal_log (tr (run w)))) code,
   {| run := {| st := st (run w); tr := with_hal_call code (tr (run w)) |};
      out_log := out_log w |}).

Definition call_review (code : pyval) (requirements : string) : L pyval := λ w,
  (code_reviewer ag (length (rev_log (tr (run w)))) code requirements,
   {| run := {| st := st (run w);
                tr := with_rev_call code requirements (tr (run w)) |};
      out_log := out_log w |}).

(** The body of the loop of [_run_code_generation]. *)
Definition generation_attempt (attempt : nat) : L (option bool) :=
  run_M (modify (set_attempt_generation attempt));;
  _log ("  Attempt " +:+ pretty attempt +:+ "/"
        +:+ pretty MAX_GENERATION_RETRIES) "INFO";;
  try_except
    (s ← run_M get;
     request_data ← run_M (prepare_request attempt s);
     result ← call_generate request_data;
     status ← run_M (getitem "status" (gr_status result));
     if String.eqb status "success" then
       code ← run_M (getitem "code" (gr_code result));
       run_M (modify (set_generated_code code));;
       _log "  ✓ Code generated successfully" "INFO";;
       mret (Some true)
     else
       let error_msg := default "Unknown error" (gr_error result) in
       run_M (modify (append_error ("Generation error: " +:+ error_msg)));;
       _log ("  ✗ Generation failed: " +:+ error_msg) "WARN";;
       mret None)
    (λ e,
       let error_msg := "Generation exception: " +:+ e in
       run_M (modify (append_error error_msg));;
       _log ("  ✗ " +:+ error_msg) "ERROR";;
       mret None).

Definition _run_code_generation : L bool :=
  run_M (modify (set_current_stage Stage.CODE_GENERATION));;
  _log "Stage 1: Code Generation" "INFO";;
  r ← for_each (range1 MAX_GENERATION_RETRIES) generation_attempt;
  match r with
  | Some b => mret b
  | None =>
      _log "  ✗ Max generation retries exceeded" "ERROR";;
      mret false
  end.

(** The body of the loop of [_run_syntax_validation]. *)
Definition syntax_attempt (attempt : nat) : L (option bool) :=
  run_M (modify (set_attempt_syntax_fix attempt));;
  _log ("  Attempt " +:+ pretty attempt +:+ "/"
        +:+ pretty MAX_SYNTAX_RETRIES) "INFO";;
  try_except
    (s ← run_M get;
     result ← call_validate (generated_code (artifacts s))
                ("Generated for: " +:+ user_request s);
     run_M (modify (set_syntax_result result));;
     status ← run_M (getitem "status" (sr_status result));
     if String.eqb status "SYNTAX_VALID" then
       _log "  ✓ Syntax validation passed" "INFO";;
       mret (Some true)
     else
       _log ("  ✗ Syntax errors found: "
             +:+ pretty (length (default [] (sr_errors result)))
             +:+ " error(s)") "WARN";;
       match sr_corrected_code result with
       | Some corrected =>
           if py_truthy corrected then
             run_M (modify (set_generated_code corrected));;
             _log "  → Using auto-corrected code" "INFO";;
             mret None
           else
             run_M (modify (append_error (_format_syntax_errors result)));;
             ok ← _run_code_generation;
             if negb ok then mret (Some false) else mret None
       | None =>
           run_M (modify (append_error (_format_syntax_errors result)));;
           ok ← _run_code_generation;
           if negb ok then mret (Some false) else mret None
       end)
    (λ e,
       let error_msg := "Syntax validation exception: " +:+ e in
       run_M (modify (append_error error_msg));;
       _log ("  ✗ " +:+ error_msg) "ERROR";;
       mret None).

Definition _run_syntax_validation : L bool :=
  run_M (modify (set_current_stage Stage.SYNTAX_CHECK));;
  _log "Stage 2: Syntax Validation" "INFO";;
  r ← for_each (range1 MAX_SYNTAX_RETRIES) syntax_attempt;
  match r with
  | Some b => mret b
  | None =>
      _log "  ✗ Max syntax validation retries exceeded" "ERROR";;
      mret false
  end.

(** The body of the loop of [_run_hallucination_detection]. *)
Definition hallucination_attempt (attempt : nat) : L (option bool) :=
  run_M (modify (set_attempt_hallucination_fix attempt));;
  _log ("  Attempt " +:+ pretty attempt +:+ "/"
        +:+ pretty MAX_HALLUCINATION_RETRIES) "INFO";;
  try_except
    (s ← run_M get;
     result ← call_verify (generated_code (artifacts s));
     run_M (modify (set_hallucination_result result));;
     status ← run_M (getitem "status" (hr_status result));
     if String.eqb status "VERIFIED" then
       _log "  ✓ All references verified" "INFO";;
       mret (Some true)
     else
       let hallucination_count :=
         length (default [] (hr_hallucinations result)) in
       _log ("  ✗ Hallucinations detected: " +:+ pretty hallucination_count
             +:+ " issue(s)") "WARN";;
       run_M (modify (append_error (_format_hallucination_errors result)));;
       ok ← _run_code_generation;
       if negb ok then mret (Some false) else mret None)
    (λ e,
       let error_msg := "Hallucination detection exception: " +:+ e in
       run_M (modify (append_error error_msg));;
       _log ("  ✗ " +:+ error_msg) "ERROR";;
       mret None).

Definition _run_hallucination_detection : L bool :=
  run_M (modify (set_current_stage Stage.HALLUCINATION_CHECK));;
  _log "Stage 3: Hallucination Detection" "INFO";;
  r ← for_each (range1 MAX_HALLUCINATION_RETRIES) hallucination_attempt;
  match r with
  | Some b => mret b
  | None =>
      _log "  ✗ Max hallucination detection retries exceeded" "ERROR";;
      mret false
  end.

(** The handler logs before it stores. *)
Definition _run_code_review : L unit :=
  run_M (modify (set_current_stage Stage.CODE_REVIEW));;
  _log "Stage 4: Code Review (optional)" "INFO";;
  try_except
    (s ← run_M get;
     result ← call_review (generated_code (artifacts s)) (user_request s);
     run_M (modify (set_review_result result));;
     score ← run_M (lift (py_get result "score" (PStr "N/A")));
     _log ("  ✓ Code review completed (Score: " +:+ py_str score +:+ "/10)")
       "INFO")
    (λ e,
       _log ("  ⚠ Code review failed: " +:+ e) "WARN";;
       run_M (modify (set_review_result
                        (PDict [("status", PStr "error"); ("error", PStr e)])))).

(** The [try] block of [generate_code]. *)
Definition try_block (now : string) : L pyval :=
  ok ← _run_code_generation;
  if negb ok then run_M (_compile_failure_response now) else
  ok ← _run_syntax_validation;
  if negb ok then run_M (_compile_failure_response now) else
  ok ← _run_hallucination_detection;
  if negb ok then run_M (_compile_failure_response now) else
  (if enable_code_review then _run_code_review else mret tt);;
  run_M (modify (set_status Status.COMPLETED));;
  run_M (modify (set_current_stage Stage.COMPLETED));;
  run_M (_compile_success_response now).

(** Its handler, which logs first. *)
Definition handler (now e : string) : L pyval :=
  _log ("Unexpected error: " +:+ e) "ERROR";;
  run_M (modify (set_status Status.FAILED));;
  run_M (modify (set_current_stage Stage.FAILED));;
  run_M (modify (append_error ("Unexpected error: " +:+ e)));;
  run_M (_compile_failure_response now).

Definition run_pipeline (now : string) : L pyval :=
  try_except (try_block now) (handler now).

(** The two lines logged before the [try]. *)
Definition announce (rid user_request : string) : L unit :=
  _log ("Starting new request: " +:+ rid) "INFO";;
  _log ("User request: " +:+ user_request) "INFO".

End Pipeline.

(** [self], with the standard output it prints on. *)
Record t : Type := {
  agents : Agents;
  enable_code_review : bool;
  verbose : bool;
  print : nat → string → Result unit;
  states : gmap string RequestState;
  calls : Trace;
  printed : list string
}.

(** [Orchestrator(enable_code_review=..., verbose=...)]: the constructor
    logs one line, after the attributes are set; no object is built when
    that line cannot be printed. *)
Definition init (ag : Agents) (enable verbose : bool)
    (print : nat → string → Result unit) : Result t :=
  let line := log_line "INFO" "Orchestrator initialized successfully" in
  match (if verbose then print 0 line else Returned tt) with
  | Returned _ =>
      Returned {| agents := ag; enable_code_review := enable;
                  verbose := verbose; print := print; states := ∅;
                  calls := empty_trace;
                  printed := if verbose then [line] else [] |}
  | Raised e => Raised e
  end.

(** [generate_code(user_request)].  The state is entered in [self.states]
    before anything is logged, so the entry is there however the call
    ends. *)
Definition generate_code (py_str : pyval → string)
    (rid created now user_request : string) (self : t) : Result pyval * t :=
  let state := new_state rid created user_request in
  let '(out, w) :=
    (announce (verbose self) (print self) rid user_request;;
     run_pipeline (agents self) (enable_code_review self) (verbose self)
       (print self) py_str now)
      {| run := {| st := state; tr := calls self |};
         out_log := printed self |} in
  (out, {| agents := agents self;
           enable_code_review := enable_code_review self;
           verbose := verbose self;
           print := print self;
           states := <[rid := st (run w)]> (states self);
           calls := tr (run w);
           printed := out_log w |}).

(** [get_state(request_id)] logs nothing. *)
Definition get_state (request_id : string) (self : t) : option StateDict * t :=
  match states self !! request_id with
  | Some s => (Some (to_dict s), self)
  | None => (None, self)
  end.

(** ** When the console and the agents stay out of the way *)

(** No line fails to print: nothing is printed, or [print] returns. *)
Definition quiet (self : t) : Prop :=
  verbose self = false ∨ ∀ n line, print self n line = Returned tt.

(** The agents raise nothing but instances of [Exception]. *)
Definition is_catchable {A} (o : Result A) : Prop :=
  match o with
  | Raised (BaseException _) => False
  | _ => True
  end.

Definition only_exceptions (ag : Agents) : Prop :=
  (∀ n q, is_catchable (code_generator ag n q)) ∧
  (∀ n code context, is_catchable (syntax_checker ag n code context)) ∧
  (∀ n code, is_catchable (hallucination_detector ag n code)) ∧
  (∀ n code requirements, is_catchable (code_reviewer ag n code requirements)).

(** The outcome as the first part has it. *)
Definition to_outcome {A} (o : Result A) : Outcome A :=
  match o with
  | Returned a => Ret a
  | Raised e => Raise (str e)
  end.

Definition to_collaborators (ag : Agents) : Collaborators :=
  {| generate := λ n q, to_outcome (code_generator ag n q);
     validate := λ n code context, to_outcome (syntax_checker ag n code context);
     verify := λ n code, to_outcome (hallucination_detector ag n code);
     review := λ n code requirements,
       to_outcome (code_reviewer ag n code requirements) |}.

(** Agents of the first part, as agents here. *)
Definition of_collaborators (ag : Collaborators) : Agents :=
  {| code_generator := λ n q, of_outcome (generate ag n q);
     syntax_checker := λ n code context, of_outcome (validate ag n code context);
     hallucination_detector := λ n code, of_outcome (verify ag n code);
     code_reviewer := λ n code requirements,
       of_outcome (review ag n code requirements) |}.

(** The orchestrator of the first part that [self] is when its console is
    left out. *)
Definition without_console (self : t) : Orchestrator.t :=
  {| Orchestrator.agents := to_collaborators (agents self);
     Orchestrator.enable_code_review := enable_code_review self;
     Orchestrator.states := states self;
     Orchestrator.calls := calls self |}.

(** [l] does what [m] does, apart from what it prints. *)
Definition refines {A} (l : L A) (m : M A) : Prop :=
  ∀ w, (l w).1 = of_outcome (m (run w)).1 ∧ run (l w).2 = (m (run w)).2.


(** Whatever [l] returns satisfies [Q]. *)
Definition yields {A} (Q : A → Prop) (l : L A) : Prop :=
  ∀ w a w', l w = (Returned a, w') → Q a.

End Verbose.

(** ** Standard outputs *)

Module Consoles.

(** A stream that takes every line. *)
Definition working (n : nat) (line : string) : Verbose.Result unit :=
  Verbose.Returned tt.



(** Strings are sequences of bytes here, a character outside ASCII being
    its UTF-8 bytes, none of which is below 128. *)
Definition is_ascii (s : string) : bool :=
  forallb (λ c, nat_of_ascii c <? 128) (list_ascii_of_string s).

(** The text of the [UnicodeEncodeError] of the ASCII codec, abridged:
    Python's also names the character and its position in the line. *)
Definition ascii_error : string :=
  "'ascii' codec can't encode character: ordinal not in range(128)".

(** A stream whose encoding is ASCII: [print] raises
    [UnicodeEncodeError] on any other character. *)
Definition ascii (n : nat) (line : string) : Verbose.Result unit :=
  if is_ascii line then Verbose.Returned tt
  else Verbose.Raised (Verbose.Exception ascii_error).

(** The text of a candidate or a score inside a line; only strings and
    integers are printed here. *)
Definition show (v : pyval) : string :=
  match v with
  | PStr s => s
  | PInt n => pretty n
  | _ => "None"
  end.




(** The orchestrator [Verbose.init] builds when its line is printed. *)
Definition fresh (ag : Verbose.Agents) (enable verbose : bool)
    (print : nat → string → Verbose.Result unit) : Verbose.t :=
  {| Verbose.agents := ag; Verbose.enable_code_review := enable;
     Verbose.verbose := verbose; Verbose.print := print;
     Verbose.states := ∅; Verbose.calls := empty_trace;
     Verbose.printed :=
       if verbose
       then [Verbose.log_line "INFO" "Orchestrator initialized successfully"]
       else [] |}.

End Consoles.

(** One of the two payloads of [generate_code]. *)
Definition payload_shaped (resp : pyval) : Prop :=
  is_success_payload resp = true ∨ is_failure_payload resp = true.

(** ** Rules for the frame properties *)

Section Frames.
Context (R : relation Run) `{!Reflexive R, !Transitive R}.

Lemma preserves_ret {A} (a : A) : preserves R (mret a).
Proof. intros r. apply reflexivity. Qed.

Lemma preserves_get : preserves R get.
Proof. intros r. apply reflexivity. Qed.

Lemma preserves_raise {A} e : preserves R (raise (A:=A) e).
Proof. intros r. apply reflexivity. Qed.

Lemma preserves_lift {A} (o : Outcome A) : preserves R (lift o).
Proof. intros r. apply reflexivity. Qed.

Lemma preserves_getitem {A} k (o : option A) : preserves R (getitem k o).
Proof. destruct o; intros r; apply reflexivity. Qed.

Lemma preserves_bind {A B} (m : M A) (k : A → M B) :
  preserves R m → (∀ a, preserves R (k a)) → preserves R (m ≫= k).
Proof.
  intros Hm Hk r. specialize (Hm r).
  unfold mbind, M_bind. destruct (m r) as [[a|e] r1]; simpl in *.
  - transitivity r1; [exact Hm | apply Hk].
  - exact Hm.
Qed.

Lemma preserves_try {A} (m : M A) (h : string → M A) :
  preserves R m → (∀ e, preserves R (h e)) → preserves R (try_except m h).
Proof.
  intros Hm Hh r. specialize (Hm r).
  unfold try_except. destruct (m r) as [[a|e] r1]; simpl in *.
  - exact Hm.
  - transitivity r1; [exact Hm | apply Hh].
Qed.

Lemma preserves_for_each {A B} (xs : list A) (body : A → M (option B)) :
  (∀ x, x ∈ xs → preserves R (body x)) → preserves R (for_each xs body).
Proof.
  induction xs as [|x xs IH]; intros Hbody; simpl.
  - apply preserves_ret.
  - apply preserves_bind.
    + apply Hbody. left.
    + intros [v|]; [apply preserves_ret|].
      apply IH. intros y Hy. apply Hbody. now right.
Qed.
End Frames.

(** Unfolding the field assignments and the agent calls. *)
Create HintDb run_ops.
#[global] Hint Unfold modify get raise lift
  set_current_stage set_status set_attempts set_artifacts append_error
  set_attempt_generation set_attempt_syntax_fix set_attempt_hallucination_fix
  set_generated_code set_syntax_result set_hallucination_result
  set_review_result
  call_generate call_validate call_verify call_review
  gen_calls : run_ops.

Ltac run_simpl := autounfold with run_ops; cbn.

Ltac keeps_leaf := intros ?; unfold keeps; run_simpl; reflexivity.

Ltac frame_with leaf :=
  lazymatch goal with
  | |- preserves ?R (mret _) => apply (preserves_ret R)
  | |- preserves ?R get => apply (preserves_get R)
  | |- preserves ?R (raise _) => apply (preserves_raise R)
  | |- preserves ?R (lift _) => apply (preserves_lift R)
  | |- preserves ?R (getitem _ _) => apply (preserves_getitem R)
  | |- preserves ?R (mbind _ _) =>
      apply (preserves_bind R); [frame_with leaf | intros ?; frame_with leaf]
  | |- preserves ?R (try_except _ _) =>
      apply (preserves_try R); [frame_with leaf | intros ?; frame_with leaf]
  | |- preserves _ (if ?b then _ else _) => destruct b; frame_with leaf
  | |- preserves _ (match ?x with _ => _ end) => destruct x; frame_with leaf
  | |- preserves ?R (for_each _ _) =>
      apply (preserves_for_each R); intros ? ?; frame_with leaf
  | |- _ => leaf
  end.

(** ** Rules for exception freedom *)

Section Returns.
Lemma returns_ret {A} (a : A) : returns (mret a).
Proof. intros r. now exists a. Qed.

Lemma returns_get : returns get.
Proof. intros r. now exists (st r). Qed.

Lemma returns_modify f : returns (modify f).
Proof. intros r. now exists tt. Qed.

Lemma returns_bind {A B} (m : M A) (k : A → M B) :
  returns m → (∀ a, returns (k a)) → returns (m ≫= k).
Proof.
  intros Hm Hk r. destruct (Hm r) as [a Ha].
  unfold mbind, M_bind. destruct (m r) as [o r1]; simpl in Ha; subst o.
  apply Hk.
Qed.

(** A handler that returns makes the whole [try] return, whatever the
    body does. *)
Lemma returns_try {A} (m : M A) (h : string → M A) :
  (∀ e, returns (h e)) → returns (try_except m h).
Proof.
  intros Hh r. unfold try_except.
  destruct (m r) as [[a|e] r1]; [now exists a | apply Hh].
Qed.

Lemma returns_for_each {A B} (xs : list A) (body : A → M (option B)) :
  (∀ x, returns (body x)) → returns (for_each xs body).
Proof.
  intros Hbody. induction xs as [|x xs IH]; simpl.
  - apply returns_ret.
  - apply returns_bind; [apply Hbody|].
    intros [v|]; [apply returns_ret | apply IH].
Qed.
End Returns.

(** ** Rules for counting calls of the generation service *)

Section Within.
Lemma within_weaken {A} (m : M A) k k' : within k m → k ≤ k' → within k' m.
Proof. intros H Hk r. specialize (H r). lia. Qed.

Lemma within_ret {A} (a : A) k : within k (mret a).
Proof. intros r. simpl. lia. Qed.

Lemma within_get k : within k get.
Proof. intros r. simpl. lia. Qed.

Lemma within_modify f k : within k (modify f).
Proof. intros r. unfold gen_calls. simpl. lia. Qed.

Lemma within_raise {A} e k : within k (raise (A:=A) e).
Proof. intros r. simpl. lia. Qed.

Lemma within_lift {A} (o : Outcome A) k : within k (lift o).
Proof. intros r. simpl. lia. Qed.

Lemma within_getitem {A} key (o : option A) k : within k (getitem key o).
Proof. destruct o; intros r; simpl; lia. Qed.

Lemma within_bind {A B} (m : M A) (f : A → M B) k1 k2 :
  within k1 m → (∀ a, within k2 (f a)) → within (k1 + k2) (m ≫= f).
Proof.
  intros Hm Hf r. specialize (Hm r).
  unfold mbind, M_bind. destruct (m r) as [[a|e] r1]; simpl in *.
  - specialize (Hf a r1). lia.
  - lia.
Qed.

Lemma within_bind_l {A B} (m : M A) (f : A → M B) k :
  within 0 m → (∀ a, within k (f a)) → within k (m ≫= f).
Proof. intros Hm Hf. apply (within_bind m f 0 k Hm Hf). Qed.

Lemma within_bind_r {A B} (m : M A) (f : A → M B) k :
  within k m → (∀ a, within 0 (f a)) → within k (m ≫= f).
Proof.
  intros Hm Hf. eapply within_weaken; [apply (within_bind m f k 0 Hm Hf)|lia].
Qed.

Lemma within_try {A} (m : M A) (h : string → M A) k :
  within k m → (∀ e, within 0 (h e)) → within k (try_except m h).
Proof.
  intros Hm Hh r. specialize (Hm r).
  unfold try_except. destruct (m r) as [[a|e] r1]; simpl in *.
  - lia.
  - specialize (Hh e r1). lia.
Qed.

Lemma within_for_each {A B} (xs : list A) (body : A → M (option B)) k :
  (∀ x, within k (body x)) → within (length xs * k) (for_each xs body).
Proof.
  intros Hbody. induction xs as [|x xs IH]; simpl.
  - apply within_ret.
  - apply within_bind; [apply Hbody|].
    intros [v|]; [apply within_ret | apply IH].
Qed.
End Within.

Ltac within_with leaf :=
  lazymatch goal with
  | |- within _ (mret _) => apply within_ret
  | |- within _ get => apply within_get
  | |- within _ (modify _) => apply within_modify
  | |- within _ (raise _) => apply within_raise
  | |- within _ (lift _) => apply within_lift
  | |- within _ (getitem _ _) => apply within_getitem
  | |- within _ (mbind _ _) =>
      first [ apply within_bind_l;
                [solve [within_with leaf] | intros ?; within_with leaf]
            | apply within_bind_r;
                [within_with leaf | intros ?; solve [within_with leaf]] ]
  | |- within _ (try_except _ _) =>
      apply within_try; [within_with leaf | intros ?; within_with leaf]
  | |- within _ (if ?b then _ else _) => destruct b; within_with leaf
  | |- within _ (match ?x with _ => _ end) => destruct x; within_with leaf
  | |- _ => leaf
  end.

(** ** The stage runners never raise *)

Section StagesReturn.
Variable ag : Collaborators.

Ltac returns_handler :=
  apply returns_bind; [apply returns_modify | intros ?];
  apply returns_try; intros ?;
  repeat first [ apply returns_modify | apply returns_ret
               | apply returns_bind; [|intros ?] ].

Lemma generation_attempt_returns attempt : returns (generation_attempt ag attempt).
Proof. unfold generation_attempt. returns_handler. Qed.

Lemma syntax_attempt_returns attempt : returns (syntax_attempt ag attempt).
Proof. unfold syntax_attempt. returns_handler. Qed.

Lemma hallucination_attempt_returns attempt :
  returns (hallucination_attempt ag attempt).
Proof. unfold hallucination_attempt. returns_handler. Qed.

Ltac returns_stage body_returns :=
  apply returns_bind; [apply returns_modify | intros ?];
  apply returns_bind;
  [apply returns_for_each; intros ?; apply body_returns
  |intros [?|]; apply returns_ret].

Lemma run_code_generation_returns : returns (_run_code_generation ag).
Proof. returns_stage generation_attempt_returns. Qed.

Lemma run_syntax_validation_returns : returns (_run_syntax_validation ag).
Proof. returns_stage syntax_attempt_returns. Qed.

Lemma run_hallucination_detection_returns :
  returns (_run_hallucination_detection ag).
Proof. returns_stage hallucination_attempt_returns. Qed.

Lemma run_code_review_returns : returns (_run_code_review ag).
Proof.
  unfold _run_code_review.
  apply returns_bind; [apply returns_modify | intros ?].
  apply returns_try; intros ?. apply returns_modify.
Qed.

Lemma compile_failure_response_returns now :
  returns (_compile_failure_response now).
Proof.
  unfold _compile_failure_response.
  apply returns_bind; [apply returns_get | intros ?; apply returns_ret].
Qed.

Lemma run_pipeline_returns enable now : returns (run_pipeline ag enable now).
Proof.
  unfold run_pipeline. apply returns_try; intros e.
  repeat (apply returns_bind; [apply returns_modify | intros ?]).
  apply compile_failure_response_returns.
Qed.
End StagesReturn.

(** ** The error log is append-only *)

#[local] Instance errors_extend_refl : Reflexive errors_extend.
Proof. intros r. unfold errors_extend. reflexivity. Qed.

#[local] Instance errors_extend_trans : Transitive errors_extend.
Proof. intros r1 r2 r3. unfold errors_extend. apply transitivity. Qed.

Section ErrorLog.
Variable ag : Collaborators.

Ltac errors_leaf :=
  intros ?; unfold errors_extend; run_simpl;
  first [reflexivity | apply prefix_app_r; reflexivity].

Lemma generation_attempt_errors attempt :
  preserves errors_extend (generation_attempt ag attempt).
Proof. unfold generation_attempt, prepare_request. frame_with errors_leaf. Qed.

Lemma run_code_generation_errors :
  preserves errors_extend (_run_code_generation ag).
Proof.
  unfold _run_code_generation.
  frame_with ltac:(first [apply generation_attempt_errors | errors_leaf]).
Qed.

Lemma syntax_attempt_errors attempt :
  preserves errors_extend (syntax_attempt ag attempt).
Proof.
  unfold syntax_attempt.
  frame_with ltac:(first [apply run_code_generation_errors | errors_leaf]).
Qed.

Lemma run_syntax_validation_errors :
  preserves errors_extend (_run_syntax_validation ag).
Proof.
  unfold _run_syntax_validation.
  frame_with ltac:(first [apply syntax_attempt_errors | errors_leaf]).
Qed.

Lemma hallucination_attempt_errors attempt :
  preserves errors_extend (hallucination_attempt ag attempt).
Proof.
  unfold hallucination_attempt.
  frame_with ltac:(first [apply run_code_generation_errors | errors_leaf]).
Qed.

Lemma run_hallucination_detection_errors :
  preserves errors_extend (_run_hallucination_detection ag).
Proof.
  unfold _run_hallucination_detection.
  frame_with ltac:(first [apply hallucination_attempt_errors | errors_leaf]).
Qed.

Lemma run_code_review_errors : preserves errors_extend (_run_code_review ag).
Proof. unfold _run_code_review. frame_with errors_leaf. Qed.

(** Whatever the agents do, a run of the pipeline only appends to the
    error log: the entries it started with stay, in their order. *)
Lemma run_pipeline_errors enable now :
  preserves errors_extend (run_pipeline ag enable now).
Proof.
  unfold run_pipeline, _compile_success_response, _compile_failure_response.
  frame_with ltac:(first
    [ apply run_code_generation_errors
    | apply run_syntax_validation_errors
    | apply run_hallucination_detection_errors
    | apply run_code_review_errors
    | errors_leaf ]).
Qed.
End ErrorLog.

(** ** How often the generation service is called *)

Section GenerationCalls.
Variable ag : Collaborators.

Lemma within_call_generate req k : 1 ≤ k → within k (call_generate ag req).
Proof. intros Hk r. run_simpl. rewrite length_app. simpl. lia. Qed.

Ltac calls_leaf :=
  first [ apply within_call_generate; lia
        | intros ?; run_simpl; lia ].

(** One pass of the generation loop is one call. *)
Lemma generation_attempt_within attempt :
  within 1 (generation_attempt ag attempt).
Proof. unfold generation_attempt, prepare_request. within_with calls_leaf. Qed.

Lemma run_code_generation_within :
  within MAX_GENERATION_RETRIES (_run_code_generation ag).
Proof.
  unfold _run_code_generation.
  apply within_bind_l; [apply within_modify | intros _].
  apply within_bind_r; [| intros [b|]; apply within_ret].
  eapply within_weaken;
    [apply (within_for_each _ _ 1), generation_attempt_within |].
  unfold range1. rewrite length_seq. lia.
Qed.

Ltac stage_leaf :=
  first [ eapply within_weaken; [apply run_code_generation_within | lia]
        | calls_leaf ].

Lemma syntax_attempt_within attempt :
  within MAX_GENERATION_RETRIES (syntax_attempt ag attempt).
Proof. unfold syntax_attempt. within_with stage_leaf. Qed.

Lemma hallucination_attempt_within attempt :
  within MAX_GENERATION_RETRIES (hallucination_attempt ag attempt).
Proof. unfold hallucination_attempt. within_with stage_leaf. Qed.

(** A downstream stage calls the generation service at most the product
    of its own budget and the generation budget. *)
Lemma run_syntax_validation_within :
  within (MAX_SYNTAX_RETRIES * MAX_GENERATION_RETRIES)
         (_run_syntax_validation ag).
Proof.
  unfold _run_syntax_validation.
  apply within_bind_l; [apply within_modify | intros _].
  apply within_bind_r; [| intros [b|]; apply within_ret].
  eapply within_weaken;
    [apply (within_for_each _ _ MAX_GENERATION_RETRIES),
           syntax_attempt_within |].
  unfold range1. rewrite length_seq. lia.
Qed.

Lemma run_hallucination_detection_within :
  within (MAX_HALLUCINATION_RETRIES * MAX_GENERATION_RETRIES)
         (_run_hallucination_detection ag).
Proof.
  unfold _run_hallucination_detection.
  apply within_bind_l; [apply within_modify | intros _].
  apply within_bind_r; [| intros [b|]; apply within_ret].
  eapply within_weaken;
    [apply (within_for_each _ _ MAX_GENERATION_RETRIES),
           hallucination_attempt_within |].
  unfold range1. rewrite length_seq. lia.
Qed.
End GenerationCalls.

#[local] Instance calls_grow_refl : Reflexive calls_grow.
Proof. intros r. unfold calls_grow. lia. Qed.

#[local] Instance calls_grow_trans : Transitive calls_grow.
Proof. intros r1 r2 r3. unfold calls_grow. lia. Qed.

Section AtLeast.
Lemma at_least_0 {A} (m : M A) : preserves calls_grow m → at_least 0 m.
Proof. intros H r. specialize (H r). unfold calls_grow in H. lia. Qed.

(** The calls counted are made before the continuation runs. *)
Lemma at_least_bind_l {A B} (m : M A) (f : A → M B) k :
  at_least k m → (∀ a, at_least 0 (f a)) → at_least k (m ≫= f).
Proof.
  intros Hm Hf r. specialize (Hm r).
  unfold mbind, M_bind. destruct (m r) as [[a|e] r1]; simpl in *.
  - specialize (Hf a r1). lia.
  - lia.
Qed.

(** The calls counted are made by the continuation, which is reached. *)
Lemma at_least_bind_skip {A B} (m : M A) (f : A → M B) k :
  returns m → at_least 0 m → (∀ a, at_least k (f a)) → at_least k (m ≫= f).
Proof.
  intros Hr Hm Hf r. specialize (Hm r). destruct (Hr r) as [a Ha].
  unfold mbind, M_bind. destruct (m r) as [o r1]; simpl in *; subst o.
  specialize (Hf a r1). lia.
Qed.

Lemma at_least_try {A} (m : M A) (h : string → M A) k :
  at_least k m → (∀ e, at_least 0 (h e)) → at_least k (try_except m h).
Proof.
  intros Hm Hh r. specialize (Hm r).
  unfold try_except. destruct (m r) as [[a|e] r1]; simpl in *.
  - lia.
  - specialize (Hh e r1). lia.
Qed.

Lemma at_least_for_each_cons {A B} x (xs : list A) (body : A → M (option B)) k :
  at_least k (body x) → (∀ y, at_least 0 (body y)) →
  at_least k (for_each (x :: xs) body).
Proof.
  intros Hx Hbody. simpl. apply at_least_bind_l; [exact Hx|].
  intros [v|]; apply at_least_0.
  - apply (preserves_ret calls_grow).
  - apply (preserves_for_each calls_grow). intros y _ r.
    specialize (Hbody y r). unfold calls_grow. lia.
Qed.
End AtLeast.

Section GenerationIsCalled.
Variable ag : Collaborators.

Ltac grow_leaf := intros ?; unfold calls_grow; run_simpl;
                  rewrite ?length_app; lia.

Lemma generation_attempt_grow attempt :
  preserves calls_grow (generation_attempt ag attempt).
Proof. unfold generation_attempt, prepare_request. frame_with grow_leaf. Qed.

(** Under its guard the request is always prepared: [l[-1]] is read on a
    list that is not empty. *)
Lemma prepare_request_returns attempt s : returns (prepare_request attempt s).
Proof.
  unfold prepare_request.
  destruct (1 <? attempt); simpl; [|apply returns_ret].
  case_bool_decide as Hnil; simpl; [apply returns_ret|].
  apply returns_bind; [|intros ?; apply returns_ret].
  intros r. unfold lift, list_last.
  destruct (last (error_messages s)) as [x|] eqn:Hlast; [now exists x|].
  apply last_None in Hlast. contradiction.
Qed.

Lemma prepare_request_grow attempt s :
  preserves calls_grow (prepare_request attempt s).
Proof. unfold prepare_request. frame_with grow_leaf. Qed.

(** Every pass of the generation loop calls the service. *)
Lemma generation_attempt_at_least attempt :
  at_least 1 (generation_attempt ag attempt).
Proof.
  unfold generation_attempt.
  apply at_least_bind_skip;
    [apply returns_modify | apply at_least_0; grow_leaf | intros _].
  apply at_least_try.
  - apply at_least_bind_skip;
      [apply returns_get | apply at_least_0; grow_leaf | intros s].
    apply at_least_bind_skip;
      [apply prepare_request_returns
      |apply at_least_0, prepare_request_grow | intros req].
    apply at_least_bind_l.
    + intros r. run_simpl. rewrite length_app. simpl. lia.
    + intros result. apply at_least_0. frame_with grow_leaf.
  - intros e. apply at_least_0. frame_with grow_leaf.
Qed.

(** Every invocation of the generation stage calls the service. *)
Lemma run_code_generation_at_least : at_least 1 (_run_code_generation ag).
Proof.
  unfold _run_code_generation.
  apply at_least_bind_skip;
    [apply returns_modify | apply at_least_0; grow_leaf | intros _].
  apply at_least_bind_l.
  - apply at_least_for_each_cons; [apply generation_attempt_at_least|].
    intros y. apply at_least_0, generation_attempt_grow.
  - intros [b|]; apply at_least_0; frame_with grow_leaf.
Qed.
End GenerationIsCalled.

(** ** What a stage leaves alone *)

#[local] Instance keeps_refl {X} (f : Run → X) : Reflexive (keeps f).
Proof. intros r. reflexivity. Qed.

#[local] Instance keeps_trans {X} (f : Run → X) : Transitive (keeps f).
Proof. intros r1 r2 r3 H12 H23. unfold keeps in *. congruence. Qed.

#[local] Instance generation_frame_refl : Reflexive generation_frame.
Proof. intros r. split; [lia | reflexivity]. Qed.

#[local] Instance generation_frame_trans : Transitive generation_frame.
Proof.
  intros r1 r2 r3 [Hle12 Heq12] [Hle23 Heq23]. split; [lia|].
  intros Heq. rewrite Heq12, Heq23; [reflexivity | lia | lia].
Qed.

#[local] Instance keeps_generated_once_refl : Reflexive keeps_generated_once.
Proof. intros r H. exact H. Qed.

#[local] Instance keeps_generated_once_trans : Transitive keeps_generated_once.
Proof. intros r1 r2 r3 H12 H23 H. apply H23, H12, H. Qed.

#[local] Instance keeps_counters_bounded_refl : Reflexive keeps_counters_bounded.
Proof. intros r H. exact H. Qed.

#[local] Instance keeps_counters_bounded_trans : Transitive keeps_counters_bounded.
Proof. intros r1 r2 r3 H12 H23 H. apply H23, H12, H. Qed.

(** A field written before [m] runs, and which [m] keeps, holds the value
    written. *)
Lemma keeps_after_modify {A X} (f : Run → X) g (m : M A) r :
  preserves (keeps f) m →
  f ((modify g;; m) r).2 = f {| st := g (st r); tr := tr r |}.
Proof.
  intros Hm. unfold mbind, M_bind. simpl.
  apply (Hm {| st := g (st r); tr := tr r |}).
Qed.

(** An observation the continuation keeps is the one made after the first
    part, whether that part returned or raised. *)
Lemma keeps_after_bind {A B X} (f : Run → X) (m : M A) (k : A → M B) r :
  (∀ a, preserves (keeps f) (k a)) → f ((m ≫= k) r).2 = f (m r).2.
Proof.
  intros Hk. unfold mbind, M_bind.
  destruct (m r) as [[a|e] r1]; simpl; [apply Hk | reflexivity].
Qed.

Lemma keeps_after_try {A X} (f : Run → X) (m : M A) (h : string → M A) r :
  (∀ e, preserves (keeps f) (h e)) → f (try_except m h r).2 = f (m r).2.
Proof.
  intros Hh. unfold try_except.
  destruct (m r) as [[a|e] r1]; simpl; [reflexivity | apply Hh].
Qed.

Lemma bind_get {B} (k : RequestState → M B) r : (get ≫= k) r = k (st r) r.
Proof. reflexivity. Qed.

Lemma bind_modify {B} g (k : unit → M B) r :
  (modify g ≫= k) r = k tt {| st := g (st r); tr := tr r |}.
Proof. reflexivity. Qed.

Section Counters.
Variable ag : Collaborators.

Lemma generation_attempt_sets_counter attempt r :
  generation (attempts (st (generation_attempt ag attempt r).2)) = attempt.
Proof.
  unfold generation_attempt.
  rewrite (keeps_after_modify (λ r, generation (attempts (st r)))); [reflexivity|].
  unfold prepare_request. frame_with keeps_leaf.
Qed.


End Counters.

Section CountersOfStages.
Variable ag : Collaborators.



(** *** No counter passes the budget of its stage *)

Ltac bounded_leaf :=
  intros ?; unfold keeps_counters_bounded, counters_bounded,
    MAX_GENERATION_RETRIES, MAX_SYNTAX_RETRIES, MAX_HALLUCINATION_RETRIES in *;
  run_simpl; lia.

Ltac in_range :=
  match goal with
  | H : _ ∈ range1 _ |- _ =>
      unfold range1, MAX_GENERATION_RETRIES, MAX_SYNTAX_RETRIES,
        MAX_HALLUCINATION_RETRIES in *;
      apply elem_of_seq in H; lia
  end.

Lemma generation_attempt_bounded attempt :
  attempt ≤ MAX_GENERATION_RETRIES →
  preserves keeps_counters_bounded (generation_attempt ag attempt).
Proof.
  intros Hle. unfold generation_attempt, prepare_request.
  frame_with bounded_leaf.
Qed.

Lemma run_code_generation_bounded :
  preserves keeps_counters_bounded (_run_code_generation ag).
Proof.
  unfold _run_code_generation.
  frame_with ltac:(first
    [apply generation_attempt_bounded; in_range | bounded_leaf]).
Qed.

Lemma syntax_attempt_bounded attempt :
  attempt ≤ MAX_SYNTAX_RETRIES →
  preserves keeps_counters_bounded (syntax_attempt ag attempt).
Proof.
  intros Hle. unfold syntax_attempt.
  frame_with ltac:(first [apply run_code_generation_bounded | bounded_leaf]).
Qed.

Lemma run_syntax_validation_bounded :
  preserves keeps_counters_bounded (_run_syntax_validation ag).
Proof.
  unfold _run_syntax_validation.
  frame_with ltac:(first
    [apply syntax_attempt_bounded; in_range | bounded_leaf]).
Qed.

Lemma hallucination_attempt_bounded attempt :
  attempt ≤ MAX_HALLUCINATION_RETRIES →
  preserves keeps_counters_bounded (hallucination_attempt ag attempt).
Proof.
  intros Hle. unfold hallucination_attempt.
  frame_with ltac:(first [apply run_code_generation_bounded | bounded_leaf]).
Qed.

Lemma run_hallucination_detection_bounded :
  preserves keeps_counters_bounded (_run_hallucination_detection ag).
Proof.
  unfold _run_hallucination_detection.
  frame_with ltac:(first
    [apply hallucination_attempt_bounded; in_range | bounded_leaf]).
Qed.

Lemma run_pipeline_bounded enable now :
  preserves keeps_counters_bounded (run_pipeline ag enable now).
Proof.
  unfold run_pipeline, _run_code_review, _compile_success_response,
    _compile_failure_response.
  frame_with ltac:(first
    [ apply run_code_generation_bounded
    | apply run_syntax_validation_bounded
    | apply run_hallucination_detection_bounded
    | bounded_leaf ]).
Qed.

(** *** The generation counter moves only when the service is called *)




End CountersOfStages.

(** ** Rules for partial correctness *)

Section Hoare.
Lemma hoare_ret {A} (P : Run → Prop) (a : A) (Q : A → Run → Prop) :
  (∀ r, P r → Q a r) → hoare P (mret a) Q.
Proof. intros H r a' r' HP Hrun. inversion Hrun; subst. auto. Qed.

Lemma hoare_any {A} (P : Run → Prop) (m : M A) : hoare P m (λ _ _, True).
Proof. intros r a r' _ _. exact I. Qed.

Lemma hoare_modify (P : Run → Prop) g (Q : unit → Run → Prop) :
  (∀ r, P r → Q tt {| st := g (st r); tr := tr r |}) → hoare P (modify g) Q.
Proof. intros H r [] r' HP Hrun. inversion Hrun; subst. auto. Qed.

Lemma hoare_bind {A B} (P : Run → Prop) (P' : A → Run → Prop)
    (m : M A) (k : A → M B) (Q : B → Run → Prop) :
  hoare P m P' → (∀ a, hoare (P' a) (k a) Q) → hoare P (m ≫= k) Q.
Proof.
  intros Hm Hk r b r' HP. unfold mbind, M_bind.
  destruct (m r) as [[a|e] r1] eqn:E; [|discriminate].
  intros Hrun. eapply Hk; [eapply Hm; eauto | exact Hrun].
Qed.

(** A handler starts from wherever the body raised. *)
Lemma hoare_try {A} (P : Run → Prop) (m : M A) (h : string → M A)
    (Q : A → Run → Prop) :
  hoare P m Q → (∀ e, hoare (λ _, True) (h e) Q) → hoare P (try_except m h) Q.
Proof.
  intros Hm Hh r a r' HP. unfold try_except.
  destruct (m r) as [[a1|e] r1] eqn:E; intros Hrun.
  - inversion Hrun; subst. eapply Hm; eauto.
  - eapply Hh; [exact I | exact Hrun].
Qed.
Lemma hoare_bind_ret {A B} (P : Run → Prop) (a : A) (k : A → M B)
    (Q : B → Run → Prop) :
  hoare P (k a) Q → hoare P (mret a ≫= k) Q.
Proof. intros H r b r' HP Hrun. exact (H r b r' HP Hrun). Qed.

Lemma hoare_conj {A} (P : Run → Prop) (m : M A) (Q1 Q2 : A → Run → Prop) :
  hoare P m Q1 → hoare P m Q2 → hoare P m (λ a r, Q1 a r ∧ Q2 a r).
Proof. intros H1 H2 r a r' HP Hrun. split; eauto. Qed.

Lemma hoare_keeps {A X} (f : Run → X) v (m : M A) :
  preserves (keeps f) m → hoare (λ r, f r = v) m (λ _ r', f r' = v).
Proof.
  intros H r a r' HP Hrun. specialize (H r). rewrite Hrun in H.
  unfold keeps in H. simpl in H. congruence.
Qed.

Lemma hoare_invariant {A} (I : Run → Prop) (m : M A) :
  preserves (λ r r', I r → I r') m → hoare I m (λ _ r, I r).
Proof.
  intros H r a r' HI Hrun. specialize (H r). rewrite Hrun in H. now apply H.
Qed.

Lemma hoare_for_each {A B} (I : Run → Prop) (Q : B → Run → Prop)
    (xs : list A) (body : A → M (option B)) :
  (∀ x, hoare I (body x)
          (λ o r, match o with Some v => Q v r | None => I r end)) →
  hoare I (for_each xs body)
        (λ o r, match o with Some v => Q v r | None => I r end).
Proof.
  intros Hbody. induction xs as [|x xs IH]; simpl.
  - apply hoare_ret. auto.
  - eapply hoare_bind; [apply Hbody|]. intros [v|]; [|exact IH].
    apply hoare_ret. auto.
Qed.
End Hoare.

(** ** The response compilers *)

Section Compilers.
Lemma compile_failure_state now r : (_compile_failure_response now r).2 = r.
Proof. reflexivity. Qed.

Lemma compile_success_state now r : (_compile_success_response now r).2 = r.
Proof.
  unfold _compile_success_response. rewrite bind_get.
  destruct (py_truthy (review_result (artifacts (st r)))); [|reflexivity].
  unfold mbind, M_bind, lift.
  destruct (py_get (review_result (artifacts (st r))) "score" (PStr "N/A"));
    [|reflexivity].
  destruct (py_get (review_result (artifacts (st r))) "summary" (PStr ""));
    reflexivity.
Qed.

Lemma compile_failure_payload now r resp r' :
  _compile_failure_response now r = (Ret resp, r') →
  is_failure_payload resp = true.
Proof. intros H. inversion H; subst. reflexivity. Qed.

Lemma compile_success_payload now r resp r' :
  _compile_success_response now r = (Ret resp, r') →
  is_success_payload resp = true.
Proof.
  unfold _compile_success_response. rewrite bind_get.
  destruct (py_truthy (review_result (artifacts (st r)))).
  - unfold mbind, M_bind, lift.
    destruct (py_get (review_result (artifacts (st r))) "score" (PStr "N/A"));
      [|discriminate].
    destruct (py_get (review_result (artifacts (st r))) "summary" (PStr ""));
      [|discriminate].
    intros H. inversion H; subst. reflexivity.
  - intros H. inversion H; subst. reflexivity.
Qed.

(** The two payload shapes exclude each other through [status]. *)
Lemma compile_failure_status now r resp r' :
  _compile_failure_response now r = (Ret resp, r') →
  payload_status resp = Some "failed".
Proof. intros H. inversion H; subst. reflexivity. Qed.
End Compilers.

(** ** What the pipeline returns *)

Section PipelinePost.
Variable ag : Collaborators.

Lemma failure_leaf (P : Run → Prop) now :
  hoare P (_compile_failure_response now) (pipeline_post now).
Proof.
  intros r resp r' _ Hrun.
  pose proof (compile_failure_state now r) as Hs.
  rewrite Hrun in Hs. simpl in Hs. subst r'. now left.
Qed.

Lemma run_pipeline_post enable now :
  hoare (λ _, True) (run_pipeline ag enable now) (pipeline_post now).
Proof.
  unfold run_pipeline. apply hoare_try.
  - apply (hoare_bind _ (λ _ _, True)); [apply hoare_any | intros ok1].
    destruct ok1; simpl; [|apply failure_leaf].
    apply (hoare_bind _ (λ _ _, True)); [apply hoare_any | intros ok2].
    destruct ok2; simpl; [|apply failure_leaf].
    apply (hoare_bind _ (λ _ _, True)); [apply hoare_any | intros ok3].
    destruct ok3; simpl; [|apply failure_leaf].
    apply (hoare_bind _ (λ _ _, True)); [apply hoare_any | intros _].
    apply (hoare_bind _ (λ _ r, status (st r) = Status.COMPLETED));
      [apply hoare_modify; reflexivity | intros _].
    apply (hoare_bind _ (λ _ r, status (st r) = Status.COMPLETED ∧
                                current_stage (st r) = Stage.COMPLETED));
      [apply hoare_modify; intros r Hr; split; [exact Hr | reflexivity]
      | intros _].
    intros r resp r' [Hstatus Hstage] Hrun.
    pose proof (compile_success_state now r) as Hs.
    rewrite Hrun in Hs. simpl in Hs. subst r'. right. auto.
  - intros e.
    do 3 (apply (hoare_bind _ (λ _ _, True)); [apply hoare_any | intros _]).
    apply failure_leaf.
Qed.
End PipelinePost.

(** * The properties of the pipeline *)

Section Payloads.
Variables (rid created now req : string) (self : Orchestrator.t).

(** The run [generate_code] makes, and the state it stores. *)
Lemma generate_code_unfold :
  ∃ resp r1,
    run_pipeline (agents self) (enable_code_review self) now
      {| st := new_state rid created req; tr := calls self |} = (Ret resp, r1) ∧
    (generate_code rid created now req self).1 = Ret resp ∧
    final_state rid (generate_code rid created now req self).2 = Some (st r1) ∧
    pipeline_post now resp r1.
Proof.
  unfold generate_code, final_state.
  pose proof (run_pipeline_post (agents self) (enable_code_review self) now
                {| st := new_state rid created req; tr := calls self |}) as Hpost.
  destruct (run_pipeline_returns (agents self) (enable_code_review self) now
              {| st := new_state rid created req; tr := calls self |})
    as [resp Hret].
  destruct (run_pipeline _ _ _ _) as [out r1]. simpl in *. subst out.
  exists resp, r1. split_and!; [reflexivity | reflexivity | | now apply Hpost].
  apply lookup_insert_eq.
Qed.
End Payloads.

(** The review entry of a success payload, read off the compiler. *)
Lemma compile_success_review now r resp r' :
  _compile_success_response now r = (Ret resp, r') →
  py_truthy (review_result (artifacts (st r))) = true →
  ∃ score summary,
    py_get (review_result (artifacts (st r))) "score" (PStr "N/A") = Ret score ∧
    py_get (review_result (artifacts (st r))) "summary" (PStr "") = Ret summary ∧
    py_lookup2 "validation" "review" resp =
      Some (PDict [("status", PStr "✅ Completed");
                   ("score", score); ("summary", summary)]).
Proof.
  unfold _compile_success_response. rewrite bind_get. intros Hrun Htruthy.
  rewrite Htruthy in Hrun. unfold mbind, M_bind, lift in Hrun.
  destruct (py_get (review_result (artifacts (st r))) "score" (PStr "N/A"))
    as [score|]; [|discriminate].
  destruct (py_get (review_result (artifacts (st r))) "summary" (PStr ""))
    as [summary|]; [|discriminate].
  inversion Hrun; subst. now exists score, summary.
Qed.

(** C10: in every success payload, a non-empty [review_result] gives the
    validation section a review entry whose status is the fixed string
    ['✅ Completed']; when [review_result] is the error record stored after
    a fault of the review service, the entry still says so, with score
    ['N/A'] and an empty summary. *)
Theorem review_entry_is_always_completed
    (rid created now req : string) (self : Orchestrator.t)
    (resp : pyval) (s : RequestState) :
  (generate_code rid created now req self).1 = Ret resp →
  payload_status resp = Some "success" →
  final_state rid (generate_code rid created now req self).2 = Some s →
  py_truthy (review_result (artifacts s)) = true →
  ∃ score summary,
    py_lookup2 "validation" "review" resp =
      Some (PDict [("status", PStr "✅ Completed");
                   ("score", score); ("summary", summary)]) ∧
    (∀ e, review_result (artifacts s) = review_error_record e →
          score = PStr "N/A" ∧ summary = PStr "").
Proof.
  intros Hout Hstatus Hfinal Htruthy.
  destruct (generate_code_unfold rid created now req self)
    as (resp' & r1 & _ & Hout' & Hfinal' & Hpost).
  rewrite Hout in Hout'. inversion Hout'; subst resp'. clear Hout'.
  rewrite Hfinal in Hfinal'. inversion Hfinal'; subst s. clear Hfinal'.
  destruct Hpost as [Hfail | [Hok _]].
  - apply compile_failure_status in Hfail. congruence.
  - destruct (compile_success_review _ _ _ _ Hok Htruthy)
      as (score & summary & Hscore & Hsummary & Hentry).
    exists score, summary. split; [exact Hentry|].
    intros e He. rewrite He in Hscore, Hsummary. simpl in *.
    split; congruence.
Qed.

(** A run whose review service raises: the payload still has the review
    entry, with its fixed status. *)
Lemma review_entry_is_always_completed_witness :
  ∃ resp s,
    (generate_code "req-1" "t0" "t1" "add two numbers"
       (init Scenarios.review_raises true)).1 = Ret resp ∧
    payload_status resp = Some "success" ∧
    final_state "req-1"
      (generate_code "req-1" "t0" "t1" "add two numbers"
         (init Scenarios.review_raises true)).2 = Some s ∧
    review_result (artifacts s) = review_error_record "connection refused" ∧
    py_lookup2 "validation" "review" resp =
      Some (PDict [("status", PStr "✅ Completed");
                   ("score", PStr "N/A"); ("summary", PStr "")]).
Proof.
  eexists _, _.
  split; [vm_compute; reflexivity|].
  split; [vm_compute; reflexivity|].
  split; [vm_compute; reflexivity|].
  split; [reflexivity|].
  edestruct (review_entry_is_always_completed "req-1" "t0" "t1" "add two numbers"
               (init Scenarios.review_raises true))
    as (score & summary & Hentry & Herr).
  - vm_compute; reflexivity.
  - vm_compute; reflexivity.
  - vm_compute; reflexivity.
  - vm_compute; reflexivity.
  - destruct (Herr "connection refused" eq_refl) as [-> ->]. exact Hentry.
Defined.

(** [get_state] leaves the orchestrator as it found it. *)
Lemma get_state_pure id (self : Orchestrator.t) : (get_state id self).2 = self.
Proof. unfold get_state. destruct (states self !! id); reflexivity. Qed.

Lemma get_state_repeatedly_found n id (self : Orchestrator.t) s :
  final_state id self = Some s →
  get_state_repeatedly n id self = (replicate n (Some (to_dict s)), self).
Proof.
  unfold final_state. intros Hs. induction n as [|n IH]; simpl; [reflexivity|].
  unfold get_state at 1. rewrite Hs, IH. reflexivity.
Qed.

(** C9: once [generate_code] has returned, any number of successive calls
    of [get_state] with the identifier of the request return the same
    snapshot, the one of the state the run ended in, and leave the
    orchestrator unchanged; for a request that completed, that state is the
    one marked completed by the terminal transition, and a later request
    with another identifier does not touch it.  [get_state] never mutates,
    and returns [None] for an identifier that is not in the map. *)
Theorem get_state_is_idempotent
    (rid created now req : string) (self : Orchestrator.t) :
  let self' := (generate_code rid created now req self).2 in
  (∃ s, final_state rid self' = Some s ∧
        (∀ n, get_state_repeatedly n rid self'
              = (replicate n (Some (to_dict s)), self')) ∧
        (∀ resp, (generate_code rid created now req self).1 = Ret resp →
                 payload_status resp = Some "success" →
                 sd_status (to_dict s) = "completed" ∧
                 sd_current_stage (to_dict s) = "completed")) ∧
  (∀ rid' created' now' req',
     rid' ≠ rid →
     final_state rid (generate_code rid' created' now' req' self').2
     = final_state rid self') ∧
  (∀ id (o : Orchestrator.t), (get_state id o).2 = o) ∧
  (∀ id (o : Orchestrator.t), states o !! id = None → (get_state id o).1 = None).
Proof.
  intros self'. split_and!.
  - destruct (generate_code_unfold rid created now req self)
      as (resp & r1 & _ & Hout & Hfinal & Hpost).
    exists (st r1). split_and!.
    + exact Hfinal.
    + intros n. now apply get_state_repeatedly_found.
    + intros resp' Hout' Hstatus.
      rewrite Hout in Hout'. inversion Hout'; subst resp'.
      destruct Hpost as [Hfail | (_ & Hst & Hstage)].
      * apply compile_failure_status in Hfail. congruence.
      * unfold to_dict. simpl. now rewrite Hst, Hstage.
  - intros rid' created' now' req' Hne. unfold generate_code at 1.
    destruct (run_pipeline _ _ _ _) as [out r1]. unfold final_state. simpl.
    now apply lookup_insert_ne.
  - apply get_state_pure.
  - intros id o Hnone. unfold get_state. now rewrite Hnone.
Qed.

(** A run that completes: three lookups, a later request, and the lookup
    of an unknown identifier. *)
Lemma get_state_is_idempotent_witness :
  let self' := (generate_code "req-1" "t0" "t1" "add two numbers"
                  (init Scenarios.happy true)).2 in
  ∃ s, final_state "req-1" self' = Some s ∧
       get_state_repeatedly 3 "req-1" self'
       = ([Some (to_dict s); Some (to_dict s); Some (to_dict s)], self') ∧
       sd_status (to_dict s) = "completed" ∧
       final_state "req-1"
         (generate_code "req-2" "t2" "t3" "something else" self').2 = Some s ∧
       (get_state "req-2" self').1 = None.
Proof.
  intros self'.
  destruct (get_state_is_idempotent "req-1" "t0" "t1" "add two numbers"
              (init Scenarios.happy true))
    as ((s & Hfinal & Hrep & Hdone) & Hlater & _ & Hnone).
  exists s. split_and!.
  - exact Hfinal.
  - exact (Hrep 3).
  - edestruct Hdone as [Hst _]; [vm_compute; reflexivity .. | exact Hst].
  - rewrite <- Hfinal. apply Hlater. discriminate.
  - apply Hnone. vm_compute. reflexivity.
Defined.

(** ** Running a sequence whose first part is known *)

Lemma bind_eq {A B} (m : M A) (k : A → M B) r a r' :
  m r = (Ret a, r') → (m ≫= k) r = k a r'.
Proof. intros H. unfold mbind, M_bind. now rewrite H. Qed.

Lemma try_ret_eq {A} (m : M A) (h : string → M A) r a r' :
  m r = (Ret a, r') → try_except m h r = (Ret a, r').
Proof. intros H. unfold try_except. now rewrite H. Qed.

(** The review stage returns, and leaves a dictionary in [review_result]:
    the one the service returned, or the error record when the service or
    the reading of the score raised. *)
Lemma run_code_review_run ag r :
  ∃ d,
    _run_code_review ag r =
      (Ret tt,
       {| st := set_review_result (PDict d)
                  (set_current_stage Stage.CODE_REVIEW (st r));
          tr := {| gen_log := gen_log (tr r); syn_log := syn_log (tr r);
                   hal_log := hal_log (tr r);
                   rev_log := rev_log (tr r) ++
                     [(generated_code (artifacts (st r)), user_request (st r))] |} |}) ∧
    ∀ e, review ag (length (rev_log (tr r)))
           (generated_code (artifacts (st r))) (user_request (st r)) = Raise e →
         PDict d = review_error_record e.
Proof.
  unfold _run_code_review. rewrite bind_modify. unfold try_except.
  rewrite bind_get. unfold mbind, M_bind, call_review. simpl.
  destruct (review ag _ _ _) as [v|e]; simpl.
  - destruct v; simpl; (eexists; split; [reflexivity | intros ?; discriminate]).
  - eexists; split; [reflexivity|]. intros e' He'. now inversion He'.
Qed.

Lemma compile_success_on_dict now r d :
  review_result (artifacts (st r)) = PDict d →
  ∃ resp, _compile_success_response now r = (Ret resp, r) ∧
          (py_truthy (PDict d) = true →
           py_lookup "review_details" resp = Some (PDict d)).
Proof.
  intros Hd. unfold _compile_success_response. rewrite bind_get, Hd.
  destruct d as [|kv d]; simpl.
  - eexists; split; [reflexivity | discriminate].
  - eexists; split; [reflexivity | reflexivity].
Qed.

Section SyntaxPass.
Variable ag : Collaborators.




Lemma syntax_attempt_adopts attempt r res status corrected :
  validate ag (length (syn_log (tr r))) (generated_code (artifacts (st r)))
    ("Generated for: " +:+ user_request (st r)) = Ret res →
  sr_status res = Some status →
  status ≠ "SYNTAX_VALID" →
  sr_corrected_code res = Some corrected →
  py_truthy corrected = true →
  syntax_attempt ag attempt r =
    (Ret None,
     {| st := set_generated_code corrected
                (set_syntax_result res
                   (set_attempt_syntax_fix attempt (st r)));
        tr := {| gen_log := gen_log (tr r);
                 syn_log := syn_log (tr r) ++
                   [(generated_code (artifacts (st r)),
                     "Generated for: " +:+ user_request (st r))];
                 hal_log := hal_log (tr r);
                 rev_log := rev_log (tr r) |} |}).
Proof.
  intros Hval Hstatus Hne Hcorr Htruthy.
  apply String.eqb_neq in Hne.
  unfold syntax_attempt. rewrite bind_modify. unfold try_except.
  rewrite bind_get. unfold mbind, M_bind, call_validate. simpl.
  rewrite Hval. simpl. rewrite Hstatus. simpl. rewrite Hne, Hcorr, Htruthy.
  reflexivity.
Qed.
End SyntaxPass.

(** ** The largest number of generation calls in one request *)

Section WorstCase.
Variable ag : Collaborators.

Ltac kept := apply (hoare_keeps gen_calls); frame_with keeps_leaf.

(** A pass of the syntax loop that ends the stage with success has not
    called the generation service. *)
Lemma syntax_attempt_valid_pass attempt n :
  hoare (λ r, gen_calls r = n) (syntax_attempt ag attempt)
        (λ a r', a = Some true → gen_calls r' = n).
Proof.
  unfold syntax_attempt.
  apply (hoare_bind _ (λ _ r, gen_calls r = n)); [kept | intros _].
  apply hoare_try.
  - apply (hoare_bind _ (λ _ r, gen_calls r = n)); [kept | intros s].
    apply (hoare_bind _ (λ _ r, gen_calls r = n)); [kept | intros result].
    apply (hoare_bind _ (λ _ r, gen_calls r = n)); [kept | intros _].
    apply (hoare_bind _ (λ _ r, gen_calls r = n)); [kept | intros status].
    destruct (String.eqb status "SYNTAX_VALID").
    + apply hoare_ret. auto.
    + destruct (sr_corrected_code result) as [c|]; [destruct (py_truthy c)|];
        repeat (apply (hoare_bind _ (λ _ _, True)); [apply hoare_any | intros ?]);
        try match goal with |- hoare _ (if ?b then _ else _) _ => destruct b end;
        apply hoare_ret; discriminate.
  - intros e.
    apply (hoare_bind _ (λ _ _, True)); [apply hoare_any | intros _].
    apply hoare_ret. discriminate.
Qed.

Ltac pass i r :=
  let W := fresh "W" in let V := fresh "V" in let E := fresh "E" in
  pose proof (syntax_attempt_within ag i r) as W;
  pose proof (syntax_attempt_valid_pass i (gen_calls r) r) as V;
  destruct (syntax_attempt ag i r) as [[[[|]|]|?] ?r] eqn:E;
  unfold MAX_GENERATION_RETRIES in W; simpl in W;
  [specialize (V _ _ eq_refl eq_refl eq_refl) | clear V ..];
  try (simpl; lia).

(** A syntax stage that succeeds has used at most all but one of its
    passes to regenerate. *)
Lemma run_syntax_validation_calls r :
  gen_calls (_run_syntax_validation ag r).2
  ≤ gen_calls r +
    match (_run_syntax_validation ag r).1 with
    | Ret true => (MAX_SYNTAX_RETRIES - 1) * MAX_GENERATION_RETRIES
    | _ => MAX_SYNTAX_RETRIES * MAX_GENERATION_RETRIES
    end.
Proof.
  unfold _run_syntax_validation. rewrite bind_modify.
  set (r0 := {| st := _; tr := tr r |}).
  change (gen_calls r) with (gen_calls r0).
  unfold range1, MAX_SYNTAX_RETRIES, MAX_GENERATION_RETRIES.
  cbn [seq for_each]. unfold mbind, M_bind.
  pass 1 r0. pass 2 r1. pass 3 r2.
Qed.

Lemma pipeline_tail_keeps_calls (enable : bool) now :
  preserves (keeps gen_calls)
    ((if enable then _run_code_review ag else mret tt);;
     modify (set_status Status.COMPLETED);;
     modify (set_current_stage Stage.COMPLETED);;
     _compile_success_response now).
Proof.
  unfold _run_code_review, _compile_success_response.
  frame_with keeps_leaf.
Qed.

(** One request calls the generation service at most 18 times: 3 in the
    first stage, 2 * 3 in a syntax stage that lets the run go on, 3 * 3 in
    the hallucination stage. *)
Lemma run_pipeline_calls enable now r :
  gen_calls (run_pipeline ag enable now r).2 ≤ gen_calls r + 18.
Proof.
  unfold run_pipeline.
  rewrite (keeps_after_try gen_calls) by
    (intros e; unfold _compile_failure_response; frame_with keeps_leaf).
  pose proof (run_code_generation_within ag r) as W1.
  unfold mbind at 1, M_bind at 1.
  destruct (_run_code_generation ag r) as [[[|]|e1] r1]; simpl in *;
    unfold MAX_GENERATION_RETRIES in *; try lia.
  pose proof (run_syntax_validation_calls r1) as W2.
  unfold mbind at 1, M_bind at 1.
  destruct (_run_syntax_validation ag r1) as [[[|]|e2] r2]; simpl in *;
    unfold MAX_SYNTAX_RETRIES, MAX_GENERATION_RETRIES in *; try lia.
  pose proof (run_hallucination_detection_within ag r2) as W3.
  unfold mbind at 1, M_bind at 1.
  destruct (_run_hallucination_detection ag r2) as [[[|]|e3] r3]; simpl in *;
    unfold MAX_HALLUCINATION_RETRIES, MAX_GENERATION_RETRIES in *; try lia.
  pose proof (pipeline_tail_keeps_calls enable now r3) as W4.
  unfold keeps in W4. lia.
Qed.
End WorstCase.

(** C4, amended: some behaviour of the collaborators makes one request
    call the generation service more often than [MAX_TOTAL_RETRIES] = 5; the
    constant is checked nowhere, and a request can still end in success
    after 15 calls.  Each failure of a downstream stage re-enters generation
    with a fresh budget, so within a downstream stage the calls are at most
    the product of its own budget and the generation budget (3 * 3), and
    that product is reached.  Over the whole request the worst case is not a
    product of budgets but the sum 3 + 2 * 3 + 3 * 3 = 18: it is reached,
    and no behaviour makes it more. *)
Theorem generation_attempts_exceed_declared_total :
  (∃ ag req,
     let self' := (generate_code "req-1" "t0" "t1" req (init ag true)).2 in
     length (gen_log (calls self')) = 18 ∧
     MAX_TOTAL_RETRIES < length (gen_log (calls self'))) ∧
  (∃ ag req resp,
     let run := generate_code "req-1" "t0" "t1" req (init ag true) in
     run.1 = Ret resp ∧ payload_status resp = Some "success" ∧
     length (gen_log (calls run.2)) = 15 ∧
     MAX_TOTAL_RETRIES < length (gen_log (calls run.2))) ∧
  (∀ ag r, gen_calls (_run_syntax_validation ag r).2
           ≤ gen_calls r + MAX_SYNTAX_RETRIES * MAX_GENERATION_RETRIES) ∧
  (∃ ag r, gen_calls (_run_syntax_validation ag r).2
           = gen_calls r + MAX_SYNTAX_RETRIES * MAX_GENERATION_RETRIES) ∧
  (∀ ag r, gen_calls (_run_hallucination_detection ag r).2
           ≤ gen_calls r + MAX_HALLUCINATION_RETRIES * MAX_GENERATION_RETRIES) ∧
  (∃ ag r, gen_calls (_run_hallucination_detection ag r).2
           = gen_calls r + MAX_HALLUCINATION_RETRIES * MAX_GENERATION_RETRIES) ∧
  (∀ rid created now req (self : Orchestrator.t),
     length (gen_log (calls (generate_code rid created now req self).2))
     ≤ length (gen_log (calls self)) + 18).
Proof.
  split_and!.
  - exists (Scenarios.stubborn 18), "add two numbers". vm_compute. split; lia.
  - exists (Scenarios.stubborn 14), "add two numbers". eexists.
    vm_compute. split_and!; [reflexivity | reflexivity | reflexivity | lia].
  - intros ag. apply run_syntax_validation_within.
  - exists (Scenarios.stubborn 0), (Scenarios.start "add two numbers").
    vm_compute. reflexivity.
  - intros ag. apply run_hallucination_detection_within.
  - exists (Scenarios.stubborn 18), (Scenarios.start "add two numbers").
    vm_compute. reflexivity.
  - intros rid created now req self. unfold generate_code.
    pose proof (run_pipeline_calls (agents self) (enable_code_review self) now
                  {| st := new_state rid created req; tr := calls self |}) as H.
    destruct (run_pipeline _ _ _ _) as [out r1]. exact H.
Qed.

(** Counterexample to C4 as stated: the largest number of generation calls
    of one request is no product of stage budgets.  It is 18: more than the
    product of any two of the budgets, and less than the product of the
    three, which no request reaches. *)
Lemma worst_case_is_not_the_product_of_budgets :
  (∃ ag req,
     let self' := (generate_code "req-1" "t0" "t1" req (init ag true)).2 in
     MAX_SYNTAX_RETRIES * MAX_GENERATION_RETRIES
     < length (gen_log (calls self')) ∧
     MAX_HALLUCINATION_RETRIES * MAX_GENERATION_RETRIES
     < length (gen_log (calls self'))) ∧
  (∀ ag enable rid created now req,
     length (gen_log (calls (generate_code rid created now req (init ag enable)).2))
     < MAX_GENERATION_RETRIES * MAX_SYNTAX_RETRIES * MAX_HALLUCINATION_RETRIES).
Proof.
  split.
  - exists (Scenarios.stubborn 18), "add two numbers". vm_compute. split; lia.
  - intros ag enable rid created now req. unfold generate_code.
    pose proof (run_pipeline_calls (agents (init ag enable))
                  (enable_code_review (init ag enable)) now
                  {| st := new_state rid created req;
                     tr := calls (init ag enable) |}) as H.
    destruct (run_pipeline _ _ _ _) as [out r1].
    unfold gen_calls in H.
    cbn [fst snd calls tr init gen_log empty_trace length] in H |- *.
    unfold MAX_GENERATION_RETRIES, MAX_SYNTAX_RETRIES,
      MAX_HALLUCINATION_RETRIES. lia.
Qed.


(** ** What a successful run has checked *)

Section VerifiedPass.
Variable ag : Collaborators.

(** A pass of the hallucination loop that ends the stage with success has
    just had the current candidate accepted by the verifier. *)
Lemma hallucination_attempt_verified attempt :
  hoare (λ _, True) (hallucination_attempt ag attempt)
        (λ o r, match o with
                | Some v => v = true → verified ag r
                | None => True
                end).
Proof.
  unfold hallucination_attempt.
  apply (hoare_bind _ (λ _ _, True)); [apply hoare_any | intros _].
  apply hoare_try.
  - apply (hoare_bind _ (λ s r, s = st r)).
    { intros r s r' _ Hrun. now inversion Hrun. }
    intros s.
    apply (hoare_bind _ (λ result r,
             ∃ n, verify ag n (generated_code (artifacts (st r))) = Ret result)).
    { intros r result r' Hs Hrun. unfold call_verify in Hrun.
      inversion Hrun; subst. simpl. eauto. }
    intros result.
    apply (hoare_bind _ (λ _ r,
             ∃ n, verify ag n (generated_code (artifacts (st r))) = Ret result)).
    { apply hoare_modify. intros r Hr. exact Hr. }
    intros _.
    destruct (hr_status result) as [status|] eqn:Hstatus; simpl.
    + apply hoare_bind_ret.
      destruct (String.eqb status "VERIFIED") eqn:Heq.
      * apply hoare_ret. intros r [n Hn] _. exists n, result.
        apply String.eqb_eq in Heq. subst status. auto.
      * repeat (apply (hoare_bind _ (λ _ _, True)); [apply hoare_any | intros ?]).
        match goal with |- hoare _ (if ?b then _ else _) _ => destruct b end;
          apply hoare_ret; intros; [discriminate | exact I].
    + intros r a r' _ Hrun. discriminate.
  - intros e.
    apply (hoare_bind _ (λ _ _, True)); [apply hoare_any | intros _].
    apply hoare_ret. auto.
Qed.
End VerifiedPass.

Section VerifiedStage.
Variable ag : Collaborators.

Lemma run_hallucination_detection_verified :
  hoare (λ _, True) (_run_hallucination_detection ag)
        (λ ok r, ok = true → verified ag r).
Proof.
  unfold _run_hallucination_detection.
  apply (hoare_bind _ (λ _ _, True)); [apply hoare_any | intros _].
  eapply hoare_bind.
  - apply (hoare_for_each (λ _, True) (λ v r, v = true → verified ag r)).
    intros x. apply hallucination_attempt_verified.
  - intros [v|]; apply hoare_ret; [auto | discriminate].
Qed.

(** Whatever the generation loop runs on, it leaves a counter of at least
    1: its last pass wrote its own number. *)
Lemma for_each_generation_counter xs r :
  Forall (λ x, 1 ≤ x) xs →
  xs ≠ [] ∨ generated_once r →
  generated_once (for_each xs (generation_attempt ag) r).2.
Proof.
  revert r. induction xs as [|x xs IH]; intros r Hxs Hstart.
  - destruct Hstart as [? | H]; [congruence | exact H].
  - inversion Hxs as [|? ? Hx Hxs']; subst.
    pose proof (generation_attempt_sets_counter ag x r) as Hset.
    simpl. unfold mbind, M_bind.
    destruct (generation_attempt ag x r) as [[[v|]|e] r1]; simpl in *.
    + unfold generated_once. lia.
    + apply IH; [exact Hxs'|]. right. unfold generated_once. lia.
    + unfold generated_once. lia.
Qed.

Lemma run_code_generation_counter r :
  generated_once (_run_code_generation ag r).2.
Proof.
  unfold _run_code_generation. rewrite bind_modify.
  unfold generated_once.
  rewrite (keeps_after_bind (λ r, generation (attempts (st r))))
    by (intros [b|]; frame_with keeps_leaf).
  apply for_each_generation_counter; [|left; discriminate].
  unfold range1, MAX_GENERATION_RETRIES. repeat constructor; lia.
Qed.

End VerifiedStage.

Section VerifiedRun.
Variable ag : Collaborators.

Ltac once_leaf :=
  first [ intros ? _; apply run_code_generation_counter
        | intros ?; unfold keeps_generated_once, generated_once; run_simpl;
          trivial ].

Lemma run_syntax_validation_counter :
  preserves keeps_generated_once (_run_syntax_validation ag).
Proof.
  unfold _run_syntax_validation.
  frame_with ltac:(first [unfold syntax_attempt; frame_with once_leaf | once_leaf]).
Qed.

Lemma run_hallucination_detection_counter :
  preserves keeps_generated_once (_run_hallucination_detection ag).
Proof.
  unfold _run_hallucination_detection.
  frame_with ltac:(first
    [unfold hallucination_attempt; frame_with once_leaf | once_leaf]).
Qed.

(** After the hallucination stage, nothing touches the candidate or the
    generation counter. *)
Lemma pipeline_tail_keeps_candidate (enable : bool) now :
  preserves (keeps (λ r, (generated_code (artifacts (st r)),
                          generation (attempts (st r)))))
    ((if enable then _run_code_review ag else mret tt);;
     modify (set_status Status.COMPLETED);;
     modify (set_current_stage Stage.COMPLETED);;
     _compile_success_response now).
Proof.
  unfold _run_code_review, _compile_success_response.
  frame_with keeps_leaf.
Qed.

Lemma failure_is_not_success (P : Run → Prop) now (Q : Run → Prop) :
  hoare P (_compile_failure_response now)
        (λ resp r, payload_status resp = Some "success" → Q r).
Proof.
  intros r resp r' _ Hrun Hstatus.
  apply compile_failure_status in Hrun. congruence.
Qed.

(** A success payload is returned only for a candidate the verifier has
    accepted, with a generation counter of at least 1. *)
Lemma run_pipeline_verified enable now :
  hoare (λ _, True) (run_pipeline ag enable now)
        (λ resp r, payload_status resp = Some "success" →
                   verified ag r ∧ generated_once r).
Proof.
  unfold run_pipeline. apply hoare_try.
  - apply (hoare_bind _ (λ _ r, generated_once r)).
    { intros r ok r' _ Hrun.
      pose proof (run_code_generation_counter ag r) as H.
      now rewrite Hrun in H. }
    intros ok1. destruct ok1; simpl; [|apply failure_is_not_success].
    apply (hoare_bind _ (λ _ r, generated_once r)).
    { apply hoare_invariant, run_syntax_validation_counter. }
    intros ok2. destruct ok2; simpl; [|apply failure_is_not_success].
    apply (hoare_bind _ (λ ok r, (ok = true → verified ag r) ∧ generated_once r)).
    { apply hoare_conj.
      - intros r ok r' _ Hrun.
        exact (run_hallucination_detection_verified ag r ok r' I Hrun).
      - apply hoare_invariant, run_hallucination_detection_counter. }
    intros ok3. destruct ok3; simpl; [|apply failure_is_not_success].
    intros r resp r' [Hver Hgen] Hrun _.
    pose proof (pipeline_tail_keeps_candidate enable now r) as Hkeep.
    rewrite Hrun in Hkeep. unfold keeps in Hkeep. simpl in Hkeep.
    inversion Hkeep as [[Hcode Hcount]].
    specialize (Hver eq_refl). unfold verified, generated_once in *.
    rewrite Hcode, Hcount. auto.
  - intros e.
    do 3 (apply (hoare_bind _ (λ _ _, True)); [apply hoare_any | intros _]).
    apply failure_is_not_success.
Qed.
End VerifiedRun.

Lemma compile_success_code now r resp r' :
  _compile_success_response now r = (Ret resp, r') →
  py_lookup "code" resp = Some (generated_code (artifacts (st r))).
Proof.
  unfold _compile_success_response. rewrite bind_get.
  destruct (py_truthy (review_result (artifacts (st r)))).
  - unfold mbind, M_bind, lift.
    destruct (py_get (review_result (artifacts (st r))) "score" (PStr "N/A"));
      [|discriminate].
    destruct (py_get (review_result (artifacts (st r))) "summary" (PStr ""));
      [|discriminate].
    intros H. inversion H; subst. reflexivity.
  - intros H. inversion H; subst. reflexivity.
Qed.

Section LocalAgentsAgree.
Variable E : Type.
Variable ast_parse : string → LocalAgents.ParseResult E.
Variable is_blank : string → bool.
Variable parse_syntax_error : E → string → list SynError.
Variable attempt_correction : string → list SynError → pyval.
Variable find_hallucinations : nat → string → Outcome (list Hallucination).

(** The detector verifies only what it has parsed, and the checker parses
    the same way: code the detector accepts is code the checker accepts. *)
Lemma verified_code_is_valid n code res context :
  LocalAgents.HallucinationDetectorAgent_verify
    E ast_parse is_blank find_hallucinations n code = Ret res →
  hr_status res = Some "VERIFIED" →
  ∃ res',
    LocalAgents.SyntaxCheckerAgent_validate
      E ast_parse is_blank parse_syntax_error attempt_correction code context
    = Ret res' ∧
    sr_status res' = Some "SYNTAX_VALID".
Proof.
  unfold LocalAgents.HallucinationDetectorAgent_verify,
    LocalAgents.SyntaxCheckerAgent_validate.
  destruct (py_truthy code); simpl.
  - destruct code; try discriminate.
    destruct (is_blank s).
    + intros H Hs. inversion H; subst. discriminate.
    + destruct (ast_parse s).
      * intros _ _. eexists. split; reflexivity.
      * intros H Hs. inversion H; subst. discriminate.
      * intros H Hs. inversion H; subst. discriminate.
  - intros H Hs. inversion H; subst. discriminate.
Qed.
End LocalAgentsAgree.

(** C2: with the orchestrator's own syntax checker and hallucination
    detector, and whatever the generation and review services do, a run that
    ends with status success has a generation counter of at least 1, and the
    code of its payload is the final candidate, which the reference verifier
    accepted and which the syntax validator accepts; this includes the runs
    in which the hallucination stage regenerated the candidate after the
    syntax stage had passed, where the candidate is not shown to the
    validator again: the detector verifies only code that parses. *)
Theorem successful_code_is_valid_and_verified
    (E : Type) (ast_parse : string → LocalAgents.ParseResult E)
    (is_blank : string → bool)
    (parse_syntax_error : E → string → list SynError)
    (attempt_correction : string → list SynError → pyval)
    (find_hallucinations : nat → string → Outcome (list Hallucination))
    (llm_generate : nat → GenRequest → Outcome GenResult)
    (llm_review : nat → pyval → string → Outcome pyval)
    (rid created now req : string) (self : Orchestrator.t)
    (resp : pyval) (s : RequestState) :
  agents self =
    LocalAgents.collaborators E ast_parse is_blank parse_syntax_error
      attempt_correction find_hallucinations llm_generate llm_review →
  (generate_code rid created now req self).1 = Ret resp →
  payload_status resp = Some "success" →
  final_state rid (generate_code rid created now req self).2 = Some s →
  1 ≤ generation (attempts s) ∧
  py_lookup "code" resp = Some (generated_code (artifacts s)) ∧
  (∃ n res,
     LocalAgents.HallucinationDetectorAgent_verify
       E ast_parse is_blank find_hallucinations n (generated_code (artifacts s))
     = Ret res ∧
     hr_status res = Some "VERIFIED") ∧
  (∀ context, ∃ res,
     LocalAgents.SyntaxCheckerAgent_validate
       E ast_parse is_blank parse_syntax_error attempt_correction
       (generated_code (artifacts s)) context
     = Ret res ∧
     sr_status res = Some "SYNTAX_VALID").
Proof.
  intros Hag Hout Hstatus Hfinal.
  destruct (generate_code_unfold rid created now req self)
    as (resp' & r1 & Hrun & Hout' & Hfinal' & Hpost).
  rewrite Hout in Hout'. inversion Hout'; subst resp'. clear Hout'.
  rewrite Hfinal in Hfinal'. inversion Hfinal'; subst s. clear Hfinal'.
  destruct (run_pipeline_verified _ _ _ _ _ _ I Hrun Hstatus)
    as [(n & res & Hver & Hres) Hgen].
  rewrite Hag in Hver. simpl in Hver.
  split_and!.
  - exact Hgen.
  - destruct Hpost as [Hfail | [Hok _]].
    + apply compile_failure_status in Hfail. congruence.
    + eapply compile_success_code, Hok.
  - now exists n, res.
  - intros context. eapply verified_code_is_valid; eauto.
Qed.

(** A run whose hallucination stage regenerates the candidate: the
    validator saw only the first candidate and accepts the final one. *)
Lemma successful_code_is_valid_and_verified_witness :
  let run := generate_code "req-1" "t0" "t1" "add two numbers"
               (init Scenarios.regenerate_after_verifier true) in
  ∃ resp,
    run.1 = Ret resp ∧
    payload_status resp = Some "success" ∧
    hal_log (calls run.2) = [PStr "import fake_module"; PStr "import os"] ∧
    syn_log (calls run.2)
    = [(PStr "import fake_module", "Generated for: add two numbers")] ∧
    py_lookup "code" resp = Some (PStr "import os") ∧
    ∀ context, ∃ res,
      validate Scenarios.regenerate_after_verifier 0 (PStr "import os") context
      = Ret res ∧
      sr_status res = Some "SYNTAX_VALID".
Proof.
  intros run. eexists. split_and!.
  - vm_compute. reflexivity.
  - reflexivity.
  - vm_compute. reflexivity.
  - vm_compute. reflexivity.
  - reflexivity.
  - edestruct (successful_code_is_valid_and_verified unit Scenarios.parse
                 Scenarios.blank Scenarios.report Scenarios.no_repair
                 Scenarios.imports
                 (generate Scenarios.regenerate_after_verifier)
                 (review Scenarios.regenerate_after_verifier)
                 "req-1" "t0" "t1" "add two numbers"
                 (init Scenarios.regenerate_after_verifier true))
      as (_ & _ & _ & Hvalid).
    + reflexivity.
    + vm_compute. reflexivity.
    + reflexivity.
    + vm_compute. reflexivity.
    + exact Hvalid.
Defined.

(** The orchestrator itself does not show a regenerated candidate to the
    validator again: with a verifier that accepts what the validator
    rejects, a run ends in success with such a candidate. *)
Remark orchestrator_relies_on_the_detector :
  let ag := Scenarios.careless_verifier in
  let run := generate_code "req-1" "t0" "t1" "add two numbers" (init ag true) in
  (∃ resp,
     run.1 = Ret resp ∧
     is_success_payload resp = true ∧
     py_lookup "code" resp = Some (PStr "B")) ∧
  syn_log (calls run.2) = [(PStr "A", "Generated for: add two numbers")] ∧
  (∀ n context, validate ag n (PStr "B") context = Ret Scenarios.rejected).
Proof.
  intros ag run. split_and!.
  - eexists. vm_compute. split_and!; reflexivity.
  - vm_compute. reflexivity.
  - intros n context. reflexivity.
Qed.

(** C3 fails on the code: when the syntax stage uses up its three passes
    and every pass re-invoked generation, the failure is reported under
    [code_generation].  Generation succeeds at its first attempt each time it
    is called (four calls, the counter ends at 1, far from its budget), the
    validator rejects all three passes, [_run_syntax_validation] returns
    [False], and the payload says [failed_at_stage] = ['code_generation'];
    the same happens when the hallucination stage is the one exhausted. *)
Theorem syntax_exhaustion_is_reported_as_generation :
  (let ag := Scenarios.syntax_never_valid in
   let r1 := (_run_code_generation ag (Scenarios.start "add two numbers")).2 in
   let stage2 := _run_syntax_validation ag r1 in
   let run := generate_code "req-1" "t0" "t1" "add two numbers" (init ag true) in
   stage2.1 = Ret false ∧
   length (syn_log (tr stage2.2)) = MAX_SYNTAX_RETRIES ∧
   syntax_fix (attempts (st stage2.2)) = MAX_SYNTAX_RETRIES ∧
   generation (attempts (st stage2.2)) = 1 ∧
   ∃ resp,
     run.1 = Ret resp ∧
     payload_status resp = Some "failed" ∧
     py_lookup2 "metadata" "syntax_fix_attempts" resp = Some (PInt 3) ∧
     py_lookup2 "metadata" "failed_at_stage" resp
     = Some (PStr (Stage.value Stage.CODE_GENERATION)) ∧
     py_lookup2 "metadata" "failed_at_stage" resp
     ≠ Some (PStr (Stage.value Stage.SYNTAX_CHECK))) ∧
  (let run := generate_code "req-1" "t0" "t1" "add two numbers"
                (init (Scenarios.stubborn 18) true) in
   ∃ resp,
     run.1 = Ret resp ∧
     py_lookup2 "metadata" "hallucination_fix_attempts" resp = Some (PInt 3) ∧
     py_lookup2 "metadata" "failed_at_stage" resp
     = Some (PStr (Stage.value Stage.CODE_GENERATION))).
Proof.
  split.
  - intros ag r1 stage2 run. split_and!; try (vm_compute; reflexivity).
    eexists. vm_compute.
    split_and!; [reflexivity | reflexivity | reflexivity | reflexivity
                | discriminate].
  - intros run. eexists. vm_compute. split_and!; reflexivity.
Qed.

(** A retry inside one invocation of the generation stage sends the
    previous candidate and the entry just appended to the error log. *)
Lemma prepare_request_retry attempt msg s r :
  prepare_request (S (S attempt)) (append_error msg s) r =
    (Ret {| gq_action := "generate";
            gq_request := user_request s;
            gq_constraints := ["python_only"; "no_placeholders"];
            gq_previous_attempt := Some (generated_code (artifacts s));
            gq_feedback := Some msg |}, r).
Proof.
  unfold prepare_request. simpl.
  rewrite bool_decide_eq_false_2
    by (intros H; destruct (error_messages s); discriminate).
  simpl. unfold mbind, M_bind, lift, list_last. rewrite last_snoc. reflexivity.
Qed.

(** C8 fails on the code for re-invocations.  The error log is append-only,
    and a retry inside one invocation of the generation stage does carry the
    previous candidate and the latest entry of the log; but the request of
    the first attempt of every invocation carries neither, whatever the log
    holds, because the guard reads the attempt number of the current
    invocation.  So the call that follows a reference failure, and the call
    that follows a syntax failure, are sent without [feedback] and without
    [previous_attempt] although the brief has just been appended to the
    log. *)
Theorem regeneration_request_carries_no_feedback :
  (∀ ag enable now r,
     error_messages (st r)
       `prefix_of` error_messages (st (run_pipeline ag enable now r).2)) ∧
  (∀ attempt msg s r,
     ∃ req, prepare_request (S (S attempt)) (append_error msg s) r = (Ret req, r) ∧
            gq_feedback req = last (error_messages (append_error msg s)) ∧
            gq_previous_attempt req = Some (generated_code (artifacts s))) ∧
  (∀ s r,
     ∃ req, prepare_request 1 s r = (Ret req, r) ∧
            gq_feedback req = None ∧ gq_previous_attempt req = None) ∧
  (let run := generate_code "req-1" "t0" "t1" "add two numbers"
                (init Scenarios.regenerate_after_verifier true) in
   ∃ call,
     gen_log (calls run.2) !! 1 = Some call ∧
     last (gc_errors_at_call call)
     = Some (_format_hallucination_errors Scenarios.detected) ∧
     gq_feedback (gc_request call) = None ∧
     gq_previous_attempt (gc_request call) = None) ∧
  (let run := generate_code "req-1" "t0" "t1" "add two numbers"
                (init Scenarios.syntax_never_valid true) in
   ∃ call,
     gen_log (calls run.2) !! 1 = Some call ∧
     last (gc_errors_at_call call)
     = Some (_format_syntax_errors Scenarios.rejected) ∧
     gq_feedback (gc_request call) = None ∧
     gq_previous_attempt (gc_request call) = None).
Proof.
  split_and!.
  - intros ag enable now r. apply (run_pipeline_errors ag enable now r).
  - intros attempt msg s r. eexists. split; [apply prepare_request_retry|].
    simpl. now rewrite last_snoc.
  - intros s r. eexists. split; [reflexivity|]. now split.
  - intros run. eexists. vm_compute. split_and!; reflexivity.
  - intros run. eexists. vm_compute. split_and!; reflexivity.
Qed.

(** * Further properties of the controller *)

(** ** What the generation stage leaves alone *)

Section OutsideGeneration.
Variable ag : Collaborators.

Lemma generation_attempt_outside attempt :
  preserves (keeps outside_generation) (generation_attempt ag attempt).
Proof.
  unfold generation_attempt, prepare_request.
  frame_with ltac:(intros ?; unfold keeps, outside_generation; run_simpl;
                   reflexivity).
Qed.

Lemma run_code_generation_outside :
  preserves (keeps outside_generation) (_run_code_generation ag).
Proof.
  unfold _run_code_generation.
  frame_with ltac:(first
    [ apply generation_attempt_outside
    | intros ?; unfold keeps, outside_generation; run_simpl; reflexivity ]).
Qed.

(** An observation computed from what the generation stage leaves alone
    is left alone too. *)
Lemma run_code_generation_keeps {X} (f : Run → X) :
  (∀ r r', outside_generation r' = outside_generation r → f r' = f r) →
  preserves (keeps f) (_run_code_generation ag).
Proof. intros Hf r. apply Hf, run_code_generation_outside. Qed.

(** The generation stage ends in the stage it announced. *)
Lemma run_code_generation_stage r :
  current_stage (st (_run_code_generation ag r).2) = Stage.CODE_GENERATION.
Proof.
  unfold _run_code_generation.
  rewrite (keeps_after_modify (λ r, current_stage (st r))); [reflexivity|].
  unfold generation_attempt, prepare_request. frame_with keeps_leaf.
Qed.
End OutsideGeneration.


(** ** The run of a request, stage by stage *)

Section StageByStage.
Variable ag : Collaborators.

Ltac stages_leaf :=
  first [ apply run_code_generation_keeps;
          unfold outside_generation, outside_stages, identity;
          intros ? ? ?; congruence
        | intros ?; unfold keeps, outside_stages, identity; run_simpl;
          reflexivity ].

Lemma run_syntax_validation_outside :
  preserves (keeps outside_stages) (_run_syntax_validation ag).
Proof.
  unfold _run_syntax_validation, syntax_attempt. frame_with stages_leaf.
Qed.

Lemma run_hallucination_detection_outside :
  preserves (keeps outside_stages) (_run_hallucination_detection ag).
Proof.
  unfold _run_hallucination_detection, hallucination_attempt.
  frame_with stages_leaf.
Qed.

Lemma run_code_generation_outside_stages :
  preserves (keeps outside_stages) (_run_code_generation ag).
Proof. stages_leaf. Qed.

(** A stage returns a Boolean. *)
Lemma stage_runs {A} (m : M A) r :
  returns m → ∃ a r', m r = (Ret a, r').
Proof.
  intros H. destruct (H r) as [a Ha].
  destruct (m r) as [o r']. simpl in Ha. subst o. now exists a, r'.
Qed.

(** From a state without review artifact, as a new request has it, the
    pipeline returns a payload along one of the four paths; the handler of
    [generate_code] is never entered. *)
Lemma run_pipeline_outcome (enable : bool) now r :
  review_result (artifacts (st r)) = PNone →
  ∃ resp r',
    run_pipeline ag enable now r = (Ret resp, r') ∧
    pipeline_outcome ag enable now r resp r'.
Proof.
  intros Hrev. unfold run_pipeline.
  destruct (stage_runs _ r (run_code_generation_returns ag)) as (ok1 & r1 & E1).
  destruct (stage_runs _ r1 (run_syntax_validation_returns ag))
    as (ok2 & r2 & E2).
  destruct (stage_runs _ r2 (run_hallucination_detection_returns ag))
    as (ok3 & r3 & E3).
  pose proof (run_code_generation_outside_stages r) as K1.
  pose proof (run_syntax_validation_outside r1) as K2.
  pose proof (run_hallucination_detection_outside r2) as K3.
  rewrite E1 in K1. rewrite E2 in K2. rewrite E3 in K3.
  unfold keeps, outside_stages in K1, K2, K3. simpl in K1, K2, K3.
  assert (Hrev3 : review_result (artifacts (st r3)) = PNone) by congruence.
  destruct ok1.
  2:{ eexists _, r1. split.
      - apply try_ret_eq. rewrite (bind_eq _ _ _ _ _ E1). reflexivity.
      - eapply generation_failed; [exact E1 | reflexivity]. }
  destruct ok2.
  2:{ eexists _, r2. split.
      - apply try_ret_eq. rewrite (bind_eq _ _ _ _ _ E1). simpl.
        rewrite (bind_eq _ _ _ _ _ E2). reflexivity.
      - eapply syntax_failed; [exact E1 | exact E2 | reflexivity]. }
  destruct ok3.
  2:{ eexists _, r3. split.
      - apply try_ret_eq. rewrite (bind_eq _ _ _ _ _ E1). simpl.
        rewrite (bind_eq _ _ _ _ _ E2). simpl.
        rewrite (bind_eq _ _ _ _ _ E3). reflexivity.
      - eapply hallucination_failed; [exact E1 | exact E2 | exact E3
                                      | reflexivity]. }
  assert (Htail : ∃ r4 resp,
             (if enable then _run_code_review ag r3 else (Ret tt, r3))
             = (Ret tt, r4) ∧
             _compile_success_response now (mark_completed r4)
             = (Ret resp, mark_completed r4)).
  { destruct enable.
    - destruct (run_code_review_run ag r3) as (d & Hrun & _).
      match type of Hrun with _ = (_, ?r4) =>
        destruct (compile_success_on_dict now (mark_completed r4) d eq_refl)
          as (resp & Hresp & _);
        exists r4, resp
      end.
      split; [exact Hrun | exact Hresp].
    - exists r3. eexists. split; [reflexivity|].
      unfold _compile_success_response. rewrite bind_get.
      unfold mark_completed. simpl. rewrite Hrev3. reflexivity. }
  destruct Htail as (r4 & resp & Hrev4 & Hresp).
  exists resp, (mark_completed r4). split.
  - apply try_ret_eq. rewrite (bind_eq _ _ _ _ _ E1). simpl.
    rewrite (bind_eq _ _ _ _ _ E2). simpl.
    rewrite (bind_eq _ _ _ _ _ E3). simpl.
    destruct enable.
    + rewrite (bind_eq _ _ _ _ _ Hrev4), !bind_modify. exact Hresp.
    + inversion Hrev4; subst r4. exact Hresp.
  - eapply all_passed; eauto.
Qed.
End StageByStage.

(** ** The stage a run is left in *)

#[local] Instance stage_frame_refl : Reflexive stage_frame.
Proof. intros r. unfold stage_frame. split_and!; [lia | reflexivity | lia]. Qed.

#[local] Instance stage_frame_trans : Transitive stage_frame.
Proof.
  intros r1 r2 r3 (Hle12 & Hsame12 & Hnew12) (Hle23 & Hsame23 & Hnew23).
  unfold stage_frame. split_and!; [lia | |].
  - intros Heq. rewrite Hsame23, Hsame12; [reflexivity | lia | lia].
  - intros Hlt. destruct (decide (gen_calls r2 = gen_calls r3)) as [Heq|Hne].
    + rewrite Hsame23 by exact Heq. apply Hnew12. lia.
    + apply Hnew23. lia.
Qed.

Section StageLeftIn.
Variable ag : Collaborators.

Lemma run_code_generation_stage_frame :
  preserves stage_frame (_run_code_generation ag).
Proof.
  intros r. pose proof (run_code_generation_at_least ag r) as Hcalls.
  unfold stage_frame. split_and!; [lia | lia |].
  intros _. apply run_code_generation_stage.
Qed.

Ltac stage_leaf :=
  first [ apply run_code_generation_stage_frame
        | intros ?; unfold stage_frame; run_simpl;
          split_and!; [lia | reflexivity | lia] ].

Lemma syntax_loop_stage_frame xs :
  preserves stage_frame (for_each xs (syntax_attempt ag)).
Proof. unfold syntax_attempt. frame_with stage_leaf. Qed.

Lemma hallucination_loop_stage_frame xs :
  preserves stage_frame (for_each xs (hallucination_attempt ag)).
Proof. unfold hallucination_attempt. frame_with stage_leaf. Qed.

(** A stage that announces [own] and then runs a loop with the frame
    above ends in [own] if the generation service was not called, and in
    [CODE_GENERATION] if it was. *)
Lemma announced_stage {B} own (loop : M (option B)) (k : option B → M bool) r :
  preserves stage_frame loop →
  (∀ o, preserves (keeps (λ r, r)) (k o)) →
  let r' := ((modify (set_current_stage own);; loop ≫= k) r).2 in
  current_stage (st r') =
    if gen_calls r' =? gen_calls r then own else Stage.CODE_GENERATION.
Proof.
  intros Hloop Hk r'. subst r'. rewrite bind_modify.
  rewrite (keeps_after_bind (λ r, r)) by exact Hk.
  destruct (Hloop {| st := set_current_stage own (st r); tr := tr r |})
    as (Hle & Hsame & Hnew).
  change (gen_calls {| st := set_current_stage own (st r); tr := tr r |})
    with (gen_calls r) in *.
  destruct (Nat.eqb_spec (gen_calls (loop {| st := set_current_stage own (st r);
                                             tr := tr r |}).2) (gen_calls r))
    as [Heq|Hne].
  - rewrite Hsame by lia. reflexivity.
  - apply Hnew. lia.
Qed.

Lemma run_syntax_validation_stage r :
  let r' := (_run_syntax_validation ag r).2 in
  current_stage (st r') =
    if gen_calls r' =? gen_calls r then Stage.SYNTAX_CHECK
    else Stage.CODE_GENERATION.
Proof.
  unfold _run_syntax_validation. apply announced_stage.
  - apply syntax_loop_stage_frame.
  - intros [b|]; keeps_leaf.
Qed.

Lemma run_hallucination_detection_stage r :
  let r' := (_run_hallucination_detection ag r).2 in
  current_stage (st r') =
    if gen_calls r' =? gen_calls r then Stage.HALLUCINATION_CHECK
    else Stage.CODE_GENERATION.
Proof.
  unfold _run_hallucination_detection. apply announced_stage.
  - apply hallucination_loop_stage_frame.
  - intros [b|]; keeps_leaf.
Qed.
End StageLeftIn.


(** ** What [generate_code] stores and returns *)

(** [generate_code] follows one of the four paths from the new state, and
    stores the state the path ends in. *)
Lemma generate_code_outcome rid created now req (self : Orchestrator.t) :
  ∃ resp r',
    pipeline_outcome (agents self) (enable_code_review self) now
      {| st := new_state rid created req; tr := calls self |} resp r' ∧
    generate_code rid created now req self
    = (Ret resp, {| agents := agents self;
                    enable_code_review := enable_code_review self;
                    states := <[rid := st r']> (states self);
                    calls := tr r' |}).
Proof.
  destruct (run_pipeline_outcome (agents self) (enable_code_review self) now
              {| st := new_state rid created req; tr := calls self |} eq_refl)
    as (resp & r' & Hrun & Hpath).
  exists resp, r'. split; [exact Hpath|].
  unfold generate_code. rewrite Hrun. reflexivity.
Qed.

Lemma compile_success_status now r resp r' :
  _compile_success_response now r = (Ret resp, r') →
  payload_status resp = Some "success".
Proof.
  intros H. apply compile_success_payload in H.
  unfold is_success_payload in H. apply andb_true_iff in H as [H _].
  destruct (payload_status resp) as [s|]; [|discriminate].
  apply String.eqb_eq in H. now subst s.
Qed.

Section StoredStatus.
Variable ag : Collaborators.

Lemma stage_keeps_status {A} (m : M A) r a r' :
  preserves (keeps outside_stages) m → m r = (Ret a, r') →
  status (st r') = status (st r).
Proof.
  intros Hm Hrun. specialize (Hm r). rewrite Hrun in Hm.
  unfold keeps, outside_stages in Hm. simpl in Hm. congruence.
Qed.

Lemma failed_syntax_stage r ok r' :
  _run_syntax_validation ag r = (Ret ok, r') →
  current_stage (st r') = Stage.SYNTAX_CHECK ∨
  current_stage (st r') = Stage.CODE_GENERATION.
Proof.
  intros Hrun. pose proof (run_syntax_validation_stage ag r) as H.
  rewrite Hrun in H. simpl in H.
  destruct (gen_calls r' =? gen_calls r); auto.
Qed.

Lemma failed_hallucination_stage r ok r' :
  _run_hallucination_detection ag r = (Ret ok, r') →
  current_stage (st r') = Stage.HALLUCINATION_CHECK ∨
  current_stage (st r') = Stage.CODE_GENERATION.
Proof.
  intros Hrun. pose proof (run_hallucination_detection_stage ag r) as H.
  rewrite Hrun in H. simpl in H.
  destruct (gen_calls r' =? gen_calls r); auto.
Qed.

(** Along every path the status stays [IN_PROGRESS] until the request is
    marked completed, and a failure is reported under one of the first
    three stages. *)
Lemma pipeline_outcome_status (enable : bool) now r resp r' :
  pipeline_outcome ag enable now r resp r' →
  status (st r) = Status.IN_PROGRESS →
  (payload_status resp = Some "success" ∧
   status (st r') = Status.COMPLETED ∧
   current_stage (st r') = Stage.COMPLETED) ∨
  (payload_status resp = Some "failed" ∧
   status (st r') = Status.IN_PROGRESS ∧
   current_stage (st r') ∈ [Stage.CODE_GENERATION; Stage.SYNTAX_CHECK;
                            Stage.HALLUCINATION_CHECK] ∧
   py_lookup2 "metadata" "failed_at_stage" resp
   = Some (PStr (Stage.value (current_stage (st r'))))).
Proof.
  intros Hpath Hstart.
  destruct Hpath as [r1 resp E1 Hresp | r1 r2 resp E1 E2 Hresp
                    | r1 r2 r3 resp E1 E2 E3 Hresp
                    | r1 r2 r3 r4 resp E1 E2 E3 E4 Hresp].
  - right. split_and!.
    + eapply compile_failure_status, Hresp.
    + rewrite (stage_keeps_status _ _ _ _
                 (run_code_generation_outside_stages ag) E1). exact Hstart.
    + pose proof (run_code_generation_stage ag r) as H. rewrite E1 in H.
      simpl in H. rewrite H. apply list_elem_of_here.
    + inversion Hresp; subst. reflexivity.
  - right. split_and!.
    + eapply compile_failure_status, Hresp.
    + rewrite (stage_keeps_status _ _ _ _
                 (run_syntax_validation_outside ag) E2).
      rewrite (stage_keeps_status _ _ _ _
                 (run_code_generation_outside_stages ag) E1). exact Hstart.
    + destruct (failed_syntax_stage _ _ _ E2) as [H|H]; rewrite H;
        repeat first [apply list_elem_of_here | apply list_elem_of_further].
    + inversion Hresp; subst. reflexivity.
  - right. split_and!.
    + eapply compile_failure_status, Hresp.
    + rewrite (stage_keeps_status _ _ _ _
                 (run_hallucination_detection_outside ag) E3).
      rewrite (stage_keeps_status _ _ _ _
                 (run_syntax_validation_outside ag) E2).
      rewrite (stage_keeps_status _ _ _ _
                 (run_code_generation_outside_stages ag) E1). exact Hstart.
    + destruct (failed_hallucination_stage _ _ _ E3) as [H|H]; rewrite H;
        repeat first [apply list_elem_of_here | apply list_elem_of_further].
    + inversion Hresp; subst. reflexivity.
  - left. split_and!; [eapply compile_success_status, Hresp | reflexivity ..].
Qed.
End StoredStatus.

(** Without the console, the state stored for a request never has the
    status [FAILED] nor the stage [FAILED]: the handler of [generate_code]
    is not entered. *)
Lemma failed_request_stays_in_progress_without_console
    (rid created now req : string) (self : Orchestrator.t) :
  let run := generate_code rid created now req self in
  ∃ resp s,
    run.1 = Ret resp ∧
    (get_state rid run.2).1 = Some (to_dict s) ∧
    status s ≠ Status.FAILED ∧
    current_stage s ≠ Stage.FAILED ∧
    ((payload_status resp = Some "success" ∧
      sd_status (to_dict s) = "completed" ∧
      sd_current_stage (to_dict s) = "completed") ∨
     (payload_status resp = Some "failed" ∧
      sd_status (to_dict s) = "in_progress" ∧
      sd_current_stage (to_dict s)
        ∈ ["code_generation"; "syntax_check"; "hallucination_check"] ∧
      py_lookup2 "metadata" "failed_at_stage" resp
      = Some (PStr (sd_current_stage (to_dict s))))).
Proof.
  intros run. subst run.
  destruct (generate_code_outcome rid created now req self)
    as (resp & r' & Hpath & Hrun).
  rewrite Hrun. exists resp, (st r'). simpl. split; [reflexivity|].
  split.
  { unfold get_state. simpl. now rewrite lookup_insert_eq. }
  destruct (pipeline_outcome_status _ _ _ _ _ _ Hpath eq_refl)
    as [(Hs & Hst & Hstage) | (Hs & Hst & Hstage & Hmeta)].
  - rewrite Hst, Hstage. split_and!; [discriminate | discriminate |].
    left. auto.
  - rewrite Hst. rewrite !elem_of_cons, elem_of_nil in Hstage.
    split_and!; [discriminate | | ].
    + intros Hf. rewrite Hf in Hstage.
      destruct Hstage as [?|[?|[?|[]]]]; discriminate.
    + right. split_and!; [exact Hs | reflexivity | | exact Hmeta].
      rewrite !elem_of_cons.
      destruct Hstage as [H|[H|[H|[]]]]; rewrite H; simpl; auto.
Qed.

(** ** The counters of the two checking stages count calls *)

(** A loop over [k+1 .. k+n+1] whose pass [x] makes one call and writes
    [x] into its counter: when it is over, the counter exceeds [k] by the
    number of calls made. *)
Lemma for_each_cons_run {A B} (x : A) xs (body : A → M (option B)) r :
  for_each (x :: xs) body r =
    match body x r with
    | (Ret (Some v), r1) => (Ret (Some v), r1)
    | (Ret None, r1) => for_each xs body r1
    | (Raise e, r1) => (Raise e, r1)
    end.
Proof.
  simpl. unfold mbind, M_bind. destruct (body x r) as [[[v|]|e] r1]; reflexivity.
Qed.


Section CheckCounters.
Variable ag : Collaborators.



End CheckCounters.

Section ChecksOfARequest.
Variable ag : Collaborators.






(** What a stage that returned has kept. *)
Lemma kept {A X} (f : Run → X) (m : M A) r o r' :
  preserves (keeps f) m → m r = (o, r') → f r' = f r.
Proof. intros Hm Hrun. specialize (Hm r). now rewrite Hrun in Hm. Qed.

End ChecksOfARequest.

(** ** The metadata of a payload *)

Lemma compile_failure_counts now r resp r' :
  _compile_failure_response now r = (Ret resp, r') → reports_counts resp (st r).
Proof.
  intros H. inversion H; subst. unfold reports_counts, metadata_counts.
  repeat constructor.
Qed.

Lemma compile_success_counts now r resp r' :
  _compile_success_response now r = (Ret resp, r') → reports_counts resp (st r).
Proof.
  unfold _compile_success_response. rewrite bind_get.
  destruct (py_truthy (review_result (artifacts (st r)))).
  - unfold mbind, M_bind, lift.
    destruct (py_get (review_result (artifacts (st r))) "score" (PStr "N/A"));
      [|discriminate].
    destruct (py_get (review_result (artifacts (st r))) "summary" (PStr ""));
      [|discriminate].
    intros H. inversion H; subst. unfold reports_counts, metadata_counts.
    repeat constructor.
  - intros H. inversion H; subst. unfold reports_counts, metadata_counts.
    repeat constructor.
Qed.

Lemma pipeline_outcome_counts ag (enable : bool) now r resp r' :
  pipeline_outcome ag enable now r resp r' → reports_counts resp (st r').
Proof.
  intros [r1 ? E1 Hresp | r1 r2 ? E1 E2 Hresp | r1 r2 r3 ? E1 E2 E3 Hresp
         | r1 r2 r3 r4 ? E1 E2 E3 E4 Hresp];
    first [ exact (compile_failure_counts _ _ _ _ Hresp)
          | exact (compile_success_counts _ _ _ _ Hresp) ].
Qed.

Lemma reports_counts_lookup resp s k v :
  reports_counts resp s → (k, v) ∈ metadata_counts s →
  py_lookup2 "metadata" k resp = Some v.
Proof.
  unfold reports_counts. rewrite Forall_forall. intros H Hin.
  exact (H (k, v) Hin).
Qed.

Ltac pick_entry :=
  unfold metadata_counts, total_attempts;
  repeat first [apply list_elem_of_here | apply list_elem_of_further].


(** ** The review service is called for successful requests only *)

Lemma compile_success_request_id now r resp r' :
  _compile_success_response now r = (Ret resp, r') →
  py_lookup "request_id" resp = Some (PStr (request_id (st r))).
Proof.
  unfold _compile_success_response. rewrite bind_get.
  destruct (py_truthy (review_result (artifacts (st r)))).
  - unfold mbind, M_bind, lift.
    destruct (py_get (review_result (artifacts (st r))) "score" (PStr "N/A"));
      [|discriminate].
    destruct (py_get (review_result (artifacts (st r))) "summary" (PStr ""));
      [|discriminate].
    intros H. inversion H; subst. reflexivity.
  - intros H. inversion H; subst. reflexivity.
Qed.

Lemma failure_is_no_success now r resp r' :
  _compile_failure_response now r = (Ret resp, r') → is_success resp = false.
Proof.
  intros H. apply compile_failure_status in H. unfold is_success.
  rewrite H. reflexivity.
Qed.

Section ReviewCalls.
Variable ag : Collaborators.

(** The review stage as a function of the point it starts from. *)
Lemma run_code_review_point r r4 :
  _run_code_review ag r = (Ret tt, r4) →
  rev_log (tr r4)
  = (rev_log (tr r)
       ++ [(generated_code (artifacts (st r)), user_request (st r))])%list ∧
  generated_code (artifacts (st r4)) = generated_code (artifacts (st r)) ∧
  identity (st r4) = identity (st r) ∧
  attempts (st r4) = attempts (st r).
Proof.
  intros Hrun. destruct (run_code_review_run ag r) as (d & Hd & _).
  rewrite Hd in Hrun. inversion Hrun; subst r4. now split_and!.
Qed.

Lemma pipeline_outcome_review (enable : bool) now r resp r' :
  pipeline_outcome ag enable now r resp r' →
  rev_log (tr r')
  = (rev_log (tr r) ++
       if enable && is_success resp
       then [(default PNone (py_lookup "code" resp), user_request (st r))]
       else [])%list.
Proof.
  intros Hpath.
  destruct Hpath as [r1 resp E1 Hresp | r1 r2 resp E1 E2 Hresp
                    | r1 r2 r3 resp E1 E2 E3 Hresp
                    | r1 r2 r3 r4 resp E1 E2 E3 E4 Hresp].
  all: pose proof (kept _ _ _ _ _ (run_code_generation_outside_stages ag) E1)
         as K1; unfold outside_stages in K1.
  all: try (pose proof (kept _ _ _ _ _ (run_syntax_validation_outside ag) E2)
              as K2; unfold outside_stages in K2).
  all: try (pose proof (kept _ _ _ _ _
                          (run_hallucination_detection_outside ag) E3)
              as K3; unfold outside_stages in K3).
  1-3: rewrite (failure_is_no_success _ _ _ _ Hresp), andb_false_r, app_nil_r;
       congruence.
  assert (Hs : is_success resp = true).
  { unfold is_success. rewrite (compile_success_status _ _ _ _ Hresp).
    reflexivity. }
  rewrite Hs, andb_true_r.
  rewrite (compile_success_code _ _ _ _ Hresp). simpl.
  destruct enable.
  - destruct (run_code_review_point _ _ E4) as (Hlog & Hcode & Hid & _).
    rewrite Hlog, Hcode. unfold identity in *.
    inversion K1. inversion K2. inversion K3. congruence.
  - inversion E4; subst r4. rewrite app_nil_r. congruence.
Qed.
End ReviewCalls.

(** Without the console, one request calls the review service at most
    once, and only when review is enabled and the request ends with the
    success payload. *)
Lemma review_is_called_once_without_console
    (rid created now req : string) (self : Orchestrator.t) :
  let run := generate_code rid created now req self in
  ∃ resp,
    run.1 = Ret resp ∧
    rev_log (calls run.2)
    = (rev_log (calls self) ++
         if enable_code_review self && is_success resp
         then [(default PNone (py_lookup "code" resp), req)]
         else [])%list.
Proof.
  intros run. subst run.
  destruct (generate_code_outcome rid created now req self)
    as (resp & r' & Hpath & Hrun).
  rewrite Hrun. exists resp. split; [reflexivity|].
  exact (pipeline_outcome_review _ _ _ _ _ _ Hpath).
Qed.

(** ** The fields fixed at creation *)

Lemma pipeline_outcome_identity ag (enable : bool) now r resp r' :
  pipeline_outcome ag enable now r resp r' →
  identity (st r') = identity (st r) ∧
  py_lookup "request_id" resp = Some (PStr (request_id (st r'))).
Proof.
  intros Hpath.
  destruct Hpath as [r1 resp E1 Hresp | r1 r2 resp E1 E2 Hresp
                    | r1 r2 r3 resp E1 E2 E3 Hresp
                    | r1 r2 r3 r4 resp E1 E2 E3 E4 Hresp].
  all: pose proof (kept _ _ _ _ _ (run_code_generation_outside_stages ag) E1)
         as K1; unfold outside_stages in K1.
  all: try (pose proof (kept _ _ _ _ _ (run_syntax_validation_outside ag) E2)
              as K2; unfold outside_stages in K2).
  all: try (pose proof (kept _ _ _ _ _
                          (run_hallucination_detection_outside ag) E3)
              as K3; unfold outside_stages in K3).
  1-3: split; [congruence | inversion Hresp; subst; reflexivity].
  split; [|exact (compile_success_request_id _ _ _ _ Hresp)].
  assert (K4 : identity (st r4) = identity (st r3)).
  { destruct enable.
    - now destruct (run_code_review_point _ _ _ E4) as (_ & _ & Hid & _).
    - now inversion E4. }
  change (identity (st (mark_completed r4))) with (identity (st r4)).
  congruence.
Qed.

(** X4: the payload carries the identifier the request was created with,
    and [get_state] of that identifier returns the snapshot of this request:
    its [request_id], [user_request] and [created_at] are as at creation,
    whatever the agents did, and [metadata.created_at] of the payload is the
    same creation time. *)
Theorem payload_identifier_finds_the_request
    (rid created now req : string) (self : Orchestrator.t) :
  let run := generate_code rid created now req self in
  ∃ resp snapshot,
    run.1 = Ret resp ∧
    py_lookup "request_id" resp = Some (PStr rid) ∧
    (get_state rid run.2).1 = Some snapshot ∧
    sd_request_id snapshot = rid ∧
    sd_user_request snapshot = req ∧
    sd_created_at snapshot = created ∧
    py_lookup2 "metadata" "created_at" resp = Some (PStr created).
Proof.
  intros run. subst run.
  destruct (generate_code_outcome rid created now req self)
    as (resp & r' & Hpath & Hrun).
  rewrite Hrun. exists resp, (to_dict (st r')).
  destruct (pipeline_outcome_identity _ _ _ _ _ _ Hpath) as [Hid Hrid].
  unfold identity in Hid. simpl in Hid. injection Hid as H1 H2 H3.
  split_and!; simpl; [reflexivity | | | exact H1 | exact H2 | exact H3 |].
  - now rewrite Hrid, H1.
  - unfold get_state. simpl. now rewrite lookup_insert_eq.
  - rewrite <- H3.
    apply (reports_counts_lookup _ _ _ _
             (pipeline_outcome_counts _ _ _ _ _ _ Hpath)).
    pick_entry.
Qed.

(** ** The attempt counts a payload reports *)

Section ReportedCounts.
Variable ag : Collaborators.

End ReportedCounts.


(** ** One attempt of the generation loop *)

Lemma prepare_request_run attempt s r :
  prepare_request attempt s r = (Ret (request_data attempt s), r).
Proof.
  unfold prepare_request, request_data.
  destruct (1 <? attempt); simpl; [|reflexivity].
  case_bool_decide as Hnil; simpl; [reflexivity|].
  unfold mbind, M_bind, lift, list_last.
  destruct (last (error_messages s)) as [x|] eqn:Hlast; [reflexivity|].
  apply last_None in Hlast. contradiction.
Qed.

Section OneAttempt.
Variable ag : Collaborators.

(** Every attempt makes exactly one call, with the request prepared from
    the state the attempt starts in. *)
Lemma generation_attempt_call attempt r :
  gen_log (tr (generation_attempt ag attempt r).2)
  = (gen_log (tr r) ++ [gen_call attempt (st r)])%list.
Proof.
  unfold generation_attempt. rewrite bind_modify.
  rewrite (keeps_after_try (λ r, gen_log (tr r))) by
    (intros e; frame_with keeps_leaf).
  rewrite bind_get. rewrite (bind_eq _ _ _ _ _ (prepare_request_run _ _ _)).
  rewrite (keeps_after_bind (λ r, gen_log (tr r))); [reflexivity|].
  intros result. frame_with keeps_leaf.
Qed.

(** An attempt on which the service fails appends one entry to the error
    log and lets the loop go on. *)
Lemma generation_attempt_failing attempt r :
  let c := gen_call attempt (st r) in
  let o := generate ag (length (gen_log (tr r))) (gc_request c) in
  attempt_fails o = true →
  generation_attempt ag attempt r
  = (Ret None,
     {| st := append_error (failure_message o)
                (set_attempt_generation attempt (st r));
        tr := with_gen_call c (tr r) |}).
Proof.
  intros c o Hfails. subst c o.
  unfold generation_attempt. rewrite bind_modify. unfold try_except.
  rewrite bind_get. rewrite (bind_eq _ _ _ _ _ (prepare_request_run _ _ _)).
  unfold mbind, M_bind, call_generate, gen_call in *. cbn [st tr] in *.
  destruct (generate ag _ _) as [result|e]; simpl in *; [|reflexivity].
  destruct (gr_status result) as [status|]; simpl in *; [|reflexivity].
  destruct (String.eqb status "success"); [|reflexivity].
  destruct (gr_code result); [discriminate | reflexivity].
Qed.

(** An attempt on which the service succeeds stores the code and ends the
    loop. *)
Lemma generation_attempt_succeeding attempt r result code :
  let c := gen_call attempt (st r) in
  generate ag (length (gen_log (tr r))) (gc_request c) = Ret result →
  gr_status result = Some "success" →
  gr_code result = Some code →
  generation_attempt ag attempt r
  = (Ret (Some true),
     {| st := set_generated_code code (set_attempt_generation attempt (st r));
        tr := with_gen_call c (tr r) |}).
Proof.
  intros c Hgen Hstatus Hcode. subst c.
  unfold generation_attempt. rewrite bind_modify. unfold try_except.
  rewrite bind_get. rewrite (bind_eq _ _ _ _ _ (prepare_request_run _ _ _)).
  unfold mbind, M_bind, call_generate, gen_call in *.
  cbn [st tr gc_request] in *.
  rewrite Hgen. simpl. rewrite Hstatus. simpl. rewrite Hcode. reflexivity.
Qed.
End OneAttempt.

(** ** The generation stage when the service never succeeds *)

Section Exhaustion.
Variable ag : Collaborators.
Hypothesis never : ∀ n q, attempt_fails (generate ag n q) = true.

Lemma run_code_generation_exhausted r :
  _run_code_generation ag r
  = (Ret false,
     failed_attempt ag 3
       (failed_attempt ag 2
          (failed_attempt ag 1
             {| st := set_current_stage Stage.CODE_GENERATION (st r);
                tr := tr r |}))).
Proof.
  unfold _run_code_generation. rewrite bind_modify.
  unfold range1, MAX_GENERATION_RETRIES. cbn [seq].
  match goal with |- (?loop ≫= _) ?r0 = (_, ?r3) =>
    assert (Hloop : loop r0 = (Ret None, r3))
  end.
  { rewrite for_each_cons_run, generation_attempt_failing by apply never.
    rewrite for_each_cons_run, generation_attempt_failing by apply never.
    rewrite for_each_cons_run, generation_attempt_failing by apply never.
    reflexivity. }
  rewrite (bind_eq _ _ _ _ _ Hloop). reflexivity.
Qed.
End Exhaustion.

(** Without the console, a generation service that fails on every call
    is called three times, and the request fails in the first stage. *)
Lemma generation_exhaustion_without_console
    (rid created now req : string) (self : Orchestrator.t) :
  (∀ n q, attempt_fails (generate (agents self) n q) = true) →
  let run := generate_code rid created now req self in
  ∃ resp m1 m2 m3 c1 c2 c3,
    run.1 = Ret resp ∧
    payload_status resp = Some "failed" ∧
    py_lookup2 "metadata" "failed_at_stage" resp
    = Some (PStr "code_generation") ∧
    py_lookup2 "metadata" "generation_attempts" resp = Some (PInt 3) ∧
    py_lookup2 "metadata" "total_attempts" resp = Some (PInt 3) ∧
    py_lookup "last_attempt" resp = Some PNone ∧
    py_lookup "errors" resp = Some (PList [PStr m1; PStr m2; PStr m3]) ∧
    calls run.2
    = {| gen_log := gen_log (calls self) ++ [c1; c2; c3];
         syn_log := syn_log (calls self);
         hal_log := hal_log (calls self);
         rev_log := rev_log (calls self) |} ∧
    gc_request c1 = first_request req ∧
    (gq_feedback (gc_request c2) = Some m1 ∧
     gq_previous_attempt (gc_request c2) = Some PNone) ∧
    (gq_feedback (gc_request c3) = Some m2 ∧
     gq_previous_attempt (gc_request c3) = Some PNone).
Proof.
  intros Hnever run. subst run.
  set (r0 := {| st := new_state rid created req; tr := calls self |}).
  pose proof (run_code_generation_exhausted (agents self) Hnever r0) as Hstage.
  set (ra := {| st := set_current_stage Stage.CODE_GENERATION (st r0);
                tr := tr r0 |}) in Hstage.
  set (r1 := failed_attempt (agents self) 1 ra) in Hstage.
  set (r2 := failed_attempt (agents self) 2 r1) in Hstage.
  set (r3 := failed_attempt (agents self) 3 r2) in Hstage.
  assert (Hrun : run_pipeline (agents self) (enable_code_review self) now r0
                 = _compile_failure_response now r3).
  { unfold run_pipeline. erewrite try_ret_eq; [reflexivity|].
    rewrite (bind_eq _ _ _ _ _ Hstage). reflexivity. }
  unfold generate_code. fold r0. rewrite Hrun.
  eexists _, _, _, _, (gen_call 1 (st ra)), (gen_call 2 (st r1)),
    (gen_call 3 (st r2)).
  split_and!; try reflexivity.
  unfold r3, r2, r1, ra, r0, failed_attempt, with_gen_call. simpl.
  rewrite <- !app_assoc. reflexivity.
Qed.

(** ** The requests sent to the generation service *)

#[local] Instance calls_well_formed_refl : Reflexive calls_well_formed.
Proof.
  intros r. split; [reflexivity|]. exists []. rewrite app_nil_r.
  split; [reflexivity | constructor].
Qed.

#[local] Instance calls_well_formed_trans : Transitive calls_well_formed.
Proof.
  intros r1 r2 r3 (Hreq12 & new1 & Hlog12 & Hnew1) (Hreq23 & new2 & Hlog23 & Hnew2).
  split; [congruence|]. exists (new1 ++ new2)%list. split.
  - rewrite Hlog23, Hlog12, app_assoc. reflexivity.
  - apply Forall_app. split; [exact Hnew1|]. now rewrite <- Hreq12.
Qed.

Lemma well_formed_gen_call attempt s :
  well_formed_call (user_request s) (gen_call attempt s) = true.
Proof.
  unfold well_formed_call, gen_call, request_data. cbn [gc_request gc_errors_at_call].
  destruct (1 <? attempt); simpl; [|now rewrite String.eqb_refl].
  case_bool_decide as Hnil; simpl; [now rewrite String.eqb_refl|].
  rewrite String.eqb_refl. simpl.
  destruct (last (error_messages s)) as [x|] eqn:Hlast.
  - now apply bool_decide_eq_true_2.
  - apply last_None in Hlast. contradiction.
Qed.

Section WellFormedCalls.
Variable ag : Collaborators.

Lemma generation_attempt_well_formed attempt :
  preserves calls_well_formed (generation_attempt ag attempt).
Proof.
  intros r. split.
  - pose proof (generation_attempt_outside ag attempt r) as H.
    unfold keeps, outside_generation in H. congruence.
  - exists [gen_call attempt (st r)]. split.
    + apply generation_attempt_call.
    + repeat constructor. apply well_formed_gen_call.
Qed.

Ltac calls_leaf :=
  first [ apply generation_attempt_well_formed
        | intros ?; unfold calls_well_formed; run_simpl;
          split; [reflexivity|]; exists []; rewrite app_nil_r;
          split; [reflexivity | constructor] ].

Lemma run_code_generation_well_formed :
  preserves calls_well_formed (_run_code_generation ag).
Proof. unfold _run_code_generation. frame_with calls_leaf. Qed.

(** Whatever the agents do, every request a run sends to the generation
    service is well formed. *)
Lemma run_pipeline_well_formed enable now :
  preserves calls_well_formed (run_pipeline ag enable now).
Proof.
  unfold run_pipeline, _run_syntax_validation, syntax_attempt,
    _run_hallucination_detection, hallucination_attempt, _run_code_review,
    _compile_success_response, _compile_failure_response.
  frame_with ltac:(first [apply run_code_generation_well_formed | calls_leaf]).
Qed.
End WellFormedCalls.

(** X9: every request [generate_code] sends to the generation service has
    the action ['generate'], the user's request as [request] and the two
    constraints ['python_only'] and ['no_placeholders']; [feedback] and
    [previous_attempt] are both present or both absent, and a feedback
    present is the last entry of the error log when the call is made. *)
Theorem generation_requests_are_well_formed
    (rid created now req : string) (self : Orchestrator.t) :
  ∃ new,
    gen_log (calls (generate_code rid created now req self).2)
    = (gen_log (calls self) ++ new)%list ∧
    Forall (λ c, well_formed_call req c = true) new.
Proof.
  unfold generate_code.
  destruct (run_pipeline_well_formed (agents self) (enable_code_review self)
              now {| st := new_state rid created req; tr := calls self |})
    as (_ & new & Hlog & Hnew).
  destruct (run_pipeline _ _ _ _) as [out r']. simpl in *.
  exists new. split; [exact Hlog | exact Hnew].
Qed.

(** ** What a successful syntax stage has checked *)

Section ValidatedStage.
Variable ag : Collaborators.

(** A pass of the syntax loop returns [True] only from the point where the
    validator has just accepted the candidate. *)
Lemma syntax_attempt_validated attempt :
  hoare (λ _, True) (syntax_attempt ag attempt)
        (λ o r, match o with
                | Some v => v = true → validated ag r
                | None => True
                end).
Proof.
  unfold syntax_attempt.
  apply (hoare_bind _ (λ _ _, True)); [apply hoare_any | intros _].
  apply hoare_try.
  - apply (hoare_bind _ (λ s r, s = st r)).
    { intros r s r' _ Hrun. now inversion Hrun. }
    intros s.
    apply (hoare_bind _ (λ result r,
             ∃ log,
               syn_log (tr r)
               = (log ++ [(generated_code (artifacts (st r)),
                           "Generated for: " +:+ user_request (st r))])%list ∧
               validate ag (length log) (generated_code (artifacts (st r)))
                 ("Generated for: " +:+ user_request (st r)) = Ret result)).
    { intros r result r' Hs Hrun. unfold call_validate in Hrun.
      inversion Hrun; subst. simpl. eauto. }
    intros result.
    apply (hoare_bind _ (λ _ r,
             ∃ log,
               syn_log (tr r)
               = (log ++ [(generated_code (artifacts (st r)),
                           "Generated for: " +:+ user_request (st r))])%list ∧
               validate ag (length log) (generated_code (artifacts (st r)))
                 ("Generated for: " +:+ user_request (st r)) = Ret result ∧
               syntax_result (artifacts (st r)) = Some result)).
    { apply hoare_modify. intros r (log & Hlog & Hval). exists log.
      split_and!; [exact Hlog | exact Hval | reflexivity]. }
    intros _.
    destruct (sr_status result) as [status|] eqn:Hstatus; simpl.
    + apply hoare_bind_ret.
      destruct (String.eqb status "SYNTAX_VALID") eqn:Heq.
      * apply hoare_ret. intros r (log & Hlog & Hval & Hres) _.
        apply String.eqb_eq in Heq. subst status. now exists log, result.
      * destruct (sr_corrected_code result) as [c|]; [destruct (py_truthy c)|];
          repeat (apply (hoare_bind _ (λ _ _, True)); [apply hoare_any | intros ?]);
          try match goal with |- hoare _ (if ?b then _ else _) _ => destruct b end;
          apply hoare_ret; intros; first [discriminate | exact I].
    + intros r a r' _ Hrun. discriminate.
  - intros e.
    apply (hoare_bind _ (λ _ _, True)); [apply hoare_any | intros _].
    apply hoare_ret. auto.
Qed.

Lemma run_syntax_validation_validated :
  hoare (λ _, True) (_run_syntax_validation ag)
        (λ ok r, ok = true → validated ag r).
Proof.
  unfold _run_syntax_validation.
  apply (hoare_bind _ (λ _ _, True)); [apply hoare_any | intros _].
  eapply hoare_bind.
  - apply (hoare_for_each (λ _, True) (λ v r, v = true → validated ag r)).
    intros x. apply syntax_attempt_validated.
  - intros [v|]; apply hoare_ret; [auto | discriminate].
Qed.
End ValidatedStage.

(** X10: when [_run_syntax_validation] returns [True], the last call of
    the validator was made on the candidate the state holds at that moment,
    with the context ['Generated for: <request>'], and returned
    ['SYNTAX_VALID']; that result is the stored [syntax_result].  So no
    regeneration and no adopted correction lies between the accepted
    validation and the end of the stage. *)
Theorem syntax_stage_succeeds_on_validated_candidate
    (ag : Collaborators) (r r' : Run) :
  _run_syntax_validation ag r = (Ret true, r') → validated ag r'.
Proof.
  intros Hrun.
  exact (run_syntax_validation_validated ag r true r' I Hrun eq_refl).
Qed.

(** The syntax stage of a run whose first candidate is accepted. *)
Lemma syntax_stage_succeeds_on_validated_candidate_witness :
  let r := (_run_code_generation Scenarios.happy
              (Scenarios.start "add two numbers")).2 in
  validated Scenarios.happy (_run_syntax_validation Scenarios.happy r).2.
Proof.
  intros r.
  apply (syntax_stage_succeeds_on_validated_candidate Scenarios.happy r).
  vm_compute. reflexivity.
Defined.

(** ** A request whose first candidate passes every check *)

Section Accepting.
Variable ag : Collaborators.

Lemma syntax_attempt_accepting attempt r res :
  validate ag (length (syn_log (tr r))) (generated_code (artifacts (st r)))
    ("Generated for: " +:+ user_request (st r)) = Ret res →
  sr_status res = Some "SYNTAX_VALID" →
  syntax_attempt ag attempt r
  = (Ret (Some true),
     {| st := set_syntax_result res (set_attempt_syntax_fix attempt (st r));
        tr := with_syn_call (generated_code (artifacts (st r)))
                ("Generated for: " +:+ user_request (st r)) (tr r) |}).
Proof.
  intros Hval Hstatus.
  unfold syntax_attempt. rewrite bind_modify. unfold try_except.
  rewrite bind_get. unfold mbind, M_bind, call_validate. simpl.
  rewrite Hval. simpl. rewrite Hstatus. reflexivity.
Qed.

Lemma hallucination_attempt_accepting attempt r res :
  verify ag (length (hal_log (tr r))) (generated_code (artifacts (st r)))
  = Ret res →
  hr_status res = Some "VERIFIED" →
  hallucination_attempt ag attempt r
  = (Ret (Some true),
     {| st := set_hallucination_result res
                (set_attempt_hallucination_fix attempt (st r));
        tr := with_hal_call (generated_code (artifacts (st r))) (tr r) |}).
Proof.
  intros Hver Hstatus.
  unfold hallucination_attempt. rewrite bind_modify. unfold try_except.
  rewrite bind_get. unfold mbind, M_bind, call_verify. simpl.
  rewrite Hver. simpl. rewrite Hstatus. reflexivity.
Qed.

Lemma same_run {A} (m : M A) r a r1 b r2 :
  m r = (Ret a, r1) → m r = (Ret b, r2) → a = b ∧ r1 = r2.
Proof. intros H1 H2. rewrite H1 in H2. now inversion H2. Qed.

(** A loop whose first pass returns ends there. *)
Lemma stage_first_pass own (body : nat → M (option bool)) n r (b : bool) r' :
  body 1 {| st := set_current_stage own (st r); tr := tr r |}
  = (Ret (Some b), r') →
  (modify (set_current_stage own);;
   o ← for_each (range1 (S n)) body;
   match o with Some b => mret b | None => mret false end) r
  = (Ret b, r').
Proof.
  intros Hpass. rewrite bind_modify. unfold range1. cbn [seq].
  rewrite (bind_eq _ _ _ (Some b) r'); [reflexivity|].
  rewrite for_each_cons_run, Hpass. reflexivity.
Qed.
End Accepting.

(** Without the console, a first candidate that the validator accepts
    and the detector verifies is returned after one call of each of the
    three agents. *)
Lemma first_candidate_accepted_without_console
    (rid created now req : string) (self : Orchestrator.t)
    (gres : GenResult) (code : pyval) (sres : SynResult) (hres : HalResult) :
  generate (agents self) (length (gen_log (calls self))) (first_request req)
  = Ret gres →
  gr_status gres = Some "success" →
  gr_code gres = Some code →
  validate (agents self) (length (syn_log (calls self))) code
    ("Generated for: " +:+ req) = Ret sres →
  sr_status sres = Some "SYNTAX_VALID" →
  verify (agents self) (length (hal_log (calls self))) code = Ret hres →
  hr_status hres = Some "VERIFIED" →
  let run := generate_code rid created now req self in
  ∃ resp s,
    run.1 = Ret resp ∧
    payload_status resp = Some "success" ∧
    py_lookup "code" resp = Some code ∧
    py_lookup2 "metadata" "generation_attempts" resp = Some (PInt 1) ∧
    py_lookup2 "metadata" "syntax_fix_attempts" resp = Some (PInt 1) ∧
    py_lookup2 "metadata" "hallucination_fix_attempts" resp = Some (PInt 1) ∧
    py_lookup2 "metadata" "total_attempts" resp = Some (PInt 3) ∧
    final_state rid run.2 = Some s ∧
    error_messages s = [] ∧
    syntax_result (artifacts s) = Some sres ∧
    hallucination_result (artifacts s) = Some hres ∧
    gen_log (calls run.2)
    = (gen_log (calls self)
         ++ [{| gc_request := first_request req; gc_errors_at_call := [] |}])%list ∧
    syn_log (calls run.2)
    = (syn_log (calls self) ++ [(code, "Generated for: " +:+ req)])%list ∧
    hal_log (calls run.2) = (hal_log (calls self) ++ [code])%list.
Proof.
  intros Hgen Hgs Hgc Hval Hss Hver Hhs run. subst run.
  set (r0 := {| st := new_state rid created req; tr := calls self |}).
  assert (E1 : ∃ r1, _run_code_generation (agents self) r0 = (Ret true, r1) ∧
             r1 = {| st := set_generated_code code
                             (set_attempt_generation 1
                                (set_current_stage Stage.CODE_GENERATION (st r0)));
                     tr := with_gen_call
                             {| gc_request := first_request req;
                                gc_errors_at_call := [] |} (tr r0) |}).
  { eexists. split; [|reflexivity].
    apply (stage_first_pass _ (generation_attempt (agents self))).
    etransitivity;
      [apply (generation_attempt_succeeding _ 1 _ gres code); assumption
      |reflexivity]. }
  destruct E1 as (r1 & E1 & Hr1).
  assert (E2 : ∃ r2, _run_syntax_validation (agents self) r1 = (Ret true, r2) ∧
             r2 = {| st := set_syntax_result sres
                             (set_attempt_syntax_fix 1
                                (set_current_stage Stage.SYNTAX_CHECK (st r1)));
                     tr := with_syn_call code ("Generated for: " +:+ req) (tr r1) |}).
  { eexists. split; [|reflexivity].
    apply (stage_first_pass _ (syntax_attempt (agents self))).
    etransitivity;
      [apply (syntax_attempt_accepting _ 1 _ sres); subst r1; assumption
      |subst r1; reflexivity]. }
  destruct E2 as (r2 & E2 & Hr2).
  assert (E3 : ∃ r3,
             _run_hallucination_detection (agents self) r2 = (Ret true, r3) ∧
             r3 = {| st := set_hallucination_result hres
                             (set_attempt_hallucination_fix 1
                                (set_current_stage Stage.HALLUCINATION_CHECK (st r2)));
                     tr := with_hal_call code (tr r2) |}).
  { eexists. split; [|reflexivity].
    apply (stage_first_pass _ (hallucination_attempt (agents self))).
    etransitivity;
      [apply (hallucination_attempt_accepting _ 1 _ hres);
         subst r2 r1; assumption
      |subst r2 r1; reflexivity]. }
  destruct E3 as (r3 & E3 & Hr3).
  destruct (generate_code_outcome rid created now req self)
    as (resp & r' & Hpath & Hrun).
  fold r0 in Hpath. rewrite Hrun. exists resp, (st r'). unfold final_state.
  cbn [fst snd calls states].
  destruct Hpath as [q1 resp F1 Hresp | q1 q2 resp F1 F2 Hresp
                    | q1 q2 q3 resp F1 F2 F3 Hresp
                    | q1 q2 q3 r4 resp F1 F2 F3 F4 Hresp].
  all: destruct (same_run _ _ _ _ _ _ E1 F1) as [? <-]; try discriminate.
  all: destruct (same_run _ _ _ _ _ _ E2 F2) as [? <-]; try discriminate.
  all: destruct (same_run _ _ _ _ _ _ E3 F3) as [? <-]; try discriminate.
  clear F1 F2 F3.
  assert (K4 : generated_code (artifacts (st r4)) = generated_code (artifacts (st r3))
               ∧ attempts (st r4) = attempts (st r3)
               ∧ error_messages (st r4) = error_messages (st r3)
               ∧ syntax_result (artifacts (st r4)) = syntax_result (artifacts (st r3))
               ∧ hallucination_result (artifacts (st r4))
                 = hallucination_result (artifacts (st r3))
               ∧ (gen_log (tr r4), syn_log (tr r4), hal_log (tr r4))
                 = (gen_log (tr r3), syn_log (tr r3), hal_log (tr r3))).
  { destruct (enable_code_review self).
    - destruct (run_code_review_run (agents self) r3) as (d & Hd & _).
      rewrite Hd in F4. inversion F4; subst r4. now split_and!.
    - inversion F4; subst r4. now split_and!. }
  destruct K4 as (Kcode & Kattempts & Kerrors & Ksyn & Khal & Klogs).
  pose proof (compile_success_counts _ _ _ _ Hresp) as Hcounts.
  assert (Hatt : attempts (st (mark_completed r4))
                 = {| generation := 1; syntax_fix := 1; hallucination_fix := 1 |}).
  { simpl. rewrite Kattempts. subst r3 r2 r1. reflexivity. }
  injection Klogs as Kgen Ksynlog Khallog.
  split_and!.
  - reflexivity.
  - exact (compile_success_status _ _ _ _ Hresp).
  - rewrite (compile_success_code _ _ _ _ Hresp). simpl. rewrite Kcode.
    subst r3 r2 r1. reflexivity.
  - apply (reports_counts_lookup _ _ _ _ Hcounts).
    unfold metadata_counts. rewrite Hatt. pick_entry.
  - apply (reports_counts_lookup _ _ _ _ Hcounts).
    unfold metadata_counts. rewrite Hatt. pick_entry.
  - apply (reports_counts_lookup _ _ _ _ Hcounts).
    unfold metadata_counts. rewrite Hatt. pick_entry.
  - apply (reports_counts_lookup _ _ _ _ Hcounts).
    unfold metadata_counts. rewrite Hatt. pick_entry.
  - apply lookup_insert_eq.
  - simpl. rewrite Kerrors. subst r3 r2 r1. reflexivity.
  - simpl. rewrite Ksyn. subst r3 r2 r1. reflexivity.
  - simpl. rewrite Khal. subst r3 r2 r1. reflexivity.
  - simpl. rewrite Kgen. subst r3 r2 r1. reflexivity.
  - simpl. rewrite Ksynlog. subst r3 r2 r1. reflexivity.
  - simpl. rewrite Khallog. subst r3 r2 r1. reflexivity.
Qed.

(** ** A validator that repairs on every pass *)



(** ** The briefs, error by error *)

Lemma enumerate_app {A} (l l' : list A) start :
  enumerate start (l ++ l')
  = (enumerate start l ++ enumerate (start + length l) l')%list.
Proof.
  revert start. induction l as [|x l IH]; intros start; simpl.
  - now rewrite Nat.add_0_r.
  - rewrite IH. now rewrite Nat.add_succ_r.
Qed.

(** A loop that appends one piece of text per element appends, for one
    more element at the end, the piece of that element. *)
Lemma fold_bullets_snoc {A} (bullet : nat → A → string) (l : list A) x header :
  fold_left (λ feedback '(i, y), feedback +:+ bullet i y)
    (enumerate 1 (l ++ [x])%list) header
  = fold_left (λ feedback '(i, y), feedback +:+ bullet i y)
      (enumerate 1 l) header
    +:+ bullet (S (length l)) x.
Proof. rewrite enumerate_app, fold_left_app. reflexivity. Qed.

(** X1: both briefs are built error by error.  A result without the list
    of errors, or with an empty one, gives the header line alone; one more
    error at the end of the list appends its two (or three) lines to the
    brief, numbered with its position counted from 1, with ['?'],
    ['Unknown issue'], ['No suggestion'] (['Unknown'], ['Does not exist'],
    ['Remove or replace']) for the keys the entry lacks.  Nothing else of the
    result is read. *)
Theorem briefs_list_the_errors_in_order :
  (∀ status corrected,
     _format_syntax_errors
       {| sr_status := status; sr_errors := None; sr_corrected_code := corrected |}
     = "Syntax Errors Found:" +:+ nl ∧
     _format_syntax_errors
       {| sr_status := status; sr_errors := Some [];
          sr_corrected_code := corrected |}
     = "Syntax Errors Found:" +:+ nl) ∧
  (∀ status corrected errors error,
     _format_syntax_errors
       {| sr_status := status; sr_errors := Some (errors ++ [error])%list;
          sr_corrected_code := corrected |}
     = _format_syntax_errors
         {| sr_status := status; sr_errors := Some errors;
            sr_corrected_code := corrected |}
       +:+ syntax_bullet (S (length errors)) error) ∧
  (∀ status,
     _format_hallucination_errors
       {| hr_status := status; hr_hallucinations := None |}
     = "Hallucinations Detected:" +:+ nl ∧
     _format_hallucination_errors
       {| hr_status := status; hr_hallucinations := Some [] |}
     = "Hallucinations Detected:" +:+ nl) ∧
  (∀ status hallucinations h,
     _format_hallucination_errors
       {| hr_status := status; hr_hallucinations := Some (hallucinations ++ [h])%list |}
     = _format_hallucination_errors
         {| hr_status := status; hr_hallucinations := Some hallucinations |}
       +:+ hallucination_bullet (S (length hallucinations)) h).
Proof.
  split_and!.
  - intros status corrected. split; reflexivity.
  - intros status corrected errors error. unfold _format_syntax_errors. simpl.
    apply (fold_bullets_snoc syntax_bullet).
  - intros status. split; reflexivity.
  - intros status hallucinations h. unfold _format_hallucination_errors. simpl.
    apply (fold_bullets_snoc hallucination_bullet).
Qed.

(** * The syntax checker *)

Section SyntaxCheckerFacts.
Variable ast_parse : string → LocalAgents.ParseResult SyntaxChecker.SyntaxError.
Variables strip rstrip lower : string → string.

Abbreviation _suggest_fix := (SyntaxChecker._suggest_fix strip rstrip lower).
Abbreviation _parse_syntax_error :=
  (SyntaxChecker._parse_syntax_error strip rstrip lower).
Abbreviation correction_loop := (SyntaxChecker.correction_loop rstrip).
Abbreviation _attempt_correction :=
  (SyntaxChecker._attempt_correction ast_parse rstrip).
Abbreviation validate := (SyntaxChecker.validate ast_parse strip rstrip lower).

(** On entries that have the two keys it reads, the loop of
    [_attempt_correction] runs to its end. *)
Lemma correction_loop_returns errors :
  Forall (λ error, is_Some (se_line error) ∧ is_Some (se_fix error)) errors →
  ∀ lines modified, ∃ lines' modified',
    correction_loop errors lines modified = Ret (lines', modified').
Proof.
  induction 1 as [|error errors [[number Hline] [fix_ Hfix]] _ IH];
    intros lines modified; simpl.
  - eauto.
  - rewrite Hline, Hfix.
    destruct ((number - 1 <? 0)%Z || (Z.of_nat (length lines) <=? number - 1)%Z)
      eqn:Hrange; [apply IH|].
    apply orb_false_iff in Hrange as [Hlow Hhigh].
    apply Z.ltb_ge in Hlow. apply Z.leb_gt in Hhigh.
    destruct (lookup_lt_is_Some_2 lines (Z.to_nat (number - 1))) as [line Hl];
      [lia|].
    rewrite Hl.
    repeat match goal with |- context [if ?b then _ else _] => destruct b end;
      apply IH.
Qed.

(** What [_attempt_correction] returns is [None] or code that parses. *)
Lemma attempt_correction_parses code errors v :
  _attempt_correction code errors = Ret v →
  v = PNone ∨ ∃ corrected, v = PStr corrected ∧
                           ast_parse corrected = LocalAgents.Parsed.
Proof.
  unfold SyntaxChecker._attempt_correction.
  destruct errors as [|error errors]; [intros H; inversion H; auto|].
  destruct (correction_loop (error :: errors) _ false) as [[lines modified]|e];
    [|discriminate].
  destruct modified; [|intros H; inversion H; auto].
  destruct (ast_parse (String.concat nl lines)) eqn:Hparse;
    intros H; inversion H; eauto.
Qed.

Lemma attempt_correction_returns e code :
  ∃ v, _attempt_correction code (_parse_syntax_error e code) = Ret v.
Proof.
  unfold SyntaxChecker._attempt_correction, SyntaxChecker._parse_syntax_error.
  edestruct (correction_loop_returns
               [{| se_line := Some (default 0%Z (SyntaxChecker.lineno e));
                   se_issue := Some (default "Syntax error"
                                       (SyntaxChecker.nonempty (SyntaxChecker.msg e)));
                   se_fix := Some (_suggest_fix e code) |}])
    as (lines & modified & Hloop).
  { repeat constructor; simpl; eauto. }
  rewrite Hloop. destruct modified; [|eauto].
  destruct (ast_parse _); eauto.
Qed.

(** An error whose suggestion names none of the three repairs leaves the
    lines as they are. *)
Lemma correction_loop_inert number issue fix_ lines modified :
  Text.contains "Add ':' at the end" fix_ = false →
  Text.contains "Add closing parenthesis ')'" fix_ = false →
  Text.contains "Add closing bracket ']'" fix_ = false →
  correction_loop
    [{| se_line := Some number; se_issue := issue; se_fix := Some fix_ |}]
    lines modified
  = Ret (lines, modified).
Proof.
  intros H1 H2 H3. simpl.
  destruct ((number - 1 <? 0)%Z || (Z.of_nat (length lines) <=? number - 1)%Z)
    eqn:Hrange; [reflexivity|].
  apply orb_false_iff in Hrange as [Hlow Hhigh].
  apply Z.ltb_ge in Hlow. apply Z.leb_gt in Hhigh.
  destruct (lookup_lt_is_Some_2 lines (Z.to_nat (number - 1))) as [line Hl];
    [lia|].
  rewrite Hl, H1, H2, H3. reflexivity.
Qed.

(** The suggestion for an error that is not an ['invalid syntax'] with its
    source line names none of the three repairs. *)
Lemma suggest_fix_inert e code :
  Text.contains "invalid syntax"
    (match SyntaxChecker.nonempty (SyntaxChecker.msg e) with
     | Some m => lower m
     | None => ""
     end) = false
  ∨ SyntaxChecker.nonempty (SyntaxChecker.text e) = None →
  Text.contains "Add ':' at the end" (_suggest_fix e code) = false ∧
  Text.contains "Add closing parenthesis ')'" (_suggest_fix e code) = false ∧
  Text.contains "Add closing bracket ']'" (_suggest_fix e code) = false.
Proof.
  intros Hinert. unfold SyntaxChecker._suggest_fix.
  destruct (Text.contains "invalid syntax" _) eqn:Hinvalid.
  - destruct Hinert as [?|Htext]; [discriminate|]. rewrite Htext.
    vm_compute. auto.
  - repeat match goal with
           | |- context [if ?b then _ else _] => destruct b
           end; vm_compute; auto.
Qed.

(** X13: on a string, [validate] returns, with one of three statuses.
    The status is ['SYNTAX_VALID'] exactly when the code is not empty, not
    blank, and parses; then the result has neither errors nor a correction.
    Otherwise the result lists exactly one error, which has a line, an issue
    and a fix, and [corrected_code], when it is offered, is a string that
    [ast.parse] accepts. *)
Theorem checker_offers_only_code_that_parses (src context : string) :
  ∃ res,
    validate (PStr src) context = Ret res ∧
    ((sr_status res = Some "SYNTAX_VALID" ∧
      src ≠ "" ∧ strip src ≠ "" ∧ ast_parse src = LocalAgents.Parsed ∧
      sr_errors res = None ∧ sr_corrected_code res = None) ∨
     ((sr_status res = Some "SYNTAX_ERROR" ∨ sr_status res = Some "PARSE_FAILED") ∧
      (src = "" ∨ strip src = "" ∨ ast_parse src ≠ LocalAgents.Parsed) ∧
      (∃ line issue fix_,
         sr_errors res = Some [{| se_line := Some line; se_issue := Some issue;
                                  se_fix := Some fix_ |}]) ∧
      (sr_corrected_code res = None ∨
       sr_corrected_code res = Some PNone ∨
       ∃ corrected,
         sr_corrected_code res = Some (PStr corrected) ∧
         ast_parse corrected = LocalAgents.Parsed))).
Proof.
  unfold SyntaxChecker.validate. cbn [py_truthy].
  destruct (String.eqb_spec src "") as [Hempty|Hempty]; cbn [negb].
  { eexists. split; [reflexivity|]. right.
    split_and!; [by right | by left | by eexists _, _, _ | by left]. }
  destruct (String.eqb_spec (strip src) "") as [Hblank|Hblank].
  { eexists. split; [reflexivity|]. right.
    split_and!; [by right | by right; left | by eexists _, _, _ | by left]. }
  destruct (ast_parse src) as [|e|other] eqn:Hparse.
  - eexists. split; [reflexivity|]. left. by split_and!.
  - destruct (attempt_correction_returns e src) as [v Hv]. rewrite Hv.
    eexists. split; [reflexivity|]. right. cbn [sr_status sr_errors sr_corrected_code].
    split_and!; [by left | by right; right | by eexists _, _, _ |].
    destruct (attempt_correction_parses _ _ _ Hv) as [->|(c & -> & Hc)];
      [by right; left | right; right; by exists c].
  - eexists. split; [reflexivity|]. right.
    split_and!; [by right | by right; right | by eexists _, _, _ | by left].
Qed.

(** X14: the checker tries a repair only for an error whose message
    contains ['invalid syntax'] and that carries its source line.  For every
    other syntax error (for instance a message such as [expected ':']) the
    result has [corrected_code] = [None], so the controller regenerates. *)
Theorem checker_repairs_only_invalid_syntax
    (src context : string) (e : SyntaxChecker.SyntaxError) :
  src ≠ "" → strip src ≠ "" →
  ast_parse src = LocalAgents.SyntaxErr e →
  Text.contains "invalid syntax"
    (match SyntaxChecker.nonempty (SyntaxChecker.msg e) with
     | Some m => lower m
     | None => ""
     end) = false
  ∨ SyntaxChecker.nonempty (SyntaxChecker.text e) = None →
  validate (PStr src) context
  = Ret {| sr_status := Some "SYNTAX_ERROR";
           sr_errors := Some (_parse_syntax_error e src);
           sr_corrected_code := Some PNone |}.
Proof.
  intros Hempty Hblank Hparse Hinert.
  unfold SyntaxChecker.validate. cbn [py_truthy].
  apply String.eqb_neq in Hempty, Hblank. rewrite Hempty, Hblank. cbn [negb].
  rewrite Hparse.
  destruct (suggest_fix_inert e src Hinert) as (H1 & H2 & H3).
  unfold SyntaxChecker._attempt_correction, SyntaxChecker._parse_syntax_error.
  rewrite (correction_loop_inert _ _ _ _ _ H1 H2 H3). reflexivity.
Qed.

(** ** Several snippets at once *)

Lemma validate_string_has_status src context :
  ∃ res, validate (PStr src) context = Ret res ∧ is_Some (sr_status res).
Proof.
  unfold SyntaxChecker.validate. cbn [py_truthy].
  destruct (String.eqb src ""); cbn [negb]; [by eexists|].
  destruct (String.eqb (strip src) ""); [by eexists|].
  destruct (ast_parse src) as [|e|other]; [by eexists | | by eexists].
  destruct (attempt_correction_returns e src) as [v Hv]. rewrite Hv.
  by eexists.
Qed.

Lemma is_valid_accepted res :
  is_Some (sr_status res) → SyntaxChecker.is_valid res = Ret (accepted res).
Proof.
  intros [status Hs]. unfold SyntaxChecker.is_valid, accepted. now rewrite Hs.
Qed.

Lemma check_loop_spec (snippets : list string) :
  ∀ i results all_valid,
    ∃ new,
      SyntaxChecker.check_loop ast_parse strip rstrip lower i
        (PStr <$> snippets) results all_valid
      = Ret ((results ++ new)%list, all_valid && forallb accepted new) ∧
      Forall2 (λ src res, validate (PStr src) "" = Ret res) snippets new ∧
      Forall (λ res, is_Some (sr_status res)) new.
Proof.
  induction snippets as [|src snippets IH]; intros i results all_valid.
  - exists []. rewrite app_nil_r, andb_true_r. by split_and!.
  - destruct (validate_string_has_status src ("Snippet " +:+ pretty (i + 1)))
      as (res & Hres & Hstatus).
    destruct (IH (S i) (results ++ [res])%list
                (if accepted res then all_valid else false))
      as (new & Hloop & Hnew & Hall).
    exists (res :: new). split_and!.
    + cbn [fmap list_fmap SyntaxChecker.check_loop]. rewrite Hres.
      rewrite (is_valid_accepted _ Hstatus), Hloop.
      rewrite <- app_assoc. simpl. destruct (accepted res), all_valid; reflexivity.
    + constructor; [exact Hres | exact Hnew].
    + constructor; [exact Hstatus | exact Hall].
Qed.

Lemma count_valid_spec results :
  Forall (λ res, is_Some (sr_status res)) results →
  SyntaxChecker.count_valid results = Ret (length (filter (λ res, accepted res = true) results)).
Proof.
  induction 1 as [|res results Hstatus _ IH]; [reflexivity|].
  simpl. rewrite (is_valid_accepted _ Hstatus), IH.
  rewrite filter_cons. destruct (accepted res); reflexivity.
Qed.

Lemma all_accepted_count results :
  forallb accepted results = true
  ↔ length (filter (λ res, accepted res = true) results) = length results.
Proof.
  induction results as [|res results IH]; [done|].
  rewrite filter_cons. simpl.
  pose proof (length_filter (λ res, accepted res = true) results) as Hle.
  destruct (accepted res); simpl.
  - rewrite IH. lia.
  - split; [discriminate | lia].
Qed.

(** X15: [check_multiple] on a list of strings returns a report in which
    [total_snippets] is the number of snippets, [results] holds the result
    of [validate] for each snippet, in order (the context passed does not
    matter), [valid_snippets] counts the results with status
    ['SYNTAX_VALID'], and [overall_status] is ['ALL_VALID'] exactly when
    [valid_snippets] equals [total_snippets], ['ERRORS_FOUND'] otherwise; an
    empty list gives ['ALL_VALID']. *)
Theorem check_multiple_agrees_with_validate (snippets : list string) :
  ∃ report,
    SyntaxChecker.check_multiple ast_parse strip rstrip lower (PStr <$> snippets)
    = Ret report ∧
    SyntaxChecker.total_snippets report = length snippets ∧
    Forall2 (λ src res, validate (PStr src) "" = Ret res)
      snippets (SyntaxChecker.results report) ∧
    SyntaxChecker.valid_snippets report
    = length (filter (λ res, accepted res = true)
                (SyntaxChecker.results report)) ∧
    SyntaxChecker.valid_snippets report ≤ SyntaxChecker.total_snippets report ∧
    SyntaxChecker.overall_status report
    = (if SyntaxChecker.valid_snippets report
          =? SyntaxChecker.total_snippets report
       then "ALL_VALID" else "ERRORS_FOUND").
Proof.
  unfold SyntaxChecker.check_multiple.
  destruct (check_loop_spec snippets 0 [] true) as (new & Hloop & Hnew & Hall).
  rewrite Hloop, app_nil_l, andb_true_l. rewrite (count_valid_spec _ Hall).
  eexists. split; [reflexivity|]. cbn.
  pose proof (Forall2_length _ _ _ Hnew) as Hlen.
  pose proof (length_filter (λ res, accepted res = true) new) as Hle.
  rewrite length_fmap.
  split_and!; [reflexivity | exact Hnew | reflexivity | lia |].
  destruct (forallb accepted new) eqn:Hforall.
  - apply all_accepted_count in Hforall. rewrite Hforall, Hlen, Nat.eqb_refl.
    reflexivity.
  - destruct (Nat.eqb_spec (length (filter (λ res, accepted res = true) new))
                (length snippets)) as [Heq|Hne]; [|reflexivity].
    rewrite Hlen in Heq. apply all_accepted_count in Heq. congruence.
Qed.
End SyntaxCheckerFacts.

(** * The hallucination detector *)

Section DetectorFacts.
Variable E : Type.
Variable ast_parse : string → LocalAgents.ParseResult E.
Variable extract_imports : string → list HallucinationDetector.ImportEntry.
Variable import_module : nat → string → HallucinationDetector.ImportOutcome.
Variables strip lower : string → string.
Variable find_similar_module : string → string.

Abbreviation _verify_import :=
  (HallucinationDetector._verify_import import_module lower find_similar_module).
Abbreviation verify_imports :=
  (HallucinationDetector.verify_imports import_module lower find_similar_module).
Abbreviation verify :=
  (HallucinationDetector.verify E ast_parse extract_imports import_module
     strip lower find_similar_module).

(** A verdict is valid without issue, or invalid with the issue and a
    suggestion. *)
Lemma verify_import_verdict n imp result :
  _verify_import n imp = Ret result →
  if HallucinationDetector.is_valid result then True
  else HallucinationDetector.issue result
       = Some ("Module '" +:+ HallucinationDetector.import_module_name imp
               +:+ "' does not exist or is not installed") ∧
       is_Some (HallucinationDetector.suggestion result).
Proof.
  unfold HallucinationDetector._verify_import.
  destruct (HallucinationDetector._is_stdlib _);
    [intros H; inversion H; exact I|].
  destruct (HallucinationDetector._is_known_third_party _ _);
    [intros H; inversion H; exact I|].
  destruct (import_module n _); intros H; inversion H; simpl; eauto.
Qed.

(** The loop sorts every import into one of its two lists. *)
Lemma verify_imports_sorts n imports :
  ∀ hallucinations verified hallucinations' verified',
    verify_imports n imports hallucinations verified
    = Ret (hallucinations', verified') →
    ∃ found accepted,
      hallucinations' = (hallucinations ++ found)%list ∧
      verified' = (verified ++ accepted)%list ∧
      length found + length accepted = length imports ∧
      Forall (reported_module
                (HallucinationDetector.import_module_name <$> imports)) found ∧
      Forall (λ c, HallucinationDetector.component c
                   ∈ HallucinationDetector.import_module_name <$> imports)
             accepted.
Proof.
  induction imports as [|imp imports IH];
    intros hallucinations verified hallucinations' verified' Hloop.
  - inversion Hloop; subst. exists [], []. rewrite !app_nil_r. by split_and!.
  - simpl in Hloop.
    destruct (_verify_import n imp) as [result|e] eqn:Hverdict; [|discriminate].
    pose proof (verify_import_verdict _ _ _ Hverdict) as Hshape.
    destruct (HallucinationDetector.is_valid result).
    + destruct (IH _ _ _ _ Hloop) as (found & accepted & -> & -> & Hlen & Hf & Ha).
      eexists found, (_ :: accepted). rewrite <- app_assoc. simpl.
      split_and!; [reflexivity | reflexivity | lia | |].
      * eapply Forall_impl; [exact Hf|].
        intros h (Htype & name & Hin & Hrest). split; [exact Htype|].
        exists name. split; [now right | exact Hrest].
      * constructor; [left|].
        eapply Forall_impl; [exact Ha|]. intros c Hc. now right.
    + destruct Hshape as [Hissue Hsuggestion].
      destruct (IH _ _ _ _ Hloop) as (found & accepted & -> & -> & Hlen & Hf & Ha).
      eexists (_ :: found), accepted. rewrite <- app_assoc. simpl.
      split_and!; [reflexivity | reflexivity | lia | |].
      * constructor.
        -- split; [reflexivity|]. eexists. split; [left|]. by split_and!.
        -- eapply Forall_impl; [exact Hf|].
           intros h (Htype & name & Hin & Hrest). split; [exact Htype|].
           exists name. split; [now right | exact Hrest].
      * eapply Forall_impl; [exact Ha|]. intros c Hc. now right.
Qed.

(** X16: on a string, [verify] returns one of three reports.
    ['VERIFICATION_FAILED'] comes with an empty list of hallucinations and
    nothing else.  ['VERIFIED'] comes without hallucinations and lists one
    verified component per import.  ['HALLUCINATION_DETECTED'] comes with a
    list of hallucinations that is not empty; every import is in exactly one
    of the two lists, every hallucination names its module, the issue and a
    suggestion, and the risk assessment counts the hallucinations and is
    ['High'] from three on and ['Medium'] below, never ['Low']. *)
Theorem detector_sorts_every_import (n : nat) (src : string) :
  let imports := extract_imports src in
  ∃ report,
    verify n (PStr src) = Ret report ∧
    (report = HallucinationDetector.verification_failed ∨
     (HallucinationDetector.status report = "VERIFIED" ∧
      HallucinationDetector.hallucinations report = None ∧
      HallucinationDetector.libraries_checked report = Some (length imports) ∧
      ∃ accepted,
        HallucinationDetector.verified_components report = Some accepted ∧
        length accepted = length imports) ∨
     (HallucinationDetector.status report = "HALLUCINATION_DETECTED" ∧
      ∃ found accepted risk,
        HallucinationDetector.hallucinations report = Some found ∧
        HallucinationDetector.verified_components report = Some accepted ∧
        HallucinationDetector.risk_assessment report = Some risk ∧
        1 ≤ length found ∧
        length found + length accepted = length imports ∧
        Forall (reported_module
                  (HallucinationDetector.import_module_name <$> imports)) found ∧
        HallucinationDetector.hallucination_count risk = length found ∧
        HallucinationDetector.severity risk
        = (if 3 <=? length found then "High" else "Medium"))).
Proof.
  intros imports. unfold HallucinationDetector.verify. cbn [py_truthy].
  destruct (String.eqb src ""); cbn [negb]; [eexists; split; [reflexivity|by left]|].
  destruct (String.eqb (strip src) ""); [eexists; split; [reflexivity|by left]|].
  destruct (ast_parse src); [|eexists; split; [reflexivity|by left]..].
  fold imports.
  destruct (verify_imports n imports [] []) as [[found accepted]|e] eqn:Hloop;
    [|eexists; split; [reflexivity|by left]].
  destruct (verify_imports_sorts _ _ _ _ _ _ Hloop)
    as (found' & accepted' & Hf & Ha & Hlen & Hfound & _).
  simpl in Hf, Ha. subst found' accepted'.
  destruct found as [|h found].
  - eexists. split; [reflexivity|]. right. left. simpl.
    split_and!; try reflexivity. exists accepted. split; [reflexivity|].
    simpl in Hlen. lia.
  - eexists. split; [reflexivity|]. right. right. split; [reflexivity|].
    exists (h :: found), accepted, (HallucinationDetector._assess_risk (h :: found)).
    cbn [HallucinationDetector.hallucinations
         HallucinationDetector.verified_components
         HallucinationDetector.risk_assessment].
    split_and!; try reflexivity; try assumption.
    + simpl. lia.
    + unfold HallucinationDetector._assess_risk.
      destruct (3 <=? length (h :: found)); [reflexivity|]. reflexivity.
    + unfold HallucinationDetector._assess_risk.
      destruct (3 <=? length (h :: found)); reflexivity.
Qed.
End DetectorFacts.

(** ** Module names with dots *)

Lemma split_head sep first rest :
  Text.count sep first = 0 →
  head (Text.split sep (first +:+ String sep rest)) = Some first.
Proof.
  induction first as [|c first IH]; simpl.
  - intros _. now rewrite Ascii.eqb_refl.
  - destruct (Ascii.eqb c sep); simpl; [discriminate|].
    intros Hcount. specialize (IH Hcount).
    destruct (Text.split sep (first +:+ String sep rest)) as [|x xs];
      [discriminate|].
    simpl in IH. now inversion IH.
Qed.

Lemma base_module_dotted first rest :
  Text.count "."%char first = 0 →
  HallucinationDetector.base_module (first +:+ "." +:+ rest) = first.
Proof.
  intros Hcount. unfold HallucinationDetector.base_module.
  change (first +:+ "." +:+ rest) with (first +:+ String "."%char rest).
  now rewrite split_head.
Qed.

Lemma split_whole sep s : Text.count sep s = 0 → Text.split sep s = [s].
Proof.
  induction s as [|c s IH]; simpl; [reflexivity|].
  destruct (Ascii.eqb c sep); simpl; [discriminate|].
  intros Hcount. now rewrite IH.
Qed.

Lemma base_module_plain name :
  Text.count "."%char name = 0 → HallucinationDetector.base_module name = name.
Proof.
  intros Hcount. unfold HallucinationDetector.base_module.
  now rewrite split_whole.
Qed.

Section DottedNames.
Variable import_module : nat → string → HallucinationDetector.ImportOutcome.
Variable lower : string → string.
Variable find_similar_module : string → string.

(** X17: a dotted module name is judged by its first component alone.
    When that component is in [STDLIB_MODULES], or its lower-case form is in
    [KNOWN_THIRD_PARTY], the import is valid whatever follows the dot and
    whatever is installed: the import is not attempted. *)
Theorem dotted_import_is_judged_by_its_first_component
    (first rest : string) (n : nat) (line : Z) :
  Text.count "."%char first = 0 →
  HallucinationDetector._is_stdlib first = true
  ∨ HallucinationDetector._is_known_third_party lower first = true →
  ∃ result,
    HallucinationDetector._verify_import import_module lower find_similar_module n
      {| HallucinationDetector.import_module_name := first +:+ "." +:+ rest;
         HallucinationDetector.import_line := line |}
    = Ret result ∧
    HallucinationDetector.is_valid result = true ∧
    HallucinationDetector.issue result = None.
Proof.
  intros Hplain Hlisted.
  unfold HallucinationDetector._verify_import,
    HallucinationDetector._is_stdlib,
    HallucinationDetector._is_known_third_party in *.
  cbn [HallucinationDetector.import_module_name].
  rewrite base_module_dotted by exact Hplain.
  rewrite base_module_plain in Hlisted by exact Hplain.
  destruct (bool_decide (first ∈ HallucinationDetector.STDLIB_MODULES));
    [by eexists|].
  destruct Hlisted as [?|Hknown]; [discriminate|]. rewrite Hknown. by eexists.
Qed.
End DottedNames.

(** A submodule of [os] that does not exist, with nothing installed. *)
Lemma dotted_import_is_judged_by_its_first_component_witness :
  ∃ result,
    HallucinationDetector._verify_import Samples.nothing_installed
      Ascii_text.lower Samples.suggestion 0
      {| HallucinationDetector.import_module_name := "os.no_such_module";
         HallucinationDetector.import_line := 1%Z |}
    = Ret result ∧
    HallucinationDetector.is_valid result = true ∧
    HallucinationDetector.issue result = None.
Proof.
  apply (dotted_import_is_judged_by_its_first_component
           Samples.nothing_installed Ascii_text.lower Samples.suggestion
           "os" "no_such_module" 0 1%Z).
  - reflexivity.
  - left. vm_compute. reflexivity.
Defined.

(** A name that some entry of the first list walked resembles gets that
    entry, or another one that resembles it, as its suggestion. *)
Lemma find_similar_module_in_stdlib lower stdlib_order third_party_order name m :
  List.find (λ entry, String.eqb entry.1 (lower name))
    HallucinationDetector.alternatives = None →
  m ∈ stdlib_order →
  HallucinationDetector.similar_names lower name m = true →
  ∃ m', m' ∈ stdlib_order ∧
        HallucinationDetector.similar_names lower name m' = true ∧
        HallucinationDetector._find_similar_module lower stdlib_order
          third_party_order name
        = "Did you mean '" +:+ m' +:+ "' from standard library?".
Proof.
  intros Halt Hin Hsim. unfold HallucinationDetector._find_similar_module.
  cbv zeta. rewrite Halt.
  destruct (List.find (HallucinationDetector.similar_names lower name)
              stdlib_order) as [m'|] eqn:Hfind.
  - apply find_some in Hfind as [Hin' Hsim']. exists m'.
    split_and!; [now apply list_elem_of_In | exact Hsim' | reflexivity].
  - apply list_elem_of_In in Hin.
    rewrite (find_none _ _ Hfind m Hin) in Hsim. discriminate.
Qed.

(** X20: every entry of [STDLIB_MODULES] is recognised by [_is_stdlib],
    and every entry of [KNOWN_THIRD_PARTY] by [_is_known_third_party],
    except ['PIL']: the name looked up is put in lower case and the set is
    not, so with nothing installed [import PIL] is reported as a module that
    does not exist.  The suggestion of the report is what
    [_find_similar_module] answers for ['PIL']: in whatever order the sets
    are walked, a standard library module that resembles it. *)
Theorem listed_names_are_recognised_except_PIL :
  Forall (λ name, HallucinationDetector._is_stdlib name = true)
    HallucinationDetector.STDLIB_MODULES ∧
  Forall (λ name,
            HallucinationDetector._is_known_third_party Ascii_text.lower name
            = negb (String.eqb name "PIL"))
    HallucinationDetector.KNOWN_THIRD_PARTY ∧
  "PIL" ∈ HallucinationDetector.KNOWN_THIRD_PARTY ∧
  (∀ find_similar_module : string → string,
     detector_agent (Samples.parse Samples.expected_colon) Samples.imports_of
       Samples.nothing_installed Ascii_text.strip Ascii_text.lower
       find_similar_module 0 (PStr "import PIL")
     = Ret {| hr_status := Some "HALLUCINATION_DETECTED";
              hr_hallucinations :=
                Some [{| h_type := Some "Library";
                         h_referenced := Some "PIL";
                         h_issue :=
                           Some "Module 'PIL' does not exist or is not installed";
                         h_suggestion := Some (find_similar_module "PIL") |}] |}) ∧
  (∀ stdlib_order third_party_order,
     stdlib_order ≡ₚ HallucinationDetector.STDLIB_MODULES →
     ∃ m, m ∈ HallucinationDetector.STDLIB_MODULES ∧
          HallucinationDetector.similar_names Ascii_text.lower "PIL" m = true ∧
          HallucinationDetector._find_similar_module Ascii_text.lower
            stdlib_order third_party_order "PIL"
          = "Did you mean '" +:+ m +:+ "' from standard library?").
Proof.
  split_and!.
  - unfold HallucinationDetector.STDLIB_MODULES at 1.
    repeat (constructor; [vm_compute; reflexivity|]). constructor.
  - unfold HallucinationDetector.KNOWN_THIRD_PARTY at 1.
    repeat (constructor; [vm_compute; reflexivity|]). constructor.
  - unfold HallucinationDetector.KNOWN_THIRD_PARTY.
    repeat first [apply list_elem_of_here | apply list_elem_of_further].
  - intros find_similar_module. vm_compute. reflexivity.
  - intros stdlib_order third_party_order Horder.
    destruct (find_similar_module_in_stdlib Ascii_text.lower stdlib_order
                third_party_order "PIL" "os")
      as (m & Hin & Hsim & Hfound).
    + vm_compute. reflexivity.
    + rewrite Horder. unfold HallucinationDetector.STDLIB_MODULES.
      repeat first [apply list_elem_of_here | apply list_elem_of_further].
    + vm_compute. reflexivity.
    + exists m. rewrite Horder in Hin. now split_and!.
Qed.

(** ** Candidates the detector cannot verify *)

Section Rejecting.
Variable ag : Collaborators.

End Rejecting.

Section Unverifiable.
Variable E : Type.
Variable ast_parse : string → LocalAgents.ParseResult E.
Variable extract_imports : string → list HallucinationDetector.ImportEntry.
Variable import_module : nat → string → HallucinationDetector.ImportOutcome.
Variables strip lower : string → string.
Variable find_similar_module : string → string.


End Unverifiable.


(** * The checker inside the controller *)

(** A [def] line without its colon, as Python 3.10 reports it: no repair
    is tried. *)
Lemma checker_repairs_only_invalid_syntax_witness :
  Samples.checker Samples.expected_colon (PStr "def greet(name)") ""
  = Ret {| sr_status := Some "SYNTAX_ERROR";
           sr_errors :=
             Some [{| se_line := Some 1%Z;
                      se_issue := Some "expected ':'";
                      se_fix := Some "Review Python syntax for this line" |}];
           sr_corrected_code := Some PNone |}.
Proof.
  apply (checker_repairs_only_invalid_syntax
           (Samples.parse Samples.expected_colon)
           Ascii_text.strip Ascii_text.rstrip Ascii_text.lower
           "def greet(name)" "" Samples.expected_colon).
  - discriminate.
  - vm_compute. discriminate.
  - reflexivity.
  - left. vm_compute. reflexivity.
Defined.

(** The function [Samples.greeting] as Python 3.9 reports it: the colon
    is added and the repaired code is offered.  The lone [def] line gets no
    repair, since with its colon it still lacks a body. *)
Example checker_adds_the_colon :
  Samples.checker Samples.invalid_syntax (PStr Samples.greeting) ""
  = Ret {| sr_status := Some "SYNTAX_ERROR";
           sr_errors :=
             Some [{| se_line := Some 1%Z;
                      se_issue := Some "invalid syntax";
                      se_fix := Some "Add ':' at the end → def greet(name):" |}];
           sr_corrected_code :=
             Some (PStr ("def greet(name):" +:+ nl +:+ "    return name")) |} ∧
  Samples.checker Samples.invalid_syntax (PStr "def greet(name)") ""
  = Ret {| sr_status := Some "SYNTAX_ERROR";
           sr_errors :=
             Some [{| se_line := Some 1%Z;
                      se_issue := Some "invalid syntax";
                      se_fix := Some "Add ':' at the end → def greet(name):" |}];
           sr_corrected_code := Some PNone |}.
Proof. vm_compute. split; reflexivity. Qed.

Section RepairInTheLoop.
Variable ast_parse : string → LocalAgents.ParseResult SyntaxChecker.SyntaxError.
Variables strip rstrip lower : string → string.

(** X21: with the checker of the repository as validator, a correction
    that a pass of the syntax loop adopts is code the checker accepts: the
    pass makes no call of the generation service, the correction becomes the
    candidate, and [validate] returns ['SYNTAX_VALID'] for it, provided it is
    not blank.  The pass itself does not end the stage with success: only a
    later pass can, so a correction adopted in the last pass leaves the stage
    failed with a candidate that is valid. *)
Theorem adopted_correction_is_accepted_by_the_checker
    (ag : Collaborators) (attempt : nat) (r : Run)
    (res : SynResult) (corrected : string) :
  validate ag = (λ _, SyntaxChecker.validate ast_parse strip rstrip lower) →
  validate ag (length (syn_log (tr r))) (generated_code (artifacts (st r)))
    ("Generated for: " +:+ user_request (st r)) = Ret res →
  sr_corrected_code res = Some (PStr corrected) →
  corrected ≠ "" →
  strip corrected ≠ "" →
  let pass := syntax_attempt ag attempt r in
  pass.1 = Ret None ∧
  gen_log (tr pass.2) = gen_log (tr r) ∧
  generated_code (artifacts (st pass.2)) = PStr corrected ∧
  ∀ n context,
    validate ag n (PStr corrected) context
    = Ret {| sr_status := Some "SYNTAX_VALID"; sr_errors := None;
             sr_corrected_code := None |}.
Proof.
  intros Hag Hval Hcorr Hne Hblank pass. subst pass.
  assert (Hparse : ast_parse corrected = LocalAgents.Parsed ∧
                   sr_status res = Some "SYNTAX_ERROR").
  { rewrite Hag in Hval. revert Hval Hcorr.
    unfold SyntaxChecker.validate.
    destruct (negb (py_truthy _)); [intros H; inversion H; subst; discriminate|].
    destruct (generated_code (artifacts (st r))) as [| | |src| |];
      try discriminate.
    destruct (String.eqb (strip src) "");
      [intros H; inversion H; subst; discriminate|].
    destruct (ast_parse src) as [|e|other];
      [intros H; inversion H; subst; discriminate | |
       intros H; inversion H; subst; discriminate].
    destruct (SyntaxChecker._attempt_correction ast_parse rstrip src _)
      as [v|] eqn:Hv; [|discriminate].
    intros H Hc. inversion H; subst. simpl in Hc. inversion Hc; subst v.
    destruct (attempt_correction_parses _ _ _ _ _ Hv) as [?|(c & Hc' & Hp)];
      [discriminate|].
    inversion Hc'; subst c. auto. }
  destruct Hparse as [Hparse Hstatus].
  rewrite (syntax_attempt_adopts ag attempt r res "SYNTAX_ERROR" (PStr corrected));
    try assumption; try discriminate.
  2:{ simpl. now apply negb_true_iff, String.eqb_neq. }
  split_and!; try reflexivity.
  intros n context. rewrite Hag. unfold SyntaxChecker.validate.
  cbn [py_truthy]. apply String.eqb_neq in Hne, Hblank.
  rewrite Hne, Hblank. cbn [negb]. now rewrite Hparse.
Qed.
End RepairInTheLoop.

(** The third pass of a syntax stage repairs the candidate: the stage has
    failed, and the checker accepts the candidate it leaves. *)
Lemma adopted_correction_is_accepted_by_the_checker_witness :
  let ag := Samples.late_repair in
  let repaired := "def greet(name):" +:+ nl +:+ "    return name" in
  let r1 := (_run_code_generation ag (Scenarios.start "greet someone")).2 in
  let stage := _run_syntax_validation ag r1 in
  stage.1 = Ret false ∧
  generated_code (artifacts (st stage.2)) = PStr repaired ∧
  ∀ n context,
    validate ag n (PStr repaired) context
    = Ret {| sr_status := Some "SYNTAX_VALID"; sr_errors := None;
             sr_corrected_code := None |}.
Proof.
  intros ag repaired r1 stage.
  set (r2 := (syntax_attempt ag 2 (syntax_attempt ag 1
                {| st := set_current_stage Stage.SYNTAX_CHECK (st r1);
                   tr := tr r1 |}).2).2).
  destruct (adopted_correction_is_accepted_by_the_checker
              (Samples.parse Samples.invalid_syntax)
              Ascii_text.strip Ascii_text.rstrip Ascii_text.lower
              ag 3 r2
              {| sr_status := Some "SYNTAX_ERROR";
                 sr_errors :=
                   Some [{| se_line := Some 1%Z;
                            se_issue := Some "invalid syntax";
                            se_fix := Some "Add ':' at the end → def greet(name):" |}];
                 sr_corrected_code := Some (PStr repaired) |}
              repaired)
    as (_ & _ & _ & Hvalid).
  - reflexivity.
  - vm_compute. reflexivity.
  - reflexivity.
  - discriminate.
  - vm_compute. discriminate.
  - split_and!; [vm_compute; reflexivity | vm_compute; reflexivity | exact Hvalid].
Defined.

(** * The code generator *)

Lemma after_prefix_app p s : CodeGenerator.after_prefix p (p +:+ s) = Some s.
Proof.
  induction p as [|a p IH]; simpl; [now destruct s|].
  now rewrite Ascii.eqb_refl.
Qed.

Lemma until_fence_eq s :
  CodeGenerator.until_fence s
  = if String.prefix CodeGenerator.fence s then Some EmptyString
    else match s with
         | EmptyString => None
         | String c rest => String c <$> CodeGenerator.until_fence rest
         end.
Proof. destruct s; reflexivity. Qed.

Lemma first_block_eq opener response :
  CodeGenerator.first_block opener response
  = match CodeGenerator.after_prefix opener response
          ≫= CodeGenerator.until_fence with
    | Some code => Some code
    | None =>
        match response with
        | EmptyString => None
        | String _ rest => CodeGenerator.first_block opener rest
        end
    end.
Proof. destruct response; reflexivity. Qed.

Lemma prefix_app p s : String.prefix p (p +:+ s) = true.
Proof.
  induction p as [|a p IH]; simpl; [now destruct s|].
  destruct (ascii_dec a a); [exact IH | contradiction].
Qed.

Lemma prefix_other a p b s :
  a ≠ b → String.prefix (String a p) (String b s) = false.
Proof. intros Hne. simpl. destruct (ascii_dec a b); [contradiction|reflexivity]. Qed.

Lemma count_cons_0 c a s :
  Text.count c (String a s) = 0 → a ≠ c ∧ Text.count c s = 0.
Proof.
  simpl. destruct (Ascii.eqb_spec a c); simpl; [discriminate|]. auto.
Qed.

(** Text without a backquote holds no fence and no opener. *)
Lemma until_fence_plain code rest :
  Text.count "`"%char code = 0 →
  CodeGenerator.until_fence (code +:+ CodeGenerator.fence +:+ rest) = Some code.
Proof.
  induction code as [|c code IH]; intros Hcount.
  - change ("" +:+ CodeGenerator.fence +:+ rest)
      with (CodeGenerator.fence +:+ rest).
    now rewrite until_fence_eq, prefix_app.
  - apply count_cons_0 in Hcount as [Hc Hcount].
    change (String c code +:+ CodeGenerator.fence +:+ rest)
      with (String c (code +:+ CodeGenerator.fence +:+ rest)).
    rewrite until_fence_eq.
    unfold CodeGenerator.fence at 1. rewrite prefix_other by congruence.
    now rewrite IH.
Qed.

Lemma until_fence_none code :
  Text.count "`"%char code = 0 → CodeGenerator.until_fence code = None.
Proof.
  induction code as [|c code IH]; intros Hcount; [reflexivity|].
  apply count_cons_0 in Hcount as [Hc Hcount].
  rewrite until_fence_eq.
  unfold CodeGenerator.fence at 1. rewrite prefix_other by congruence.
  now rewrite IH.
Qed.

Lemma after_prefix_other a p b s :
  a ≠ b → CodeGenerator.after_prefix (String a p) (String b s) = None.
Proof.
  intros Hne. simpl. destruct (Ascii.eqb_spec a b); [contradiction|reflexivity].
Qed.

Lemma first_block_skips opener before rest :
  Text.count "`"%char before = 0 →
  CodeGenerator.first_block (String "`"%char opener) (before +:+ rest)
  = CodeGenerator.first_block (String "`"%char opener) rest.
Proof.
  induction before as [|c before IH]; intros Hcount; [reflexivity|].
  apply count_cons_0 in Hcount as [Hc Hcount].
  change (String c before +:+ rest) with (String c (before +:+ rest)).
  rewrite first_block_eq, after_prefix_other by congruence.
  simpl. now apply IH.
Qed.

Lemma first_block_plain opener s :
  Text.count "`"%char s = 0 →
  CodeGenerator.first_block (String "`"%char opener) s = None.
Proof.
  induction s as [|c s IH]; intros Hcount; [reflexivity|].
  apply count_cons_0 in Hcount as [Hc Hcount].
  rewrite first_block_eq, after_prefix_other by congruence.
  simpl. now apply IH.
Qed.

Lemma first_block_after opener before rest :
  (∃ tail, opener = String "`"%char tail) →
  Text.count "`"%char before = 0 →
  CodeGenerator.first_block opener (before +:+ rest)
  = CodeGenerator.first_block opener rest.
Proof. intros [tail ->]. apply first_block_skips. Qed.

Lemma first_block_none opener s :
  (∃ tail, opener = String "`"%char tail) →
  Text.count "`"%char s = 0 →
  CodeGenerator.first_block opener s = None.
Proof. intros [tail ->]. apply first_block_plain. Qed.

(** A block that is closed is found where it starts. *)
Lemma first_block_found opener before code after :
  (∃ tail, opener = String "`"%char tail) →
  Text.count "`"%char before = 0 →
  Text.count "`"%char code = 0 →
  CodeGenerator.first_block opener
    (before +:+ opener +:+ code +:+ CodeGenerator.fence +:+ after)
  = Some code.
Proof.
  intros Hopener Hbefore Hcode.
  rewrite first_block_after by assumption.
  rewrite first_block_eq, after_prefix_app. cbn [mbind option_bind].
  now rewrite until_fence_plain.
Qed.

Section GeneratorFacts.
Variable llm : nat → string → Outcome string.
Variable strip : string → string.
Variable py_str : pyval → string.

Abbreviation _extract_code_from_response :=
  (CodeGenerator._extract_code_from_response strip).
Abbreviation generate := (CodeGenerator.generate llm strip py_str).

(** X22: a response that holds the code between the fence the prompt
    asks for and a closing fence gives back that code, stripped, whatever
    follows the closing fence, when neither the code nor the text before the
    block has a backquote. *)
Theorem fenced_code_is_extracted (before code after : string) :
  Text.count "`"%char before = 0 →
  Text.count "`"%char code = 0 →
  _extract_code_from_response
    (before +:+ ("```python" +:+ nl) +:+ code +:+ "```" +:+ after)
  = strip code.
Proof.
  intros Hbefore Hcode. unfold CodeGenerator._extract_code_from_response.
  change "```" with CodeGenerator.fence.
  rewrite (first_block_found ("```python" +:+ nl) before code after);
    [reflexivity | by eexists | assumption | assumption].
Qed.

(** A block that is opened and never closed is not found. *)
Lemma unclosed_block_is_not_found before code :
  Text.count "`"%char before = 0 →
  Text.count "`"%char code = 0 →
  _extract_code_from_response (before +:+ ("```python" +:+ nl) +:+ code) = "".
Proof.
  intros Hbefore Hcode. unfold CodeGenerator._extract_code_from_response.
  assert (Hrest : Text.count "`"%char ("python" +:+ nl +:+ code) = 0)
    by exact Hcode.
  rewrite (first_block_after ("```python" +:+ nl) before)
    by (assumption || by eexists).
  change (("```python" +:+ nl) +:+ code)
    with (String "`"%char (String "`"%char (String "`"%char
            ("python" +:+ nl +:+ code)))).
  assert (Hpython :
    CodeGenerator.first_block ("```python" +:+ nl)
      (String "`"%char (String "`"%char (String "`"%char
         ("python" +:+ nl +:+ code)))) = None).
  { rewrite first_block_eq.
    change (CodeGenerator.after_prefix ("```python" +:+ nl)
              (String "`"%char (String "`"%char (String "`"%char
                 ("python" +:+ nl +:+ code)))))
      with (CodeGenerator.after_prefix ("```python" +:+ nl)
              (("```python" +:+ nl) +:+ code)).
    rewrite after_prefix_app. cbn [mbind option_bind].
    rewrite until_fence_none by exact Hcode.
    simpl. apply first_block_none; [by eexists | exact Hcode]. }
  rewrite Hpython.
  rewrite (first_block_after ("```" +:+ nl) before)
    by (assumption || by eexists).
  simpl. rewrite first_block_none; [reflexivity | by eexists | exact Hcode].
Qed.

(** X23: an answer cut off inside its code block (the block is opened
    and never closed, as when the answer reaches the limit of tokens) yields
    no code: [generate] returns the status ['error'] with the message ['No
    code block found in response'], so the controller counts a failed
    attempt. *)
Theorem unclosed_block_is_an_error
    (n : nat) (request_data : GenRequest) (before code : string) :
  Text.count "`"%char before = 0 →
  Text.count "`"%char code = 0 →
  llm n (CodeGenerator.prompt_of py_str request_data)
  = Ret (before +:+ ("```python" +:+ nl) +:+ code) →
  generate n request_data
  = Ret {| gr_status := Some "error"; gr_code := None;
           gr_error := Some "No code block found in response" |} ∧
  attempt_fails (generate n request_data) = true.
Proof.
  intros Hbefore Hcode Hllm. unfold CodeGenerator.generate.
  rewrite Hllm, unclosed_block_is_not_found by assumption.
  split; reflexivity.
Qed.

End GeneratorFacts.

(** An answer with a closed block. *)
Lemma fenced_code_is_extracted_witness :
  CodeGenerator._extract_code_from_response Ascii_text.strip
    Samples.complete_answer
  = "def add(a, b):" +:+ nl +:+ "    return a + b".
Proof.
  etransitivity.
  - apply (fenced_code_is_extracted Ascii_text.strip
             ("Here is the function:" +:+ nl +:+ nl)
             ("def add(a, b):" +:+ nl +:+ "    return a + b" +:+ nl)
             (nl +:+ "It adds two numbers.")); reflexivity.
  - vm_compute. reflexivity.
Defined.

(** The first answer of [Samples.model] is cut off. *)
Lemma unclosed_block_is_an_error_witness :
  Samples.generator 0 (first_request "add two numbers")
  = Ret {| gr_status := Some "error"; gr_code := None;
           gr_error := Some "No code block found in response" |}.
Proof.
  apply (unclosed_block_is_an_error Samples.model Ascii_text.strip
           Samples.show 0
           (first_request "add two numbers")
           ("Here is the function:" +:+ nl +:+ nl)
           ("def add(a, b):" +:+ nl +:+ "    return")); reflexivity.
Defined.

(** * Similar module names *)

Section SimilarFacts.
Context {Char : Type} `{EqDecision Char}.
Variable lower : list Char → list Char.

Lemma differences_sym (s1 s2 : list Char) :
  HallucinationDetector.differences s1 s2
  = HallucinationDetector.differences s2 s1.
Proof.
  revert s2. induction s1 as [|a s1 IH]; intros [|b s2]; simpl; try reflexivity.
  rewrite IH. repeat case_bool_decide; congruence.
Qed.

Lemma occurs_in_refl (s : list Char) : HallucinationDetector.occurs_in s s = true.
Proof.
  destruct s; simpl; rewrite ?bool_decide_eq_true_2 by reflexivity; reflexivity.
Qed.

(** X19: [_is_similar] does not depend on the order of its two
    arguments, and with the threshold 2 that the detector uses every name is
    similar to itself.  Names whose lengths, once in lower case, differ by
    more than the threshold are never similar. *)
Theorem similarity_is_symmetric (s1 s2 : list Char) (threshold : Z) :
  HallucinationDetector._is_similar lower s1 s2 threshold
  = HallucinationDetector._is_similar lower s2 s1 threshold ∧
  HallucinationDetector._is_similar lower s1 s1 2 = true ∧
  (if (threshold <? Z.abs (Z.of_nat (length (lower s1))
                           - Z.of_nat (length (lower s2))))%Z
   then HallucinationDetector._is_similar lower s1 s2 threshold = false
   else True).
Proof.
  unfold HallucinationDetector._is_similar. split_and!.
  - replace (Z.abs (Z.of_nat (length (lower s2)) - Z.of_nat (length (lower s1))))
      with (Z.abs (Z.of_nat (length (lower s1)) - Z.of_nat (length (lower s2))))
      by lia.
    rewrite (orb_comm (HallucinationDetector.occurs_in (lower s2) (lower s1))).
    now rewrite (differences_sym (lower s2)).
  - rewrite Z.sub_diag. simpl. now rewrite occurs_in_refl.
  - destruct (_ <? _)%Z; [reflexivity | exact I].
Qed.
End SimilarFacts.

(** * The controller with the detector of the repository *)

Section WithTheDetector.
Variable E : Type.
Variable ast_parse : string → LocalAgents.ParseResult E.
Variable extract_imports : string → list HallucinationDetector.ImportEntry.
Variable import_module : nat → string → HallucinationDetector.ImportOutcome.
Variables strip lower : string → string.
Variable find_similar_module : string → string.

(** A loop that ends without hallucination has found every import
    valid. *)
Lemma verify_imports_clean n imports :
  ∀ hallucinations verified verified',
    HallucinationDetector.verify_imports import_module lower
      find_similar_module n imports hallucinations verified
    = Ret ([], verified') →
    Forall (λ imp, ∃ verdict,
              HallucinationDetector._verify_import import_module lower
                find_similar_module n imp = Ret verdict ∧
              HallucinationDetector.is_valid verdict = true) imports.
Proof.
  induction imports as [|imp imports IH]; intros hallucinations verified verified';
    [constructor|].
  simpl.
  destruct (HallucinationDetector._verify_import _ _ _ n imp)
    as [verdict|e] eqn:Hverdict; [|discriminate].
  destruct (HallucinationDetector.is_valid verdict) eqn:Hvalid; intros Hloop.
  - constructor; [eauto | eapply IH, Hloop].
  - destruct (verify_imports_sorts _ _ _ _ _ _ _ _ _ Hloop)
      as (found & accepted & Hfound & _).
    destruct hallucinations; discriminate.
Qed.

(** What the status ['VERIFIED'] of the detector means. *)
Lemma detector_verified n code res :
  detector_agent ast_parse extract_imports import_module strip lower
    find_similar_module n code = Ret res →
  hr_status res = Some "VERIFIED" →
  ∃ src,
    code = PStr src ∧ src ≠ "" ∧ strip src ≠ "" ∧
    ast_parse src = LocalAgents.Parsed ∧
    Forall (λ imp, ∃ verdict,
              HallucinationDetector._verify_import import_module lower
                find_similar_module n imp = Ret verdict ∧
              HallucinationDetector.is_valid verdict = true)
      (extract_imports src).
Proof.
  unfold detector_agent, HallucinationDetector.verify.
  destruct (negb (py_truthy code)) eqn:Htruthy;
    [intros H Hs; inversion H; subst; discriminate|].
  destruct code as [| | |src| |]; try discriminate.
  destruct (String.eqb_spec (strip src) "") as [|Hblank];
    [intros H Hs; inversion H; subst; discriminate|].
  destruct (ast_parse src) eqn:Hparse;
    [|intros H Hs; inversion H; subst; discriminate ..].
  destruct (HallucinationDetector.verify_imports _ _ _ n _ [] [])
    as [[found accepted]|e] eqn:Hloop;
    [|intros H Hs; inversion H; subst; discriminate].
  destruct found as [|h found];
    [|intros H Hs; inversion H; subst; discriminate].
  intros _ _. exists src. split_and!; try done.
  - intros ->. discriminate.
  - eapply verify_imports_clean, Hloop.
Qed.

(** X25: with the detector of the repository as verifier, and whatever
    the three other agents do, the code of a success payload is a string that
    is neither empty nor blank, that [ast.parse] accepts, and every import of
    which the detector found valid in one of its calls. *)
Theorem success_returns_code_the_detector_parsed
    (rid created now req : string) (self : Orchestrator.t) (resp : pyval) :
  verify (agents self)
  = detector_agent ast_parse extract_imports import_module strip lower
      find_similar_module →
  (generate_code rid created now req self).1 = Ret resp →
  payload_status resp = Some "success" →
  ∃ src n,
    py_lookup "code" resp = Some (PStr src) ∧
    src ≠ "" ∧ strip src ≠ "" ∧
    ast_parse src = LocalAgents.Parsed ∧
    Forall (λ imp, ∃ verdict,
              HallucinationDetector._verify_import import_module lower
                find_similar_module n imp = Ret verdict ∧
              HallucinationDetector.is_valid verdict = true)
      (extract_imports src).
Proof.
  intros Hag Hout Hstatus.
  destruct (generate_code_unfold rid created now req self)
    as (resp' & r1 & Hrun & Hout' & _ & Hpost).
  rewrite Hout in Hout'. inversion Hout'; subst resp'. clear Hout'.
  destruct (run_pipeline_verified _ _ _ _ _ _ I Hrun Hstatus)
    as [(n & res & Hver & Hres) _].
  rewrite Hag in Hver.
  destruct (detector_verified _ _ _ Hver Hres) as (src & Hcode & Hrest).
  exists src, n. split; [|exact Hrest].
  destruct Hpost as [Hfail | [Hok _]].
  - apply compile_failure_status in Hfail. congruence.
  - rewrite (compile_success_code _ _ _ _ Hok). now rewrite Hcode.
Qed.
End WithTheDetector.

(** A run of [Samples.three_candidates]: the third candidate is the one
    returned. *)
Lemma success_returns_code_the_detector_parsed_witness :
  ∃ src,
    py_lookup "code"
      (match (generate_code "req-1" "t0" "t1" "add two numbers"
                (init Samples.three_candidates true)).1 with
       | Ret resp => resp
       | Raise _ => PNone
       end) = Some (PStr src) ∧
    Samples.parse Samples.expected_colon src = LocalAgents.Parsed.
Proof.
  destruct (success_returns_code_the_detector_parsed
              SyntaxChecker.SyntaxError (Samples.parse Samples.expected_colon)
              Samples.imports_of Samples.nothing_installed
              Ascii_text.strip Ascii_text.lower Samples.suggestion
              "req-1" "t0" "t1" "add two numbers"
              (init Samples.three_candidates true)
              (match (generate_code "req-1" "t0" "t1" "add two numbers"
                        (init Samples.three_candidates true)).1 with
               | Ret resp => resp
               | Raise _ => PNone
               end))
    as (src & n & Hcode & _ & _ & Hparse & _).
  - reflexivity.
  - vm_compute. reflexivity.
  - vm_compute. reflexivity.
  - exists src. split; [exact Hcode | exact Hparse].
Defined.

(** * The attempt counters over a request *)






Section CountersOfARequest.
Variable ag : Collaborators.








End CountersOfARequest.



(** * Adopting a correction of the validator *)

Section Adoption.
Variable ag : Collaborators.


End Adoption.




(** * The controller with its console *)

(** ** Running a sequence whose first part is known *)

Lemma L_bind_eq {A B} (l : Verbose.L A) (k : A → Verbose.L B) w a w' :
  l w = (Verbose.Returned a, w') → (l ≫= k) w = k a w'.
Proof. intros H. unfold mbind, Verbose.L_bind. now rewrite H. Qed.

Lemma L_bind_raised {A B} (l : Verbose.L A) (k : A → Verbose.L B) w e w' :
  l w = (Verbose.Raised e, w') → (l ≫= k) w = (Verbose.Raised e, w').
Proof. intros H. unfold mbind, Verbose.L_bind. now rewrite H. Qed.



Lemma L_try_passed {A} (l : Verbose.L A) h w e w' :
  l w = (Verbose.Raised (Verbose.BaseException e), w') →
  Verbose.try_except l h w = (Verbose.Raised (Verbose.BaseException e), w').
Proof. intros H. unfold Verbose.try_except. now rewrite H. Qed.

Lemma of_to_outcome {A} (o : Verbose.Result A) :
  Verbose.is_catchable o → Verbose.of_outcome (Verbose.to_outcome o) = o.
Proof. destruct o as [a|[text|text]]; simpl; [reflexivity | reflexivity | tauto]. Qed.

(** ** The first part is the controller on a console that never fails *)

Section Refinement.
Variable ag : Verbose.Agents.
Variables enable verbose : bool.
Variable print : nat → string → Verbose.Result unit.
Variable py_str : pyval → string.
Hypothesis printing : verbose = false ∨ ∀ n line, print n line = Verbose.Returned tt.
Hypothesis faults : Verbose.only_exceptions ag.

Abbreviation _log := (Verbose._log verbose print).

Lemma log_run message level w :
  ∃ out, _log message level w
         = (Verbose.Returned tt, {| Verbose.run := Verbose.run w;
                                    Verbose.out_log := out |}).
Proof.
  unfold Verbose._log. destruct printing as [->|Hprint].
  - exists (Verbose.out_log w). now destruct w.
  - destruct verbose; [|exists (Verbose.out_log w); now destruct w].
    rewrite Hprint. eauto.
Qed.

Lemma refines_ret {A} (a : A) : Verbose.refines (mret a) (mret a).
Proof. intros w. split; reflexivity. Qed.

Lemma refines_run_M {A} (m : M A) : Verbose.refines (Verbose.run_M m) m.
Proof. intros w. unfold Verbose.run_M. destruct (m (Verbose.run w)). split; reflexivity. Qed.

Lemma refines_bind {A B} (l : Verbose.L A) (m : M A)
    (k : A → Verbose.L B) (k' : A → M B) :
  Verbose.refines l m → (∀ a, Verbose.refines (k a) (k' a)) →
  Verbose.refines (l ≫= k) (m ≫= k').
Proof.
  intros Hl Hk w. destruct (Hl w) as [Hout Hrun].
  unfold mbind, Verbose.L_bind, M_bind.
  destruct (l w) as [o w1], (m (Verbose.run w)) as [o' r1]. simpl in *. subst r1.
  destruct o' as [a|e]; simpl in Hout; subst o; [apply Hk | split; reflexivity].
Qed.

Lemma refines_log (message level : string) :
  Verbose.refines (_log message level) (mret tt).
Proof.
  intros w. destruct (log_run message level w) as [out ->]. split; reflexivity.
Qed.

(** A line logged first changes nothing. *)
Lemma refines_log_skip {A} (message level : string) (l : Verbose.L A) (m : M A) :
  Verbose.refines l m → Verbose.refines (_log message level;; l) m.
Proof.
  intros Hl w. destruct (log_run message level w) as [out Hlog].
  rewrite (L_bind_eq _ _ _ _ _ Hlog). apply (Hl {| Verbose.run := _ |}).
Qed.

Lemma refines_try {A} (l : Verbose.L A) (m : M A) h h' :
  Verbose.refines l m → (∀ e, Verbose.refines (h e) (h' e)) →
  Verbose.refines (Verbose.try_except l h) (try_except m h').
Proof.
  intros Hl Hh w. destruct (Hl w) as [Hout Hrun].
  unfold Verbose.try_except, try_except.
  destruct (l w) as [o w1], (m (Verbose.run w)) as [o' r1]. simpl in *. subst r1.
  destruct o' as [a|e]; simpl in Hout; subst o; [split; reflexivity | apply Hh].
Qed.

Lemma refines_for_each {A B} (xs : list A)
    (body : A → Verbose.L (option B)) (body' : A → M (option B)) :
  (∀ x, Verbose.refines (body x) (body' x)) →
  Verbose.refines (Verbose.for_each xs body) (for_each xs body').
Proof.
  intros Hbody. induction xs as [|x xs IH]; simpl.
  - apply refines_ret.
  - apply refines_bind; [apply Hbody|].
    intros [v|]; [apply refines_ret | exact IH].
Qed.

Abbreviation old := (Verbose.to_collaborators ag).

Lemma refines_call_generate req :
  Verbose.refines (Verbose.call_generate ag req) (call_generate old req).
Proof.
  intros w. destruct faults as (H & _). split; [|reflexivity].
  simpl. symmetry. apply of_to_outcome, H.
Qed.

Lemma refines_call_validate code context :
  Verbose.refines (Verbose.call_validate ag code context)
                  (call_validate old code context).
Proof.
  intros w. destruct faults as (_ & H & _). split; [|reflexivity].
  simpl. symmetry. apply of_to_outcome, H.
Qed.

Lemma refines_call_verify code :
  Verbose.refines (Verbose.call_verify ag code) (call_verify old code).
Proof.
  intros w. destruct faults as (_ & _ & H & _). split; [|reflexivity].
  simpl. symmetry. apply of_to_outcome, H.
Qed.

Lemma refines_call_review code requirements :
  Verbose.refines (Verbose.call_review ag code requirements)
                  (call_review old code requirements).
Proof.
  intros w. destruct faults as (_ & _ & _ & H). split; [|reflexivity].
  simpl. symmetry. apply of_to_outcome, H.
Qed.

Ltac refines_with leaf :=
  lazymatch goal with
  | |- Verbose.refines (mret _) _ => apply refines_ret
  | |- Verbose.refines (Verbose.run_M _) _ => apply refines_run_M
  | |- Verbose.refines (Verbose._log _ _ _ _) _ => apply refines_log
  | |- Verbose.refines (mbind _ (Verbose._log _ _ _ _)) _ =>
      apply refines_log_skip; refines_with leaf
  | |- Verbose.refines (Verbose.call_generate _ _) _ => apply refines_call_generate
  | |- Verbose.refines (Verbose.call_validate _ _ _) _ => apply refines_call_validate
  | |- Verbose.refines (Verbose.call_verify _ _) _ => apply refines_call_verify
  | |- Verbose.refines (Verbose.call_review _ _ _) _ => apply refines_call_review
  | |- Verbose.refines (mbind _ _) _ =>
      apply refines_bind; [refines_with leaf | intros ?; refines_with leaf]
  | |- Verbose.refines (Verbose.try_except _ _) _ =>
      apply refines_try; [refines_with leaf | intros ?; refines_with leaf]
  | |- Verbose.refines (Verbose.for_each _ _) _ =>
      apply refines_for_each; intros ?; refines_with leaf
  | |- Verbose.refines (if ?b then _ else _) _ => destruct b; refines_with leaf
  | |- Verbose.refines (match ?x with _ => _ end) _ => destruct x; refines_with leaf
  | |- _ => leaf
  end.

Lemma generation_attempt_refines attempt :
  Verbose.refines (Verbose.generation_attempt ag verbose print attempt)
                  (generation_attempt old attempt).
Proof.
  unfold Verbose.generation_attempt, generation_attempt. refines_with fail.
Qed.

Lemma run_code_generation_refines :
  Verbose.refines (Verbose._run_code_generation ag verbose print)
                  (_run_code_generation old).
Proof.
  unfold Verbose._run_code_generation, _run_code_generation.
  refines_with ltac:(apply generation_attempt_refines).
Qed.

Lemma syntax_attempt_refines attempt :
  Verbose.refines (Verbose.syntax_attempt ag verbose print attempt)
                  (syntax_attempt old attempt).
Proof.
  unfold Verbose.syntax_attempt, syntax_attempt.
  refines_with ltac:(apply run_code_generation_refines).
Qed.

Lemma run_syntax_validation_refines :
  Verbose.refines (Verbose._run_syntax_validation ag verbose print)
                  (_run_syntax_validation old).
Proof.
  unfold Verbose._run_syntax_validation, _run_syntax_validation.
  refines_with ltac:(apply syntax_attempt_refines).
Qed.

Lemma hallucination_attempt_refines attempt :
  Verbose.refines (Verbose.hallucination_attempt ag verbose print attempt)
                  (hallucination_attempt old attempt).
Proof.
  unfold Verbose.hallucination_attempt, hallucination_attempt.
  refines_with ltac:(apply run_code_generation_refines).
Qed.

Lemma run_hallucination_detection_refines :
  Verbose.refines (Verbose._run_hallucination_detection ag verbose print)
                  (_run_hallucination_detection old).
Proof.
  unfold Verbose._run_hallucination_detection, _run_hallucination_detection.
  refines_with ltac:(apply hallucination_attempt_refines).
Qed.

Lemma run_code_review_refines :
  Verbose.refines (Verbose._run_code_review ag verbose print py_str)
                  (_run_code_review old).
Proof.
  unfold Verbose._run_code_review, _run_code_review, review_error_record.
  refines_with fail.
Qed.

Lemma run_pipeline_refines now :
  Verbose.refines (Verbose.run_pipeline ag enable verbose print py_str now)
                  (run_pipeline old enable now).
Proof.
  unfold Verbose.run_pipeline, Verbose.try_block, Verbose.handler, run_pipeline.
  refines_with ltac:(first
    [ apply run_code_generation_refines
    | apply run_syntax_validation_refines
    | apply run_hallucination_detection_refines
    | apply run_code_review_refines ]).
Qed.

Lemma announced_pipeline_refines rid req now :
  Verbose.refines
    (Verbose.announce verbose print rid req;;
     Verbose.run_pipeline ag enable verbose print py_str now)
    (run_pipeline old enable now).
Proof.
  intros w.
  destruct (log_run ("Starting new request: " +:+ rid) "INFO" w) as [out1 H1].
  match type of H1 with _ = (_, ?w1) =>
    destruct (log_run ("User request: " +:+ req) "INFO" w1) as [out2 H2]
  end.
  match type of H2 with _ = (_, ?w2) =>
    assert (Ha : Verbose.announce verbose print rid req w
                 = (Verbose.Returned tt, w2))
      by (unfold Verbose.announce; rewrite (L_bind_eq _ _ _ _ _ H1); exact H2);
    rewrite (L_bind_eq _ _ _ _ _ Ha);
    exact (run_pipeline_refines now w2)
  end.
Qed.
End Refinement.

(** With a console that never fails and agents that raise nothing but
    instances of [Exception], [generate_code] returns, stores and calls
    what it does in the first part. *)
Lemma generate_code_refines py_str rid created now req (self : Verbose.t) :
  Verbose.quiet self → Verbose.only_exceptions (Verbose.agents self) →
  let new := Verbose.generate_code py_str rid created now req self in
  let old := generate_code rid created now req (Verbose.without_console self) in
  new.1 = Verbose.of_outcome old.1 ∧
  Verbose.without_console new.2 = old.2 ∧
  Verbose.verbose new.2 = Verbose.verbose self ∧
  Verbose.print new.2 = Verbose.print self ∧
  Verbose.agents new.2 = Verbose.agents self.
Proof.
  intros Hquiet Hfaults new old. subst new old.
  unfold Verbose.generate_code, generate_code.
  set (w0 := {| Verbose.run := {| st := new_state rid created req;
                                  tr := Verbose.calls self |};
                Verbose.out_log := Verbose.printed self |}).
  destruct (announced_pipeline_refines (Verbose.agents self)
              (Verbose.enable_code_review self) (Verbose.verbose self)
              (Verbose.print self) py_str Hquiet Hfaults rid req now w0)
    as [Hout Hrun].
  cbn [Verbose.run w0] in Hout, Hrun.
  change (agents (Verbose.without_console self))
    with (Verbose.to_collaborators (Verbose.agents self)).
  change (enable_code_review (Verbose.without_console self))
    with (Verbose.enable_code_review self).
  change (calls (Verbose.without_console self)) with (Verbose.calls self).
  destruct ((Verbose.announce _ _ _ _ ≫= _) w0) as [o w'].
  destruct (run_pipeline _ _ _ _) as [o' r']. simpl in *. subst r'.
  split_and!; try reflexivity. exact Hout.
Qed.

(** ** What can leave a stage *)

Lemma of_outcome_catchable {A} (o : Outcome A) :
  Verbose.is_catchable (Verbose.of_outcome o).
Proof. destruct o; exact I. Qed.

Lemma of_collaborators_only_exceptions (ag : Collaborators) :
  Verbose.only_exceptions (Verbose.of_collaborators ag).
Proof. split_and!; intros; apply of_outcome_catchable. Qed.

Section Catchable.
Variable ag : Verbose.Agents.
Variables enable verbose : bool.
Variable print : nat → string → Verbose.Result unit.
Variable py_str : pyval → string.
Hypothesis faults : Verbose.only_exceptions ag.
Hypothesis stream : ∀ n line, Verbose.is_catchable (print n line).












End Catchable.

(** ** What the pipeline returns *)

Section Yields.
Variable ag : Verbose.Agents.
Variables enable verbose : bool.
Variable print : nat → string → Verbose.Result unit.
Variable py_str : pyval → string.

Lemma yields_bind {A B} (Q : B → Prop) (l : Verbose.L A) (k : A → Verbose.L B) :
  (∀ a, Verbose.yields Q (k a)) → Verbose.yields Q (l ≫= k).
Proof.
  intros Hk w b w'. unfold mbind, Verbose.L_bind.
  destruct (l w) as [[a|e] w1]; [apply Hk | discriminate].
Qed.

Lemma yields_failure now :
  Verbose.yields payload_shaped (Verbose.run_M (_compile_failure_response now)).
Proof.
  intros w resp w'. unfold Verbose.run_M.
  destruct (_compile_failure_response now (Verbose.run w)) as [[resp'|e] r] eqn:E;
    [|discriminate].
  intros H. inversion H; subst. right. eapply compile_failure_payload, E.
Qed.



(** So does its handler. *)
Lemma handler_yields now e :
  Verbose.yields payload_shaped (Verbose.handler verbose print now e).
Proof.
  unfold Verbose.handler.
  repeat first [ apply yields_failure | apply yields_bind; intros ? ].
Qed.
End Yields.

(** A line that is printed, or not logged at all. *)
Lemma log_returns verbose print message level w o w' :
  Verbose._log verbose print message level w = (o, w') →
  Verbose.run w' = Verbose.run w.
Proof.
  unfold Verbose._log. destruct verbose; intros H; inversion H; reflexivity.
Qed.

(** Once its line is logged the handler returns the failure payload. *)
Lemma handler_returns verbose print now e w :
  (Verbose._log verbose print ("Unexpected error: " +:+ e) "ERROR" w).1
  = Verbose.Returned tt →
  ∃ resp w',
    Verbose.handler verbose print now e w = (Verbose.Returned resp, w') ∧
    is_failure_payload resp = true ∧
    py_lookup2 "metadata" "failed_at_stage" resp = Some (PStr "failed") ∧
    status (st (Verbose.run w')) = Status.FAILED ∧
    artifacts (st (Verbose.run w')) = artifacts (st (Verbose.run w)) ∧
    tr (Verbose.run w') = tr (Verbose.run w).
Proof.
  intros Hlog. unfold Verbose.handler.
  destruct (Verbose._log verbose print _ "ERROR" w) as [o w1] eqn:E.
  simpl in Hlog. subst o. pose proof (log_returns _ _ _ _ _ _ _ E) as Hrun.
  rewrite (L_bind_eq _ _ _ _ _ E).
  eexists _, _. split; [reflexivity|]. simpl. rewrite Hrun.
  split_and!; reflexivity.
Qed.



(** ** A fault of the review service *)

Section ReviewFault.
Variable ag : Verbose.Agents.
Variable verbose : bool.
Variable print : nat → string → Verbose.Result unit.
Variable py_str : pyval → string.

End ReviewFault.








(** * Further properties of the controller, with its console *)

Section WithoutDisturbance.
Variable py_str : pyval → string.
Variables rid created now req : string.
Variable self : Verbose.t.
Hypothesis printing : Verbose.quiet self.
Hypothesis faults : Verbose.only_exceptions (Verbose.agents self).

Abbreviation new_run := (Verbose.generate_code py_str rid created now req self).
Abbreviation old_run :=
  (generate_code rid created now req (Verbose.without_console self)).

Lemma refined_outcome resp :
  old_run.1 = Ret resp → new_run.1 = Verbose.Returned resp.
Proof.
  intros H.
  destruct (generate_code_refines py_str rid created now req self printing faults)
    as (Hout & _).
  cbv zeta in Hout. rewrite Hout, H. reflexivity.
Qed.

Lemma refined_calls : Verbose.calls new_run.2 = calls old_run.2.
Proof.
  destruct (generate_code_refines py_str rid created now req self printing faults)
    as (_ & Hself & _).
  cbv zeta in Hself. rewrite <- Hself. reflexivity.
Qed.

Lemma refined_states : Verbose.states new_run.2 = states old_run.2.
Proof.
  destruct (generate_code_refines py_str rid created now req self printing faults)
    as (_ & Hself & _).
  cbv zeta in Hself. rewrite <- Hself. reflexivity.
Qed.
End WithoutDisturbance.

(** X3: when no line fails to print and the agents raise nothing but
    instances of [Exception], one request calls the review service at most
    once, and only when review is enabled and the request ends with the
    success payload; the call is made with the code that payload returns and
    with the user's request.  A failed request, or one with review disabled,
    makes no call. *)
Theorem review_is_called_once_on_success
    (py_str : pyval → string) (rid created now req : string) (self : Verbose.t) :
  Verbose.quiet self →
  Verbose.only_exceptions (Verbose.agents self) →
  let run := Verbose.generate_code py_str rid created now req self in
  ∃ resp,
    run.1 = Verbose.Returned resp ∧
    rev_log (Verbose.calls run.2)
    = (rev_log (Verbose.calls self) ++
         if Verbose.enable_code_review self && is_success resp
         then [(default PNone (py_lookup "code" resp), req)]
         else [])%list.
Proof.
  intros Hquiet Hfaults run. subst run.
  destruct (review_is_called_once_without_console rid created now req
              (Verbose.without_console self)) as (resp & Hout & Hlog).
  exists resp. split.
  - now apply refined_outcome.
  - rewrite refined_calls by assumption. exact Hlog.
Qed.

(** A request that succeeds, with every line printed. *)
Lemma review_is_called_once_on_success_witness :
  let run := Verbose.generate_code Consoles.show "req-1" "t0" "t1"
               "add two numbers"
               (Consoles.fresh (Verbose.of_collaborators Scenarios.happy)
                  true true Consoles.working) in
  rev_log (Verbose.calls run.2) = [(PStr "import os", "add two numbers")].
Proof.
  intros run.
  destruct (review_is_called_once_on_success Consoles.show "req-1" "t0" "t1"
              "add two numbers"
              (Consoles.fresh (Verbose.of_collaborators Scenarios.happy)
                 true true Consoles.working))
    as (resp & Hout & Hlog).
  - right. reflexivity.
  - apply of_collaborators_only_exceptions.
  - subst run. rewrite Hlog. vm_compute in Hout. inversion Hout; subst resp.
    vm_compute. reflexivity.
Defined.

(** X5: when no line fails to print and the agents raise nothing but
    instances of [Exception], the state stored for a request never has the
    status [FAILED] nor the stage [FAILED]: no exception reaches the handler
    of [generate_code].  A request that ends with a success payload is stored
    as completed; one that ends with a failure payload keeps the status
    [IN_PROGRESS], and its [failed_at_stage] is the value of the stage it was
    left in, one of [code_generation], [syntax_check] and
    [hallucination_check].  [get_state] shows that state. *)
Theorem failed_request_stays_in_progress
    (py_str : pyval → string) (rid created now req : string) (self : Verbose.t) :
  Verbose.quiet self →
  Verbose.only_exceptions (Verbose.agents self) →
  let run := Verbose.generate_code py_str rid created now req self in
  ∃ resp s,
    run.1 = Verbose.Returned resp ∧
    (Verbose.get_state rid run.2).1 = Some (to_dict s) ∧
    status s ≠ Status.FAILED ∧
    current_stage s ≠ Stage.FAILED ∧
    ((payload_status resp = Some "success" ∧
      sd_status (to_dict s) = "completed" ∧
      sd_current_stage (to_dict s) = "completed") ∨
     (payload_status resp = Some "failed" ∧
      sd_status (to_dict s) = "in_progress" ∧
      sd_current_stage (to_dict s)
        ∈ ["code_generation"; "syntax_check"; "hallucination_check"] ∧
      py_lookup2 "metadata" "failed_at_stage" resp
      = Some (PStr (sd_current_stage (to_dict s))))).
Proof.
  intros Hquiet Hfaults run. subst run.
  destruct (failed_request_stays_in_progress_without_console rid created now req
              (Verbose.without_console self))
    as (resp & s & Hout & Hstate & Hrest).
  exists resp, s. split; [now apply refined_outcome|]. split; [|exact Hrest].
  unfold Verbose.get_state. rewrite refined_states by assumption.
  unfold get_state in Hstate.
  destruct (states _ !! rid); [exact Hstate | discriminate].
Qed.

(** A generation service that always answers with an error, with every
    line printed. *)
Lemma failed_request_stays_in_progress_witness :
  let run := Verbose.generate_code Consoles.show "req-1" "t0" "t1"
               "add two numbers"
               (Consoles.fresh (Verbose.of_collaborators Behaviours.never_generates)
                  true true Consoles.working) in
  ∃ resp s,
    run.1 = Verbose.Returned resp ∧
    (Verbose.get_state "req-1" run.2).1 = Some (to_dict s) ∧
    status s ≠ Status.FAILED ∧
    current_stage s ≠ Stage.FAILED.
Proof.
  intros run.
  destruct (failed_request_stays_in_progress Consoles.show "req-1" "t0" "t1"
              "add two numbers"
              (Consoles.fresh (Verbose.of_collaborators Behaviours.never_generates)
                 true true Consoles.working))
    as (resp & s & Hout & Hstate & Hstatus & Hstage & _).
  - right. reflexivity.
  - apply of_collaborators_only_exceptions.
  - exists resp, s. now split_and!.
Defined.

(** X6: when no line fails to print and the generation service fails on
    every call (it raises an [Exception], or returns a status other than
    ['success'], or a result without the key read), the request makes exactly
    three calls and no call of any other agent; the payload is the failure
    payload with [failed_at_stage] = ['code_generation'],
    [generation_attempts] = 3, [total_attempts] = 3, [last_attempt] = [None]
    and the three entries the attempts appended as [errors].  The first
    request carries no feedback; the second and third carry the entry of the
    attempt before as [feedback] and [None] as [previous_attempt]. *)
Theorem generation_exhaustion_fails_the_request
    (py_str : pyval → string) (rid created now req : string) (self : Verbose.t) :
  Verbose.quiet self →
  Verbose.only_exceptions (Verbose.agents self) →
  (∀ n q, attempt_fails
            (Verbose.to_outcome
               (Verbose.code_generator (Verbose.agents self) n q)) = true) →
  let run := Verbose.generate_code py_str rid created now req self in
  ∃ resp m1 m2 m3 c1 c2 c3,
    run.1 = Verbose.Returned resp ∧
    payload_status resp = Some "failed" ∧
    py_lookup2 "metadata" "failed_at_stage" resp
    = Some (PStr "code_generation") ∧
    py_lookup2 "metadata" "generation_attempts" resp = Some (PInt 3) ∧
    py_lookup2 "metadata" "total_attempts" resp = Some (PInt 3) ∧
    py_lookup "last_attempt" resp = Some PNone ∧
    py_lookup "errors" resp = Some (PList [PStr m1; PStr m2; PStr m3]) ∧
    Verbose.calls run.2
    = {| gen_log := gen_log (Verbose.calls self) ++ [c1; c2; c3];
         syn_log := syn_log (Verbose.calls self);
         hal_log := hal_log (Verbose.calls self);
         rev_log := rev_log (Verbose.calls self) |} ∧
    gc_request c1 = first_request req ∧
    (gq_feedback (gc_request c2) = Some m1 ∧
     gq_previous_attempt (gc_request c2) = Some PNone) ∧
    (gq_feedback (gc_request c3) = Some m2 ∧
     gq_previous_attempt (gc_request c3) = Some PNone).
Proof.
  intros Hquiet Hfaults Hnever run. subst run.
  destruct (generation_exhaustion_without_console rid created now req
              (Verbose.without_console self) Hnever)
    as (resp & m1 & m2 & m3 & c1 & c2 & c3 & Hout & Hrest).
  exists resp, m1, m2, m3, c1, c2, c3.
  split; [now apply refined_outcome|].
  rewrite refined_calls by assumption. exact Hrest.
Qed.

(** A generation service that always answers with an error, with every
    line printed. *)
Lemma generation_exhaustion_fails_the_request_witness :
  let run := Verbose.generate_code Consoles.show "req-1" "t0" "t1"
               "add two numbers"
               (Consoles.fresh (Verbose.of_collaborators Behaviours.never_generates)
                  true true Consoles.working) in
  ∃ resp c2,
    run.1 = Verbose.Returned resp ∧
    payload_status resp = Some "failed" ∧
    py_lookup2 "metadata" "failed_at_stage" resp
    = Some (PStr "code_generation") ∧
    py_lookup2 "metadata" "generation_attempts" resp = Some (PInt 3) ∧
    py_lookup "last_attempt" resp = Some PNone ∧
    gen_log (Verbose.calls run.2) !! 1 = Some c2 ∧
    gq_previous_attempt (gc_request c2) = Some PNone.
Proof.
  intros run.
  destruct (generation_exhaustion_fails_the_request Consoles.show "req-1" "t0"
              "t1" "add two numbers"
              (Consoles.fresh (Verbose.of_collaborators Behaviours.never_generates)
                 true true Consoles.working))
    as (resp & m1 & m2 & m3 & c1 & c2 & c3 & Hout & Hstatus & Hstage & Hgen
        & _ & Hlast & _ & Hcalls & _ & [_ Hprev] & _).
  - right. reflexivity.
  - apply of_collaborators_only_exceptions.
  - intros n q. reflexivity.
  - exists resp, c2. subst run.
    split_and!; try assumption. rewrite Hcalls. reflexivity.
Defined.

(** X8: when no line fails to print, the first answer of the generation
    service is a success with a code, the validator accepts that code, the
    detector verifies it and the review service raises nothing but an
    [Exception], the request succeeds with that code after one call of each
    of the three agents: the three counters are 1, [total_attempts] is 3 and
    the error log stays empty. *)
Theorem first_candidate_accepted_gives_success
    (py_str : pyval → string) (rid created now req : string) (self : Verbose.t)
    (gres : GenResult) (code : pyval) (sres : SynResult) (hres : HalResult) :
  Verbose.quiet self →
  Verbose.only_exceptions (Verbose.agents self) →
  Verbose.code_generator (Verbose.agents self)
    (length (gen_log (Verbose.calls self))) (first_request req)
  = Verbose.Returned gres →
  gr_status gres = Some "success" →
  gr_code gres = Some code →
  Verbose.syntax_checker (Verbose.agents self)
    (length (syn_log (Verbose.calls self))) code ("Generated for: " +:+ req)
  = Verbose.Returned sres →
  sr_status sres = Some "SYNTAX_VALID" →
  Verbose.hallucination_detector (Verbose.agents self)
    (length (hal_log (Verbose.calls self))) code
  = Verbose.Returned hres →
  hr_status hres = Some "VERIFIED" →
  let run := Verbose.generate_code py_str rid created now req self in
  ∃ resp s,
    run.1 = Verbose.Returned resp ∧
    payload_status resp = Some "success" ∧
    py_lookup "code" resp = Some code ∧
    py_lookup2 "metadata" "generation_attempts" resp = Some (PInt 1) ∧
    py_lookup2 "metadata" "syntax_fix_attempts" resp = Some (PInt 1) ∧
    py_lookup2 "metadata" "hallucination_fix_attempts" resp = Some (PInt 1) ∧
    py_lookup2 "metadata" "total_attempts" resp = Some (PInt 3) ∧
    Verbose.states run.2 !! rid = Some s ∧
    error_messages s = [] ∧
    syntax_result (artifacts s) = Some sres ∧
    hallucination_result (artifacts s) = Some hres ∧
    gen_log (Verbose.calls run.2)
    = (gen_log (Verbose.calls self)
         ++ [{| gc_request := first_request req; gc_errors_at_call := [] |}])%list ∧
    syn_log (Verbose.calls run.2)
    = (syn_log (Verbose.calls self) ++ [(code, "Generated for: " +:+ req)])%list ∧
    hal_log (Verbose.calls run.2) = (hal_log (Verbose.calls self) ++ [code])%list.
Proof.
  intros Hquiet Hfaults Hgen Hgs Hgc Hval Hss Hver Hhs run. subst run.
  destruct (first_candidate_accepted_without_console rid created now req
              (Verbose.without_console self) gres code sres hres)
    as (resp & s & Hout & Hrest); try assumption.
  - simpl. now rewrite Hgen.
  - simpl. now rewrite Hval.
  - simpl. now rewrite Hver.
  - exists resp, s. split; [now apply refined_outcome|].
    rewrite refined_calls, refined_states by assumption. exact Hrest.
Qed.

(** Everything succeeds at once, with every line printed. *)
Lemma first_candidate_accepted_gives_success_witness :
  let run := Verbose.generate_code Consoles.show "req-1" "t0" "t1"
               "add two numbers"
               (Consoles.fresh (Verbose.of_collaborators Scenarios.happy)
                  true true Consoles.working) in
  ∃ resp,
    run.1 = Verbose.Returned resp ∧
    payload_status resp = Some "success" ∧
    py_lookup "code" resp = Some (PStr "import os") ∧
    py_lookup2 "metadata" "total_attempts" resp = Some (PInt 3).
Proof.
  intros run.
  edestruct (first_candidate_accepted_gives_success Consoles.show "req-1" "t0"
               "t1" "add two numbers"
               (Consoles.fresh (Verbose.of_collaborators Scenarios.happy)
                  true true Consoles.working))
    as (resp & s & Hout & Hstatus & Hcode & _ & _ & _ & Htotal & _).
  - right. reflexivity.
  - apply of_collaborators_only_exceptions.
  - reflexivity.
  - reflexivity.
  - reflexivity.
  - vm_compute. reflexivity.
  - reflexivity.
  - vm_compute. reflexivity.
  - reflexivity.
  - exists resp. split_and!; assumption.
Defined.

(** * The console and the outcome of a request *)

(** X26: when no line fails to print ([verbose] is off, or [print] always
    returns) and the agents raise nothing but instances of [Exception],
    logging changes nothing: [generate_code] returns the payload, stores the
    states and makes the calls of the controller without its console, and
    it does return. *)
Theorem console_that_prints_changes_nothing
    (py_str : pyval → string) (rid created now req : string) (self : Verbose.t) :
  Verbose.quiet self →
  Verbose.only_exceptions (Verbose.agents self) →
  let new := Verbose.generate_code py_str rid created now req self in
  let old := generate_code rid created now req (Verbose.without_console self) in
  ∃ resp,
    old.1 = Ret resp ∧
    new.1 = Verbose.Returned resp ∧
    Verbose.states new.2 = states old.2 ∧
    Verbose.calls new.2 = calls old.2.
Proof.
  intros Hquiet Hfaults new old. subst new old.
  destruct (generate_code_outcome rid created now req
              (Verbose.without_console self)) as (resp & r' & _ & Hold).
  destruct (generate_code_refines py_str rid created now req self Hquiet Hfaults)
    as (Hout & Hself & _).
  cbv zeta in Hout, Hself. exists resp.
  rewrite Hout, <- Hself, Hold. split_and!; reflexivity.
Qed.

(** A request that succeeds at once, with every line printed. *)
Lemma console_that_prints_changes_nothing_witness :
  let self := Consoles.fresh (Verbose.of_collaborators Scenarios.happy)
                true true Consoles.working in
  let new := Verbose.generate_code Consoles.show "req-1" "t0" "t1"
               "add two numbers" self in
  let old := generate_code "req-1" "t0" "t1" "add two numbers"
               (Verbose.without_console self) in
  ∃ resp,
    old.1 = Ret resp ∧ new.1 = Verbose.Returned resp ∧
    payload_status resp = Some "success" ∧
    Verbose.calls new.2 = calls old.2.
Proof.
  intros self new old.
  destruct (console_that_prints_changes_nothing Consoles.show "req-1" "t0" "t1"
              "add two numbers" self) as (resp & Hold & Hnew & _ & Hcalls).
  - right. reflexivity.
  - apply of_collaborators_only_exceptions.
  - exists resp. split_and!; [exact Hold | exact Hnew | | exact Hcalls].
    vm_compute in Hold. inversion Hold. reflexivity.
Defined.

(** ** A standard output that cannot print the marks of the log *)

Lemma is_ascii_app a b :
  Consoles.is_ascii (a +:+ b) = Consoles.is_ascii a && Consoles.is_ascii b.
Proof.
  unfold Consoles.is_ascii. induction a as [|c a IH]; simpl; [reflexivity|].
  rewrite IH. now rewrite andb_assoc.
Qed.

Lemma L_bind_modify {B} f (k : unit → Verbose.L B) w :
  (Verbose.run_M (modify f) ≫= k) w
  = k tt {| Verbose.run := {| st := f (st (Verbose.run w));
                              tr := tr (Verbose.run w) |};
            Verbose.out_log := Verbose.out_log w |}.
Proof. reflexivity. Qed.

Lemma L_bind_get {B} (k : RequestState → Verbose.L B) w :
  (Verbose.run_M get ≫= k) w
  = k (st (Verbose.run w))
      {| Verbose.run := Verbose.run w; Verbose.out_log := Verbose.out_log w |}.
Proof. reflexivity. Qed.

Lemma L_bind_ret {A B} (a : A) (k : A → Verbose.L B) w :
  (Verbose.run_M (mret a) ≫= k) w
  = k a {| Verbose.run := Verbose.run w; Verbose.out_log := Verbose.out_log w |}.
Proof. reflexivity. Qed.

Lemma L_bind_getitem {A B} key (a : A) (k : A → Verbose.L B) w :
  (Verbose.run_M (getitem key (Some a)) ≫= k) w
  = k a {| Verbose.run := Verbose.run w; Verbose.out_log := Verbose.out_log w |}.
Proof. reflexivity. Qed.

Section AsciiConsole.
Variable ag : Verbose.Agents.

Abbreviation log := (Verbose._log true Consoles.ascii).
Abbreviation failure :=
  (Verbose.Raised (Verbose.Exception Consoles.ascii_error)).

(** A line of ASCII characters is printed. *)
Lemma L_bind_log {B} message level (k : unit → Verbose.L B) w :
  Consoles.is_ascii (Verbose.log_line level message) = true →
  (log message level ≫= k) w
  = k tt {| Verbose.run := Verbose.run w;
            Verbose.out_log :=
              (Verbose.out_log w ++ [Verbose.log_line level message])%list |}.
Proof.
  intros Hline. unfold mbind, Verbose.L_bind, Verbose._log, Consoles.ascii.
  rewrite Hline. reflexivity.
Qed.

(** A line with a mark is not, whatever follows the mark. *)
Lemma L_bind_mark {B} level mark rest (k : unit → Verbose.L B) w :
  Consoles.is_ascii mark = false →
  (log (mark +:+ rest) level ≫= k) w
  = (failure,
     {| Verbose.run := Verbose.run w;
        Verbose.out_log :=
          (Verbose.out_log w ++ [Verbose.log_line level (mark +:+ rest)])%list |}).
Proof.
  intros Hmark. unfold mbind, Verbose.L_bind, Verbose._log, Consoles.ascii.
  unfold Verbose.log_line at 1.
  rewrite !is_ascii_app, Hmark, andb_false_r, !andb_false_r. reflexivity.
Qed.

(** The handler of an attempt stores its entry and fails to log it. *)
Lemma attempt_handler_on_ascii e w :
  ∃ w',
    (Verbose.run_M (modify (append_error ("Generation exception: " +:+ e)));;
     log ("  ✗ " +:+ ("Generation exception: " +:+ e)) "ERROR";;
     mret None) w
    = (failure : Verbose.Result (option bool), w') ∧
    tr (Verbose.run w') = tr (Verbose.run w).
Proof.
  rewrite L_bind_modify, L_bind_mark by (vm_compute; reflexivity).
  eexists. split; reflexivity.
Qed.

(** The [try] block of the first attempt: whatever the service answers,
    the block raises, at the latest when it logs a line with a mark. *)
Lemma first_try_on_ascii (k : GenResult → Verbose.L (option bool)) w req :
  Verbose.is_catchable
    (Verbose.code_generator ag (length (gen_log (tr (Verbose.run w)))) req) →
  (∀ result w1, ∃ e w2, k result w1 = (Verbose.Raised (Verbose.Exception e), w2) ∧
                        tr (Verbose.run w2) = tr (Verbose.run w1)) →
  ∃ e w',
    (Verbose.call_generate ag req ≫= k) w
    = (Verbose.Raised (Verbose.Exception e), w') ∧
    tr (Verbose.run w')
    = with_gen_call
        {| gc_request := req;
           gc_errors_at_call := error_messages (st (Verbose.run w)) |}
        (tr (Verbose.run w)).
Proof.
  intros Hcatch Hrest. unfold mbind at 1, Verbose.L_bind at 1.
  unfold Verbose.call_generate.
  destruct (Verbose.code_generator ag _ req) as [result|[e|e]];
    [| | contradiction].
  - match goal with |- context [k result ?w1] =>
      destruct (Hrest result w1) as (e & w2 & Hk & Htr)
    end.
    exists e, w2. split; [exact Hk|]. rewrite Htr. reflexivity.
  - eexists e, _. split; reflexivity.
Qed.

(** What the first attempt does with the answer of the service. *)
Lemma first_answer_on_ascii result w :
  ∃ e w',
    (status ← Verbose.run_M (getitem "status" (gr_status result));
     if String.eqb status "success" then
       code ← Verbose.run_M (getitem "code" (gr_code result));
       Verbose.run_M (modify (set_generated_code code));;
       log "  ✓ Code generated successfully" "INFO";;
       mret (Some true)
     else
       let error_msg := default "Unknown error" (gr_error result) in
       Verbose.run_M (modify (append_error ("Generation error: " +:+ error_msg)));;
       log ("  ✗ Generation failed: " +:+ error_msg) "WARN";;
       mret None) w
    = (Verbose.Raised (Verbose.Exception e) : Verbose.Result (option bool), w') ∧
    tr (Verbose.run w') = tr (Verbose.run w).
Proof.
  destruct (gr_status result) as [status|].
  2:{ eexists _, _. split; reflexivity. }
  rewrite L_bind_getitem.
  destruct (String.eqb status "success").
  - destruct (gr_code result) as [code|].
    2:{ eexists _, _. split; reflexivity. }
    rewrite L_bind_getitem, L_bind_modify.
    change "  ✓ Code generated successfully"
      with ("  ✓" +:+ " Code generated successfully").
    rewrite L_bind_mark by (vm_compute; reflexivity).
    eexists _, _. split; reflexivity.
  - cbv zeta. rewrite L_bind_modify.
    change ("  ✗ Generation failed: " +:+ ?m)
      with ("  ✗" +:+ (" Generation failed: " +:+ m)).
    rewrite L_bind_mark by (vm_compute; reflexivity).
    eexists _, _. split; reflexivity.
Qed.

(** The first attempt of the generation stage: whatever the service
    answers, a line with a mark is logged next, and the handler of the
    attempt logs another. *)
Lemma first_attempt_on_ascii w :
  Verbose.is_catchable
    (Verbose.code_generator ag (length (gen_log (tr (Verbose.run w))))
       (first_request (user_request (st (Verbose.run w))))) →
  ∃ w',
    Verbose.generation_attempt ag true Consoles.ascii 1 w = (failure, w') ∧
    tr (Verbose.run w')
    = with_gen_call
        {| gc_request := first_request (user_request (st (Verbose.run w)));
           gc_errors_at_call := error_messages (st (Verbose.run w)) |}
        (tr (Verbose.run w)).
Proof.
  intros Hcatch. unfold Verbose.generation_attempt.
  rewrite L_bind_modify, L_bind_log by (vm_compute; reflexivity).
  unfold Verbose.try_except.
  rewrite L_bind_get. cbn [Verbose.run Verbose.out_log st tr].
  change (prepare_request 1 ?s)
    with (mret (first_request (user_request s)) : M GenRequest).
  rewrite L_bind_ret. cbn [Verbose.run Verbose.out_log st tr].
  match goal with |- context [(Verbose.call_generate ag ?req ≫= ?k) ?w1] =>
    destruct (first_try_on_ascii k w1 req) as (e & w2 & Hbody & Htr)
  end.
  - exact Hcatch.
  - intros result w1. apply first_answer_on_ascii.
  - rewrite Hbody.
    destruct (attempt_handler_on_ascii e w2) as (w3 & Hhandler & Htr3).
    exists w3. split; [exact Hhandler|]. rewrite Htr3, Htr. reflexivity.
Qed.

(** The generation stage raises in its first attempt. *)
Lemma run_code_generation_on_ascii w :
  Verbose.is_catchable
    (Verbose.code_generator ag (length (gen_log (tr (Verbose.run w))))
       (first_request (user_request (st (Verbose.run w))))) →
  ∃ w',
    Verbose._run_code_generation ag true Consoles.ascii w = (failure, w') ∧
    tr (Verbose.run w')
    = with_gen_call
        {| gc_request := first_request (user_request (st (Verbose.run w)));
           gc_errors_at_call := error_messages (st (Verbose.run w)) |}
        (tr (Verbose.run w)).
Proof.
  intros Hcatch. unfold Verbose._run_code_generation.
  rewrite L_bind_modify, L_bind_log by (vm_compute; reflexivity).
  unfold range1, MAX_GENERATION_RETRIES.
  cbn [seq Verbose.for_each Verbose.run Verbose.out_log].
  match goal with |- ∃ _, _ ?w1 = _ ∧ _ =>
    destruct (first_attempt_on_ascii w1) as (w2 & Hattempt & Htr);
      [exact Hcatch|]
  end.
  exists w2. split; [|exact Htr].
  rewrite (L_bind_raised _ _ _ _ _ (L_bind_raised _ _ _ _ _ Hattempt)).
  reflexivity.
Qed.

(** Identifiers and requests made of ASCII characters are announced. *)
Lemma announce_on_ascii rid req w :
  Consoles.is_ascii rid = true →
  Consoles.is_ascii req = true →
  ∃ w', Verbose.announce true Consoles.ascii rid req w = (Verbose.Returned tt, w') ∧
        Verbose.run w' = Verbose.run w.
Proof.
  intros Hrid Hreq. unfold Verbose.announce.
  rewrite L_bind_log
    by (unfold Verbose.log_line; rewrite !is_ascii_app, Hrid; reflexivity).
  unfold Verbose._log, Consoles.ascii, Verbose.log_line.
  rewrite !is_ascii_app, Hreq. cbn [Verbose.out_log Verbose.run].
  eexists. split; reflexivity.
Qed.
End AsciiConsole.

(** X27: on a standard output whose encoding is ASCII, with [verbose] at
    its default, no request succeeds.  Whatever the generation service
    answers to its first call (a code, an error, an [Exception]), the line
    logged next holds a check mark or a cross, which cannot be printed; the
    handler of the attempt logs a cross in turn, the exception leaves the
    stage and reaches the handler of [generate_code].  The request is marked
    failed and the failure payload is returned with [failed_at_stage] =
    ['failed'], after one call of the generation service and none of the
    other agents. *)
Theorem ascii_console_fails_every_request
    (py_str : pyval → string) (rid created now req : string) (self : Verbose.t) :
  Verbose.verbose self = true →
  Verbose.print self = Consoles.ascii →
  (∀ n q, Verbose.is_catchable (Verbose.code_generator (Verbose.agents self) n q)) →
  Consoles.is_ascii rid = true →
  Consoles.is_ascii req = true →
  let run := Verbose.generate_code py_str rid created now req self in
  ∃ resp s,
    run.1 = Verbose.Returned resp ∧
    is_failure_payload resp = true ∧
    py_lookup2 "metadata" "failed_at_stage" resp = Some (PStr "failed") ∧
    Verbose.states run.2 !! rid = Some s ∧
    status s = Status.FAILED ∧
    Verbose.calls run.2
    = with_gen_call {| gc_request := first_request req; gc_errors_at_call := [] |}
        (Verbose.calls self).
Proof.
  intros Hverbose Hprint Hcatch Hrid Hreq run. subst run.
  unfold Verbose.generate_code. rewrite Hverbose, Hprint.
  set (w0 := {| Verbose.run := {| st := new_state rid created req;
                                  tr := Verbose.calls self |};
                Verbose.out_log := Verbose.printed self |}).
  destruct (announce_on_ascii rid req w0 Hrid Hreq) as (w1 & Hannounce & Hrun1).
  rewrite (L_bind_eq _ _ _ _ _ Hannounce).
  destruct (run_code_generation_on_ascii (Verbose.agents self) w1)
    as (w2 & Hstage & Htr2); [apply Hcatch|].
  unfold Verbose.run_pipeline, Verbose.try_except, Verbose.try_block.
  rewrite (L_bind_raised _ _ _ _ _ Hstage).
  destruct (handler_returns true Consoles.ascii now Consoles.ascii_error w2)
    as (resp & w3 & Hhandler & Hshape & Hfailed & Hstatus & _ & Htr3).
  { unfold Verbose._log, Consoles.ascii.
    replace (Consoles.is_ascii _) with true by (vm_compute; reflexivity).
    reflexivity. }
  rewrite Hhandler. exists resp, (st (Verbose.run w3)).
  cbn [fst snd Verbose.states Verbose.calls].
  split_and!; [reflexivity | exact Hshape | exact Hfailed
              | apply lookup_insert_eq | exact Hstatus |].
  rewrite Htr3, Htr2, Hrun1. reflexivity.
Qed.

(** A generation service that answers with a code at once. *)
Lemma ascii_console_fails_every_request_witness :
  let run := Verbose.generate_code Consoles.show "req-1" "t0" "t1"
               "add two numbers"
               (Consoles.fresh (Verbose.of_collaborators Scenarios.happy)
                  true true Consoles.ascii) in
  ∃ resp s,
    run.1 = Verbose.Returned resp ∧
    is_failure_payload resp = true ∧
    py_lookup2 "metadata" "failed_at_stage" resp = Some (PStr "failed") ∧
    Verbose.states run.2 !! "req-1" = Some s ∧
    status s = Status.FAILED ∧
    length (gen_log (Verbose.calls run.2)) = 1 ∧
    syn_log (Verbose.calls run.2) = [].
Proof.
  intros run.
  destruct (ascii_console_fails_every_request Consoles.show "req-1" "t0" "t1"
              "add two numbers"
              (Consoles.fresh (Verbose.of_collaborators Scenarios.happy)
                 true true Consoles.ascii))
    as (resp & s & Hout & Hshape & Hstage & Hstate & Hstatus & Hcalls).
  - reflexivity.
  - reflexivity.
  - intros n q. apply of_outcome_catchable.
  - vm_compute. reflexivity.
  - vm_compute. reflexivity.
  - exists resp, s. subst run.
    split_and!; try assumption; rewrite Hcalls; reflexivity.
Defined.
